(** * POS_MultiLocation: cart, sale and return consistency layer

    A shallow embedding of the React context providers of the point-of-sale
    application (CartContext, SalesContext, ReturnContext, CategoryContext
    and the checkout handler of the POS page), and the properties of the
    design specification that concern them.

    Conventions of the embedding.
    - A context operation is a computation [M A] over one [World]: the
      session ([currentUser], [currentLocation]), the document-store
      collections, and the in-memory React state each provider keeps.
    - An [async] function that [throw]s is a computation that returns
      [Thrown e]; the state it had written before the [throw] is kept,
      as no operation of the source rolls anything back.
    - JavaScript [number]s that count units are [Z]; the invoice counter,
      only ever written as [1] or as a successor, is [N]; amounts of money
      are exact rationals [Q]. The program computes amounts in binary64:
      what the further properties state of an amount is an equation between
      expressions as the source evaluates them, in its order of
      evaluation, or the value of a sum of at most one term; none rearranges a sum
      or a product.
    - Optional, [null] and [undefined] fields are [option]; JavaScript
      truthiness of a string field is [truthy].
    - Identifiers drawn by the environment (uuidv4, the document id chosen
      by [addDoc]) and the formatted date of the clock are arguments.
    - Collections are lists, most recent document first; the [orderBy]
      clause of a query and the timestamps it sorts on are left out. Sales
      and returns are read by [createdAt], latest first, as the lists are;
      the categories are read by name, and what the further properties
      state of the categories read does not depend on their order.
    - Calls to the document store are taken to succeed; the [loading] and
      [error] flags of the providers and the receipt dialogs are left out.
    - Operations run one after the other: each call sees the state the
      previous one left, as after a render.

    The development also covers the buttons of the cart, the
    LocationContext and the location selector, the PurchaseContext and
    the StockContext, the AuthContext ([login], [register] and the
    listener of the auth state, with the [error] they keep), the user
    page of an admin and the figures of the manager's dashboard. The
    identity provider, [trim] and the sort by name are arguments. *)

From Stdlib Require Import Bool Arith ZArith NArith QArith Lia.
From Stdlib Require Import List Sorted Permutation.
From Stdlib Require Import Ascii String.
From Stdlib Require Import DecimalString DecimalN DecimalFacts.
Import ListNotations.

Local Open Scope string_scope.
Local Open Scope Z_scope.

(** ** Data model (src/types) *)

Inductive UserRole :=
| superadmin | admin | manager | salesperson
| franchise_manager | franchise_staff | super_admin.

Definition role_eqb (a b : UserRole) : bool :=
  match a, b with
  | superadmin, superadmin | admin, admin | manager, manager
  | salesperson, salesperson | franchise_manager, franchise_manager
  | franchise_staff, franchise_staff | super_admin, super_admin => true
  | _, _ => false
  end.

Record User := mkUser {
  uid : string;
  role : UserRole;
  isActive : bool;
  user_locationId : option string
}.

Record Location := mkLocation {
  loc_id : string;
  loc_name : string
}.

Record Category := mkCategory {
  cat_id : string;
  cat_name : string;
  cat_description : option string;
  cat_locationId : option string
}.

Record Product := mkProduct {
  p_id : string;
  p_name : string;
  p_price : Q;
  p_categoryId : string;
  p_quantity : Z;
  p_locationId : option string
}.

Record CartItem := mkCartItem {
  ci_id : string;
  ci_productId : string;
  ci_name : string;
  ci_price : Q;
  ci_quantity : Z
}.

Inductive PaymentMethod := cash | card | upi.

(** [Omit<Sale, 'id' | 'createdAt' | 'invoiceNumber'>] *)
Record SaleData := mkSaleData {
  sd_items : list CartItem;
  sd_subtotal : Q;
  sd_cgst : Q;
  sd_sgst : Q;
  sd_total : Q;
  sd_paymentMethod : PaymentMethod;
  sd_createdBy : string;
  sd_locationId : option string
}.

Record Sale := mkSale {
  sale_id : string;
  invoiceNumber : string;
  sale_items : list CartItem;
  sale_subtotal : Q;
  sale_cgst : Q;
  sale_sgst : Q;
  sale_total : Q;
  paymentMethod : PaymentMethod;
  sale_createdBy : string;
  sale_locationId : option string
}.

Inductive ReturnType := sale_return | purchase_return.

Record ReturnItem := mkReturnItem {
  ri_id : string;
  ri_productId : string;
  ri_name : string;
  ri_quantity : Z;
  ri_price : Q
}.

Record ReturnFormData := mkReturnFormData {
  rf_type : ReturnType;
  rf_referenceId : string;
  rf_items : list ReturnItem;
  rf_reason : string;
  rf_refundMethod : option PaymentMethod;
  rf_total : option Q
}.

Record Return := mkReturn {
  ret_id : string;
  ret_type : ReturnType;
  referenceId : string;
  ret_items : list ReturnItem;
  ret_reason : string;
  ret_total : Q;
  ret_locationId : option string;
  ret_createdBy : option string;
  ret_refundMethod : option PaymentMethod
}.

(** ** JavaScript truthiness and optional chaining *)

(** [!!s] for a string field that may be missing: [undefined], [null] and
    the empty string are falsy. *)
Definition truthy (s : option string) : bool :=
  match s with
  | Some v => negb (v =? "")%string
  | None => false
  end.

(** [!!x] for a number that may be missing: [undefined] and [0] are falsy. *)
Definition truthy_num (x : option Q) : bool :=
  match x with
  | Some v => negb (Qeq_bool v 0)
  | None => false
  end.

(** [currentUser?.role === r] *)
Definition has_role (u : option User) (r : UserRole) : bool :=
  match u with
  | Some v => role_eqb (role v) r
  | None => false
  end.

(** [currentUser?.locationId] *)
Definition locationId_of (u : option User) : option string :=
  match u with
  | Some v => user_locationId v
  | None => None
  end.

(** Equality of a stored [locationId] field with a queried value: the
    [where('locationId', '==', v)] clause of a Firestore query; a document
    without the field never matches. *)
Definition locationId_is (v : string) (field : option string) : bool :=
  match field with
  | Some f => (f =? v)%string
  | None => false
  end.

(** ** The world the providers act on *)

Record World := mkWorld {
  currentUser : option User;            (* AuthContext *)
  currentLocation : option Location;    (* LocationContext *)
  products : list Product;              (* ProductContext state *)
  items : list CartItem;                (* CartContext state *)
  salesDb : list Sale;                  (* collection 'sales' *)
  sales : list Sale;                    (* SalesContext state *)
  returnsDb : list Return;              (* collection 'returns' *)
  returns : list Return;                (* ReturnContext state *)
  categoriesDb : list Category;         (* collection 'categories' *)
  categories : list Category;           (* CategoryContext state *)
  counter : option N                    (* document counters/sales, currentCount *)
}.

Definition set_products (f : list Product -> list Product) (w : World) : World :=
  mkWorld (currentUser w) (currentLocation w) (f (products w)) (items w)
          (salesDb w) (sales w) (returnsDb w) (returns w)
          (categoriesDb w) (categories w) (counter w).

Definition setItems (f : list CartItem -> list CartItem) (w : World) : World :=
  mkWorld (currentUser w) (currentLocation w) (products w) (f (items w))
          (salesDb w) (sales w) (returnsDb w) (returns w)
          (categoriesDb w) (categories w) (counter w).

Definition set_salesDb (f : list Sale -> list Sale) (w : World) : World :=
  mkWorld (currentUser w) (currentLocation w) (products w) (items w)
          (f (salesDb w)) (sales w) (returnsDb w) (returns w)
          (categoriesDb w) (categories w) (counter w).

Definition setSales (v : list Sale) (w : World) : World :=
  mkWorld (currentUser w) (currentLocation w) (products w) (items w)
          (salesDb w) v (returnsDb w) (returns w)
          (categoriesDb w) (categories w) (counter w).

Definition set_returnsDb (f : list Return -> list Return) (w : World) : World :=
  mkWorld (currentUser w) (currentLocation w) (products w) (items w)
          (salesDb w) (sales w) (f (returnsDb w)) (returns w)
          (categoriesDb w) (categories w) (counter w).

Definition setReturns (v : list Return) (w : World) : World :=
  mkWorld (currentUser w) (currentLocation w) (products w) (items w)
          (salesDb w) (sales w) (returnsDb w) v
          (categoriesDb w) (categories w) (counter w).

Definition set_categoriesDb (f : list Category -> list Category) (w : World) : World :=
  mkWorld (currentUser w) (currentLocation w) (products w) (items w)
          (salesDb w) (sales w) (returnsDb w) (returns w)
          (f (categoriesDb w)) (categories w) (counter w).

Definition setCategories (v : list Category) (w : World) : World :=
  mkWorld (currentUser w) (currentLocation w) (products w) (items w)
          (salesDb w) (sales w) (returnsDb w) (returns w)
          (categoriesDb w) v (counter w).

Definition set_counter (v : option N) (w : World) : World :=
  mkWorld (currentUser w) (currentLocation w) (products w) (items w)
          (salesDb w) (sales w) (returnsDb w) (returns w)
          (categoriesDb w) (categories w) v.

(** A change of session: another user logs in, or a location is selected. *)
Definition set_session (u : option User) (l : option Location) (w : World) : World :=
  mkWorld u l (products w) (items w)
          (salesDb w) (sales w) (returnsDb w) (returns w)
          (categoriesDb w) (categories w) (counter w).

(** ** Computations that read and write the world and may throw *)

Inductive Error :=
| NoLocationAvailable
| ItemAlreadyReturned (name : string)
| ProductNotFound (name : string).

Definition dquote : string := String (ascii_of_nat 34) EmptyString.

(** The text of [new Error(...)] at each [throw] of the source. *)
Definition message (e : Error) : string :=
  match e with
  | NoLocationAvailable =>
      "No location available. Please select a location or contact an administrator."
  | ItemAlreadyReturned name =>
      "Item " ++ dquote ++ name ++ dquote ++ " has already been returned"
  | ProductNotFound name => "Product not found: " ++ name
  end.

Inductive Result (A : Type) :=
| Ok (a : A)
| Thrown (e : Error).
Arguments Ok {A} a.
Arguments Thrown {A} e.

Definition M (A : Type) : Type := World -> Result A * World.

Definition ret {A} (a : A) : M A := fun w => (Ok a, w).

Definition bind {A B} (m : M A) (k : A -> M B) : M B :=
  fun w => match m w with
           | (Ok a, w') => k a w'
           | (Thrown e, w') => (Thrown e, w')
           end.

Definition throw {A} (e : Error) : M A := fun w => (Thrown e, w).

Definition get : M World := fun w => (Ok w, w).

Definition modify (f : World -> World) : M unit := fun w => (Ok tt, f w).

(** [try { body } catch (error) { console.error(...) }] *)
Definition try_catch (body : M unit) : M unit :=
  fun w => match body w with
           | (Ok _, w') => (Ok tt, w')
           | (Thrown _, w') => (Ok tt, w')
           end.

Definition outcome {A} (m : M A) (w : World) : Result A := fst (m w).
Definition exec {A} (m : M A) (w : World) : World := snd (m w).

Declare Scope ctx_scope.
Delimit Scope ctx_scope with ctx.
Notation "x <- c ;; k" := (bind c (fun x => k))
  (at level 100, c at next level, right associativity) : ctx_scope.
Notation "c ;;; k" := (bind c (fun _ => k))
  (at level 100, right associativity) : ctx_scope.
Local Open Scope ctx_scope.

(** ** Location-scoped reads

    [refreshSales] (SalesContext), [refreshReturns] (ReturnContext) and
    [refreshCategories] (CategoryContext) build their query by the same
    chain of tests, on the collection each one reads. *)

Section ScopedRead.
Context {Doc : Type} (locationId : Doc -> option string).

(** [query(collection(db, c), where('locationId', '==', v))] *)
Definition where_locationId (v : string) (db : list Doc) : list Doc :=
  filter (fun d => locationId_is v (locationId d)) db.

Definition scopedQuery (l : option Location) (u : option User)
           (db : list Doc) : list Doc :=
  match l with
  | Some loc =>
      (* If a location is selected, get the documents of that location *)
      where_locationId (loc_id loc) db
  | None =>
      if has_role u salesperson && truthy (locationId_of u) then
        where_locationId (match locationId_of u with Some v => v | None => "" end) db
      else if has_role u manager && truthy (locationId_of u) then
        where_locationId (match locationId_of u with Some v => v | None => "" end) db
      else if has_role u admin && truthy (locationId_of u) then
        where_locationId (match locationId_of u with Some v => v | None => "" end) db
      else
        (* Otherwise get all documents *)
        db
  end.
End ScopedRead.

Definition refreshSales : M unit :=
  modify (fun w =>
    setSales (scopedQuery sale_locationId (currentLocation w) (currentUser w) (salesDb w)) w).

Definition refreshReturns : M unit :=
  modify (fun w =>
    setReturns (scopedQuery ret_locationId (currentLocation w) (currentUser w) (returnsDb w)) w).

Definition refreshCategories : M unit :=
  modify (fun w =>
    setCategories (scopedQuery cat_locationId (currentLocation w) (currentUser w) (categoriesDb w)) w).

(** The location a write is filed under: the selected location, else the
    user's own ([addReturn], [addCategory]; [addSale] tries the location of
    the sale data first). *)
Definition writeLocation (w : World) : option string :=
  match currentLocation w with
  | Some loc => Some (loc_id loc)
  | None => if truthy (locationId_of (currentUser w))
            then locationId_of (currentUser w) else None
  end.

(** ** ProductContext *)

Definition find_product (id : string) (ps : list Product) : option Product :=
  find (fun p => (p_id p =? id)%string) ps.

(** Modelled from the spec: [updateProduct] belongs to ProductContext, which
    is not among the sources. By section 6 the document store updates the
    named fields of a document by identifier, and every caller passes the
    whole product ([{...product, quantity: q}]): the document [id] is
    replaced by [data], and the [products] state follows the store. *)
Definition updateProduct (id : string) (data : Product) : M unit :=
  modify (set_products (map (fun p => if (p_id p =? id)%string then data else p))).

Definition with_quantity (p : Product) (q : Z) : Product :=
  mkProduct (p_id p) (p_name p) (p_price p) (p_categoryId p) q (p_locationId p).

(** ** CartContext *)

Definition GST_RATE : Q := 5 # 100.

Definition ci_with_quantity (i : CartItem) (q : Z) : CartItem :=
  mkCartItem (ci_id i) (ci_productId i) (ci_name i) (ci_price i) q.

Definition addItem (uuid : string) (product : Product) : M unit :=
  w <- get ;;
  match find_product (p_id product) (products w) with
  | None => ret tt
  | Some currentProduct =>
    if p_quantity currentProduct <=? 0 then ret tt
    else
      (* Verify product belongs to current location *)
      let foreign :=
        match currentLocation w with
        | Some loc =>
            truthy (p_locationId currentProduct) &&
            negb (locationId_is (loc_id loc) (p_locationId currentProduct))
        | None => false
        end in
      if foreign then ret tt
      else
        try_catch (
          updateProduct (p_id currentProduct)
            (with_quantity currentProduct (p_quantity currentProduct - 1)) ;;;
          modify (setItems (fun currentItems =>
            match find (fun item => (ci_productId item =? p_id product)%string) currentItems with
            | Some _ =>
                map (fun item =>
                       if (ci_productId item =? p_id product)%string
                       then ci_with_quantity item (ci_quantity item + 1)
                       else item) currentItems
            | None =>
                (currentItems ++
                 [mkCartItem uuid (p_id product) (p_name product) (p_price product) 1])%list
            end)))
  end.

Definition removeItem (id : string) : M unit :=
  w <- get ;;
  match find (fun i => (ci_id i =? id)%string) (items w) with
  | None => ret tt
  | Some item =>
    match find_product (ci_productId item) (products w) with
    | None => ret tt
    | Some product =>
        try_catch (
          updateProduct (p_id product)
            (with_quantity product (p_quantity product + ci_quantity item)) ;;;
          modify (setItems (filter (fun item => negb (ci_id item =? id)%string))))
    end
  end.

Definition updateQuantity (id : string) (newQuantity : Z) : M unit :=
  if newQuantity <? 1 then ret tt
  else
    w <- get ;;
    match find (fun i => (ci_id i =? id)%string) (items w) with
    | None => ret tt
    | Some item =>
      match find_product (ci_productId item) (products w) with
      | None => ret tt
      | Some product =>
          let quantityDiff := newQuantity - ci_quantity item in
          (* Check if we have enough stock for the increase *)
          if (0 <? quantityDiff) && (p_quantity product <? quantityDiff) then ret tt
          else
            try_catch (
              updateProduct (p_id product)
                (with_quantity product (p_quantity product - quantityDiff)) ;;;
              modify (setItems (map (fun item =>
                if (ci_id item =? id)%string
                then ci_with_quantity item newQuantity else item))))
      end
    end.

Definition clearCart : M unit := modify (setItems (fun _ => [])).

Definition subtotal (w : World) : Q :=
  fold_left (fun sum item => (sum + ci_price item * inject_Z (ci_quantity item))%Q)
            (items w) 0%Q.
Definition cgst (w : World) : Q := (subtotal w * (GST_RATE / 2))%Q.
Definition sgst (w : World) : Q := (subtotal w * (GST_RATE / 2))%Q.
Definition total (w : World) : Q := (subtotal w + cgst w + sgst w)%Q.

(** ** SalesContext *)

(** [String(n)] for a count. *)
Definition String_of_N (n : N) : string := NilEmpty.string_of_uint (N.to_uint n).

Fixpoint repeat_char (c : ascii) (k : nat) : string :=
  match k with
  | O => EmptyString
  | S k' => String c (repeat_char c k')
  end.

(** [s.padStart(targetLength, c)] for a one-character filler. *)
Definition padStart (targetLength : nat) (c : ascii) (s : string) : string :=
  if (String.length s <? targetLength)%nat
  then repeat_char c (targetLength - String.length s) ++ s
  else s.

(** Format: MHF-YYYYMMDD-XXXX. [today] is [format(new Date(), 'yyyyMMdd')]. *)
Definition formatInvoiceNumber (today : string) (currentCount : N) : string :=
  "MHF-" ++ today ++ "-" ++ padStart 4 "0"%char (String_of_N currentCount).

Definition getNextInvoiceNumber (today : string) : M string :=
  w <- get ;;
  let currentCount :=
    match counter w with
    | Some c => (c + 1)%N
    | None => 1%N
    end in
  modify (set_counter (Some currentCount)) ;;;
  ret (formatInvoiceNumber today currentCount).

Definition addSale (docId today : string) (saleData : SaleData) : M Sale :=
  invoiceNumber <- getNextInvoiceNumber today ;;
  w <- get ;;
  (* Determine the locationId to use *)
  let locationId :=
    if truthy (sd_locationId saleData) then sd_locationId saleData
    else match currentLocation w with
         | Some loc => Some (loc_id loc)
         | None => if truthy (locationId_of (currentUser w))
                   then locationId_of (currentUser w)
                   else sd_locationId saleData
         end in
  if negb (truthy locationId) && negb (has_role (currentUser w) superadmin)
  then throw NoLocationAvailable
  else
    let newSale :=
      mkSale docId invoiceNumber (sd_items saleData) (sd_subtotal saleData)
             (sd_cgst saleData) (sd_sgst saleData) (sd_total saleData)
             (sd_paymentMethod saleData) (sd_createdBy saleData) locationId in
    modify (set_salesDb (cons newSale)) ;;;
    refreshSales ;;;
    ret newSale.

(** ** POS page *)

Definition handleConfirmCheckout (docId today : string) (pm : PaymentMethod) : M unit :=
  w <- get ;;
  match currentUser w with
  | None => ret tt
  | Some cu =>
      try_catch (
        let saleData :=
          mkSaleData (items w) (subtotal w) (cgst w) (sgst w) (total w)
                     pm (uid cu) (user_locationId cu) in
        newSale <- addSale docId today saleData ;;
        clearCart)
  end.

(** ** ReturnContext *)

(** [for (const x of l) { await f(x) }]: the first [throw] ends the loop. *)
Fixpoint forEach {A} (f : A -> M unit) (l : list A) : M unit :=
  match l with
  | [] => ret tt
  | x :: l' => f x ;;; forEach f l'
  end.

Definition isItemReturned (rs : list Return) (orderId itemId : string) : bool :=
  existsb (fun r =>
             (referenceId r =? orderId)%string &&
             existsb (fun item => (ri_id item =? itemId)%string) (ret_items r)) rs.

Definition isOrderReturned (rs : list Return) (orderId : string) : bool :=
  existsb (fun r => (referenceId r =? orderId)%string) rs.

Definition getOrderReturns (rs : list Return) (orderId : string) : list Return :=
  filter (fun r => (referenceId r =? orderId)%string) rs.

Definition getReturnedItems (rs : list Return) (orderId : string) : list ReturnItem :=
  flat_map ret_items (getOrderReturns rs orderId).

Definition getTotalReturnAmount (rs : list Return) (orderId : string) : Q :=
  fold_left (fun total r => (total + ret_total r)%Q) (getOrderReturns rs orderId) 0%Q.

Definition itemsTotal (l : list ReturnItem) : Q :=
  fold_left (fun sum item => (sum + ri_price item * inject_Z (ri_quantity item))%Q) l 0%Q.

(** The provider function closes over the [returns] and [products] of the
    render that created it: both loops of [addReturn] read that snapshot
    ([w0]), while [updateProduct] writes to the store. *)
Definition addReturn (docId : string) (data : ReturnFormData) : M unit :=
  w0 <- get ;;
  (* Validate that items haven't already been returned *)
  forEach (fun item =>
             if isItemReturned (returns w0) (rf_referenceId data) (ri_id item)
             then throw (ItemAlreadyReturned (ri_name item))
             else ret tt) (rf_items data) ;;;
  (* Use the total from the form data if provided, otherwise calculate *)
  let total :=
    if truthy_num (rf_total data)
    then match rf_total data with Some t => t | None => 0%Q end
    else itemsTotal (rf_items data) in
  (* Determine the locationId to use *)
  let locationId := writeLocation w0 in
  if negb (truthy locationId) && negb (has_role (currentUser w0) superadmin)
  then throw NoLocationAvailable
  else
    (* Update product quantities *)
    forEach (fun item =>
               match find_product (ri_productId item) (products w0) with
               | None => throw (ProductNotFound (ri_name item))
               | Some product =>
                   (* For sales returns, increase stock
                      For purchase returns, decrease stock *)
                   let quantityChange :=
                     match rf_type data with
                     | sale_return => ri_quantity item
                     | purchase_return => - ri_quantity item
                     end in
                   updateProduct (p_id product)
                     (with_quantity product (p_quantity product + quantityChange))
               end) (rf_items data) ;;;
    (* Add return record *)
    modify (set_returnsDb (cons
      (mkReturn docId (rf_type data) (rf_referenceId data) (rf_items data)
                (rf_reason data) total locationId
                (match currentUser w0 with Some u => Some (uid u) | None => None end)
                (rf_refundMethod data)))) ;;;
    (* Refresh both returns and sales data *)
    refreshReturns ;;;
    refreshSales.

(** ** CategoryContext *)

Definition addCategory (docId name : string) (description : option string) : M unit :=
  w <- get ;;
  let locationId := writeLocation w in
  if negb (truthy locationId) && negb (has_role (currentUser w) superadmin)
  then throw NoLocationAvailable
  else
    modify (set_categoriesDb (cons
      (mkCategory docId name
                  (if truthy description then description else None)
                  locationId))) ;;;
    refreshCategories.


(** ** Cart component (the plus and minus buttons of a cart line) *)

Definition decrementLine (item : CartItem) : M unit :=
  updateQuantity (ci_id item) (ci_quantity item - 1).

Definition incrementLine (item : CartItem) : M unit :=
  updateQuantity (ci_id item) (ci_quantity item + 1).

(** [deleteCategory] (CategoryContext): [deleteDoc], then the refresh. *)
Definition deleteCategory (id : string) : M unit :=
  modify (set_categoriesDb (filter (fun c => negb (cat_id c =? id)%string))) ;;;
  refreshCategories.

(** ** LocationContext *)

(** A document of the collection 'locations': its document id, and the
    [id] field that [addLocation] writes into the document afterwards. *)
Record LocationDoc := mkLocationDoc {
  ld_docId : string;
  ld_id : option string;
  ld_name : string
}.

(** [{ id: doc.id, ...doc.data() }] *)
Definition locationOf (d : LocationDoc) : Location :=
  mkLocation (match ld_id d with Some i => i | None => ld_docId d end) (ld_name d).

(** The state setter of [currentLocation]: the providers that depend on it
    read their collections again. *)
Definition selectLocation (l : option Location) : M unit :=
  modify (fun w => set_session (currentUser w) l w) ;;;
  refreshSales ;;;
  refreshReturns ;;;
  refreshCategories.

Section RefreshLocations.
(** [locationsData.sort((a, b) => a.name.localeCompare(b.name))] *)
Variable sortByName : list Location -> list Location.

(** Set current location based on user's assigned location. *)
Definition chooseLocation (locationsData : list Location) : M (list Location) :=
  w <- get ;;
  let u := currentUser w in
  match locationsData with
  | first :: _ =>
      if truthy (locationId_of u) then
        match find (fun loc => locationId_is (loc_id loc) (locationId_of u)) locationsData with
        | Some userLocation => selectLocation (Some userLocation)
        | None =>
            if negb (has_role u superadmin) then selectLocation (Some first) else ret tt
        end
      else
        match currentLocation w with
        | None => selectLocation (Some first)
        | Some _ => ret tt
        end
  | [] => selectLocation None
  end ;;;
  ret locationsData.

(** The result is the [locations] state. *)
Definition refreshLocations (db : list LocationDoc) : M (list Location) :=
  w <- get ;;
  let u := currentUser w in
  if has_role u superadmin then
    (* Super admin can see all locations *)
    chooseLocation (sortByName (map locationOf db))
  else if truthy (locationId_of u) then
    (* First try to get the location directly by ID *)
    match find (fun d => locationId_is (ld_docId d) (locationId_of u)) db with
    | Some d =>
        selectLocation (Some (locationOf d)) ;;;
        ret [locationOf d]
    | None =>
        (* Fallback to query if direct lookup fails *)
        chooseLocation
          (sortByName
             (map locationOf
                (filter (fun d => match ld_id d with
                                  | Some i => locationId_is i (locationId_of u)
                                  | None => false
                                  end) db)))
    end
  else
    (* Default query for other cases *)
    chooseLocation (sortByName (map locationOf db)).
End RefreshLocations.

(** ** LocationSelector *)

Inductive SelectorView :=
| NoLocationsAvailable
| AssignedLocation (l : Location)
| Dropdown (choices : list Location).

Definition locationSelector (locations : list Location) (u : option User) : SelectorView :=
  let isLocationRestricted :=
    has_role u salesperson || has_role u manager || has_role u admin in
  let userAssignedLocation :=
    if truthy (locationId_of u)
    then find (fun loc => locationId_is (loc_id loc) (locationId_of u)) locations
    else None in
  match locations with
  | [] => NoLocationsAvailable
  | _ :: _ =>
      match userAssignedLocation with
      | Some l => if isLocationRestricted then AssignedLocation l else Dropdown locations
      | None => Dropdown locations
      end
  end.

(** ** PurchaseContext and StockContext *)

Record PurchaseFormData := mkPurchaseFormData {
  pf_productId : string;
  pf_quantity : Z;
  pf_costPrice : Q;
  pf_vendor : string
}.

Record Purchase := mkPurchase {
  pu_data : PurchaseFormData;
  pu_productName : string;
  pu_locationId : option string;
  pu_createdBy : option string
}.

Inductive StockUpdateType := stock_add | stock_reduce.

Record StockUpdateFormData := mkStockUpdateFormData {
  sf_productId : string;
  sf_vendorId : string;
  sf_quantity : Z;
  sf_type : StockUpdateType
}.

Record StockUpdate := mkStockUpdate {
  su_data : StockUpdateFormData;
  su_locationId : option string;
  su_createdBy : option string
}.

(** The world with the collections these two providers keep. *)
Record Books := mkBooks {
  world : World;
  purchasesDb : list Purchase;          (* collection 'purchases' *)
  purchases : list Purchase;            (* PurchaseContext state *)
  stockUpdatesDb : list StockUpdate;    (* collection 'stockUpdates' *)
  stockUpdates : list StockUpdate       (* StockContext state *)
}.

Inductive StockError :=
| ProductMissing
| NoLocationForStock
| ProductOfAnotherLocation.

Definition stockMessage (e : StockError) : string :=
  match e with
  | ProductMissing => "Product not found"
  | NoLocationForStock =>
      "No location available. Please select a location or contact an administrator."
  | ProductOfAnotherLocation =>
      "You can only update stock for products in your location."
  end.

Inductive StockResult :=
| Done
| Failed (e : StockError).

Definition uid_of (u : option User) : option string :=
  match u with
  | Some v => Some (uid v)
  | None => None
  end.

Definition addPurchase (data : PurchaseFormData) (b : Books) : StockResult * Books :=
  let w := world b in
  (* Find the product *)
  match find_product (pf_productId data) (products w) with
  | None => (Failed ProductMissing, b)
  | Some product =>
      (* Determine the locationId to use *)
      let locationId := writeLocation w in
      if negb (truthy locationId) && negb (has_role (currentUser w) superadmin)
      then (Failed NoLocationForStock, b)
      else
        (* Update product quantity *)
        let w1 := exec (updateProduct (p_id product)
                          (with_quantity product (p_quantity product + pf_quantity data))) w in
        (* Add purchase record *)
        let db := mkPurchase data (p_name product) locationId (uid_of (currentUser w))
                  :: purchasesDb b in
        (Done,
         mkBooks w1 db
                 (scopedQuery pu_locationId (currentLocation w) (currentUser w) db)
                 (stockUpdatesDb b) (stockUpdates b))
  end.

Definition addStockUpdate (data : StockUpdateFormData) (b : Books) : StockResult * Books :=
  let w := world b in
  (* Find the product *)
  match find_product (sf_productId data) (products w) with
  | None => (Failed ProductMissing, b)
  | Some product =>
      (* Determine the locationId to use *)
      let locationId := writeLocation w in
      if negb (truthy locationId) && negb (has_role (currentUser w) superadmin)
      then (Failed NoLocationForStock, b)
      else
        (* Verify product belongs to the current location *)
        if truthy (p_locationId product) &&
           negb (match locationId with
                 | Some l => locationId_is l (p_locationId product)
                 | None => false
                 end)
        then (Failed ProductOfAnotherLocation, b)
        else
          (* Update product quantity *)
          let w1 := exec (updateProduct (p_id product)
                            (with_quantity product (p_quantity product + sf_quantity data))) w in
          (* Add stock update record *)
          let db := mkStockUpdate data locationId (uid_of (currentUser w))
                    :: stockUpdatesDb b in
          (Done,
           mkBooks w1 (purchasesDb b) (purchases b) db
                   (scopedQuery su_locationId (currentLocation w) (currentUser w) db))
  end.

(** ** AuthContext *)

(** A document of the collection 'users'. *)
Record UserDoc := mkUserDoc {
  ud_uid : string;
  ud_role : UserRole;
  ud_isActive : option bool;
  ud_locationId : option string;
  ud_franchiseId : option string
}.

(** The identity provider answers a credential with a user id, or with an
    error that has a code and a message. *)
Inductive AuthOutcome :=
| Authenticated (user : string)
| AuthRefused (code message : string).

Record AuthState := mkAuthState {
  auth_session : option string;       (* user signed in at the identity provider *)
  auth_currentUser : option User;     (* currentUser *)
  auth_error : option string;         (* error *)
  auth_users : list UserDoc           (* collection 'users' *)
}.

(** How an async function of the provider ends. *)
Inductive Promise (A : Type) :=
| Resolves (value : A)
| Rejects (message : string).
Arguments Resolves {A} value.
Arguments Rejects {A} message.

(** [isActive: userData.isActive || false] *)
Definition userOf (d : UserDoc) : User :=
  mkUser (ud_uid d) (ud_role d)
         (match ud_isActive d with Some v => v | None => false end)
         (ud_locationId d).

(** [getDoc(doc(db, 'users', uid))] *)
Definition userDoc (user : string) (users : list UserDoc) : option UserDoc :=
  find (fun d => (ud_uid d =? user)%string) users.

Definition getUserWithRole (user : string) (users : list UserDoc) : option User :=
  option_map userOf (userDoc user users).

Definition inactiveMessage : string :=
  "Your account is inactive. Please contact an administrator.".

(** [userWithRole.role !== 'superadmin' && !userWithRole.isActive] *)
Definition inactiveAccount (u : User) : bool :=
  negb (role_eqb (role u) superadmin) && negb (isActive u).

(** The listener of [onAuthStateChanged], run on the provider's session. *)
Definition authStateChanged (a : AuthState) : AuthState :=
  match auth_session a with
  | Some firebaseUser =>
      match getUserWithRole firebaseUser (auth_users a) with
      | Some userWithRole =>
          (* Only check isActive for non-superadmin users *)
          if inactiveAccount userWithRole
          then mkAuthState None None (Some inactiveMessage) (auth_users a)
          else mkAuthState (auth_session a) (Some userWithRole) (auth_error a) (auth_users a)
      | None => mkAuthState (auth_session a) None (auth_error a) (auth_users a)
      end
  | None => mkAuthState None None (auth_error a) (auth_users a)
  end.

(** The message [login] keeps for an error of the identity provider. *)
Definition loginErrorMessage (code message : string) : string :=
  if (code =? "auth/invalid-credential")%string then
    "Invalid email or password. Please check your credentials and try again."
  else if (code =? "auth/user-not-found")%string then
    "No account found with this email address"
  else if (code =? "auth/wrong-password")%string then
    "Incorrect password. Please try again."
  else if (code =? "auth/invalid-email")%string then
    "Please enter a valid email address"
  else if (code =? "auth/user-disabled")%string then
    "This account has been disabled. Please contact support."
  else if (code =? "auth/too-many-requests")%string then
    "Too many failed login attempts. Please try again later."
  else if negb (message =? "")%string then message
  else "Failed to log in".

(** The [catch] of [login] and [register]: the message is kept as [error]
    and thrown. *)
Definition rejects {A : Type} (message : string) (a : AuthState) : Promise A * AuthState :=
  (Rejects message,
   mkAuthState (auth_session a) (auth_currentUser a) (Some message) (auth_users a)).

(** [clearError] *)
Definition clearError (a : AuthState) : AuthState :=
  mkAuthState (auth_session a) (auth_currentUser a) None (auth_users a).

(** The provider's session after a sign-in, a sign-up or a sign-out. *)
Definition signedIn (s : option string) (a : AuthState) : AuthState :=
  mkAuthState s (auth_currentUser a) (auth_error a) (auth_users a).

(** [userWithRole.locationId && locationId && userWithRole.locationId !== locationId] *)
Definition otherLocation (u : User) (locationId : option string) : bool :=
  truthy (user_locationId u) && truthy locationId &&
  negb (match locationId with
        | Some l => locationId_is l (user_locationId u)
        | None => false
        end).

Section Login.
(** [String.prototype.trim], and [signInWithEmailAndPassword]. *)
Variable trim : string -> string.
Variable signIn : string -> string -> AuthOutcome.

Definition login (email password : string) (locationId : option string)
           (a0 : AuthState) : Promise unit * AuthState :=
  let a := clearError a0 in
  (* Validate inputs *)
  if (trim email =? "")%string then rejects "Email is required" a
  else if (password =? "")%string then rejects "Password is required" a
  else
    match signIn (trim email) password with
    | AuthRefused code message => rejects (loginErrorMessage code message) a
    | Authenticated user =>
        let a1 := signedIn (Some user) a in
        match getUserWithRole user (auth_users a1) with
        | None =>
            rejects "User account not found. Please contact an administrator." a1
        | Some userWithRole =>
            (* For salesperson, check if they have access to the selected location *)
            if role_eqb (role userWithRole) salesperson &&
               otherLocation userWithRole locationId
            then rejects "You do not have access to this location" a1
            else
              (* Only check isActive for non-superadmin users *)
              if inactiveAccount userWithRole
              then rejects inactiveMessage (signedIn None a1)
              else
                (Resolves tt,
                 mkAuthState (auth_session a1) (Some userWithRole)
                             (auth_error a1) (auth_users a1))
        end
    end.
End Login.

(** The message [register] keeps for an error of the identity provider. *)
Definition registerErrorMessage (code message : string) : string :=
  if (code =? "auth/email-already-in-use")%string then
    "An account with this email already exists"
  else if (code =? "auth/weak-password")%string then
    "Password is too weak. Please use at least 6 characters"
  else if (code =? "auth/invalid-email")%string then
    "Please enter a valid email address"
  else if negb (message =? "")%string then message
  else "Failed to register".

(** [setDoc(doc(db, 'users', uid), userData)]: the document is written
    whole, in place of an earlier one with the same id. *)
Definition setUserDoc (d : UserDoc) (users : list UserDoc) : list UserDoc :=
  if existsb (fun x => (ud_uid x =? ud_uid d)%string) users
  then map (fun x => if (ud_uid x =? ud_uid d)%string then d else x) users
  else (users ++ [d])%list.

Section Register.
(** [createUserWithEmailAndPassword], which also signs the new user in, and
    the id of the latest document of 'franchises', if there is one. *)
Variable createUser : string -> string -> AuthOutcome.
Variable latestFranchise : option string.

(** The body of [register]. The sign-up also fires the listener of the
    auth state ([authStateChanged]), which runs beside this body and reads
    the new user's document before or after the body has written it: the
    listener's run on the state the body leaves, or on the state just after
    the sign-up, is composed with [register] where a statement is about
    the current user. *)
Definition register (email password : string) (role : UserRole)
           (franchiseId locationId : option string)
           (a0 : AuthState) : Promise string * AuthState :=
  let a := clearError a0 in
  (* For superadmin, we don't need franchiseId *)
  let franchise : Promise (option string) :=
    if negb (role_eqb role superadmin) && negb (truthy franchiseId) then
      match latestFranchise with
      | None =>
          (* 'No franchise found...' is thrown and caught at once *)
          Rejects "Unable to find franchise. Please contact an administrator."
      | Some f => Resolves (Some f)
      end
    else Resolves franchiseId in
  match franchise with
  | Rejects message => rejects message a
  | Resolves franchiseId =>
      (* Validate location for salesperson *)
      if role_eqb role salesperson && negb (truthy locationId) then
        rejects
          "Location is required for salesperson role. Please select a location." a
      else
        match createUser email password with
        | AuthRefused code message => rejects (registerErrorMessage code message) a
        | Authenticated user =>
            let userData :=
              if role_eqb role superadmin
              then mkUserDoc user role (Some true) None None
              else mkUserDoc user role (Some true)
                             (if truthy locationId then locationId else None)
                             franchiseId in
            let users := setUserDoc userData (auth_users a) in
            (* Only set current user if this is the first user being created *)
            (Resolves user,
             mkAuthState (Some user)
                         (if role_eqb role superadmin
                          then getUserWithRole user users
                          else auth_currentUser a)
                         (auth_error a) users)
        end
  end.
End Register.

(** ** UsersPage of an admin *)

Record UsersPage := mkUsersPage {
  up_db : list UserDoc;        (* collection 'users' *)
  up_users : list UserDoc;     (* users *)
  up_error : option string     (* error *)
}.

Section AdminUsers.
(** [franchise?.id], the [currentUser] of the page ([me]), and the message of the error with which
    [updateDoc] rejects for a document that does not exist. *)
Variable franchise : option string.
Variable me : option User.
Variable notFound : string.

(** [where('franchiseId', '==', f)], [where('locationId', '==', l)] and
    [where('role', 'in', ['manager', 'salesperson'])]. *)
Definition usersQuery (f l : string) (d : UserDoc) : bool :=
  locationId_is f (ud_franchiseId d) && locationId_is l (ud_locationId d) &&
  (role_eqb (ud_role d) manager || role_eqb (ud_role d) salesperson).

Definition fetchUsers (p : UsersPage) : UsersPage :=
  match franchise with
  | Some f =>
      if truthy (locationId_of me) then
        match locationId_of me with
        | Some l => mkUsersPage (up_db p) (filter (usersQuery f l) (up_db p)) (up_error p)
        | None => p
        end
      else p
  | None => p
  end.

(** [updateDoc(doc(db, 'users', uid), fields)], with the [catch] of the page:
    for a document that does not exist nothing is written and the error's
    message, or [fallback] if it is empty, is shown. *)
Definition updateUser (user : string) (f : UserDoc -> UserDoc) (fallback : string)
           (p : UsersPage) : UsersPage :=
  if existsb (fun x => (ud_uid x =? user)%string) (up_db p) then
    fetchUsers
      (mkUsersPage (map (fun x => if (ud_uid x =? user)%string then f x else x) (up_db p))
                   (up_users p) (up_error p))
  else
    mkUsersPage (up_db p) (up_users p)
                (Some (if negb (notFound =? "")%string then notFound else fallback)).

Definition updateUserRole (user : string) (newRole : UserRole) (p : UsersPage) : UsersPage :=
  (* Admin cannot set anyone to superadmin or admin *)
  if role_eqb newRole superadmin || role_eqb newRole admin then
    mkUsersPage (up_db p) (up_users p)
      (Some "You do not have permission to create admin or superadmin users")
  else
    updateUser user
      (fun d => mkUserDoc (ud_uid d) newRole (ud_isActive d) (ud_locationId d)
                          (ud_franchiseId d))
      "Failed to update user role" p.

Definition toggleUserStatus (user : string) (currentlyActive : bool) (p : UsersPage)
  : UsersPage :=
  updateUser user
    (fun d => mkUserDoc (ud_uid d) (ud_role d) (Some (negb currentlyActive))
                        (ud_locationId d) (ud_franchiseId d))
    "Failed to update user status" p.
End AdminUsers.

(** ** ManagerDashboard *)

Section ManagerDashboard.
(** [features.canProcessReturns()] *)
Variable canProcessReturns : bool.

Definition isSaleReturn (r : Return) : bool :=
  match ret_type r with
  | sale_return => true
  | purchase_return => false
  end.

Definition totalSales (w : World) : Q :=
  fold_left (fun sum sale => (sum + sale_total sale)%Q) (sales w) 0%Q.

Definition totalReturns (w : World) : Q :=
  if canProcessReturns
  then fold_left (fun sum r => (sum + ret_total r)%Q) (filter isSaleReturn (returns w)) 0%Q
  else 0%Q.

Definition netSales (w : World) : Q := (totalSales w - totalReturns w)%Q.

Definition totalTransactions (w : World) : Z := Z.of_nat (List.length (sales w)).

Definition totalSalesReturns (w : World) : Z :=
  if canProcessReturns
  then Z.of_nat (List.length (filter isSaleReturn (returns w)))
  else 0.

Definition netTransactions (w : World) : Z := totalTransactions w - totalSalesReturns w.

Definition totalItemsSold (w : World) : Z :=
  fold_left (fun sum sale =>
               sum + fold_left (fun itemSum item => itemSum + ci_quantity item)
                               (sale_items sale) 0)
            (sales w) 0.

Definition totalItemsReturned (w : World) : Z :=
  if canProcessReturns
  then fold_left (fun sum r =>
                    sum + fold_left (fun itemSum item => itemSum + ri_quantity item)
                                    (ret_items r) 0)
                 (filter isSaleReturn (returns w)) 0
  else 0.

Definition netItemsSold (w : World) : Z := totalItemsSold w - totalItemsReturned w.
End ManagerDashboard.

(** * Properties *)

(** ** Vocabulary of the statements *)

(** No product is out in negative quantity. *)
Definition stock_nonneg (w : World) : Prop :=
  Forall (fun p => 0 <= p_quantity p) (products w).

(** The location check of [addItem] lets the product through. *)
Definition sellable_here (w : World) (p : Product) : Prop :=
  forall loc, currentLocation w = Some loc ->
              truthy (p_locationId p) = true ->
              p_locationId p = Some (loc_id loc).

(** The cart holds no line for the product, and none under the new id. *)
Definition no_line_for (w : World) (productId uuid : string) : Prop :=
  find (fun item => (ci_productId item =? productId)%string) (items w) = None /\
  find (fun i => (ci_id i =? uuid)%string) (items w) = None.

(** The location [addSale] files a sale under. *)
Definition saleLocation (w : World) (saleData : SaleData) : option string :=
  if truthy (sd_locationId saleData) then sd_locationId saleData
  else match currentLocation w with
       | Some loc => Some (loc_id loc)
       | None => if truthy (locationId_of (currentUser w))
                 then locationId_of (currentUser w)
                 else sd_locationId saleData
       end.

(** The two loops of [addReturn]. *)
Definition checkNotReturned (rs : list Return) (orderId : string) (item : ReturnItem) : M unit :=
  if isItemReturned rs orderId (ri_id item)
  then throw (ItemAlreadyReturned (ri_name item))
  else ret tt.

Definition restock (snapshot : list Product) (t : ReturnType) (item : ReturnItem) : M unit :=
  match find_product (ri_productId item) snapshot with
  | None => throw (ProductNotFound (ri_name item))
  | Some product =>
      updateProduct (p_id product)
        (with_quantity product
           (p_quantity product +
            match t with
            | sale_return => ri_quantity item
            | purchase_return => - ri_quantity item
            end))
  end.

(** The total [addReturn] records. *)
Definition returnTotal (data : ReturnFormData) : Q :=
  if truthy_num (rf_total data)
  then match rf_total data with Some t => t | None => 0%Q end
  else itemsTotal (rf_items data).

(** The record [addReturn] persists. *)
Definition returnRecord (docId : string) (data : ReturnFormData) (w : World) : Return :=
  mkReturn docId (rf_type data) (rf_referenceId data) (rf_items data)
           (rf_reason data) (returnTotal data) (writeLocation w)
           (match currentUser w with Some u => Some (uid u) | None => None end)
           (rf_refundMethod data).

(** The three scoped reads return what the query [q] selects. *)
Definition reads_as (w : World)
           (q : forall Doc, (Doc -> option string) -> list Doc -> list Doc) : Prop :=
  sales (exec refreshSales w) = q Sale sale_locationId (salesDb w) /\
  returns (exec refreshReturns w) = q Return ret_locationId (returnsDb w) /\
  categories (exec refreshCategories w) = q Category cat_locationId (categoriesDb w).

Definition restricted_role (r : UserRole) : Prop :=
  r = admin \/ r = manager \/ r = salesperson.

(** Item [itemId] appears in a return of [rs] that refers to [orderId]. *)
Definition returned_in (rs : list Return) (orderId itemId : string) : Prop :=
  exists r, In r rs /\ referenceId r = orderId /\
            exists i, In i (ret_items r) /\ ri_id i = itemId.


(** The [returns] state is what [refreshReturns] last read for this session. *)
Definition returns_in_sync (w : World) : Prop :=
  returns w = scopedQuery ret_locationId (currentLocation w) (currentUser w) (returnsDb w).

(** The count an invoice number carries: the digits after its last dash. *)
Fixpoint has_dash (s : string) : bool :=
  match s with
  | EmptyString => false
  | String c s' => (c =? "-")%char || has_dash s'
  end.

Fixpoint last_field (s : string) : string :=
  match s with
  | EmptyString => EmptyString
  | String c s' =>
      if has_dash s' then last_field s'
      else if (c =? "-")%char then s' else String c s'
  end.

Definition count_of_invoice (inv : string) : N :=
  match NilEmpty.uint_of_string (last_field inv) with
  | Some d => N.of_uint d
  | None => 0%N
  end.

Definition sale_count (s : Sale) : N := count_of_invoice (invoiceNumber s).

(** The value of the counter document; a missing document counts as 0. *)
Definition currentCount (w : World) : N :=
  match counter w with
  | Some c => c
  | None => 0%N
  end.

(** The persisted sales, most recent first, carry strictly decreasing
    counts, none above the counter. *)
Definition invoices_ordered (w : World) : Prop :=
  StronglySorted (fun newer older => (sale_count older < sale_count newer)%N) (salesDb w) /\
  Forall (fun s => (sale_count s <= currentCount w)%N) (salesDb w).

(** A sequence of checkouts, each under its own session. *)
Record Call := mkCall {
  call_user : option User;
  call_location : option Location;
  call_docId : string;
  call_today : string;
  call_data : SaleData
}.

Definition step (c : Call) (w : World) : World :=
  exec (addSale (call_docId c) (call_today c) (call_data c))
       (set_session (call_user c) (call_location c) w).

Fixpoint run (calls : list Call) (w : World) : World :=
  match calls with
  | [] => w
  | c :: cs => run cs (step c w)
  end.

(** ** Sample data *)

Module Sample.

Definition L1 : Location := mkLocation "L1" "Main Street".
Definition L2 : Location := mkLocation "L2" "Harbour".

Definition root : User := mkUser "u0" superadmin true None.
Definition adminL1 : User := mkUser "u1" admin true (Some "L1").
Definition seller : User := mkUser "u2" salesperson true (Some "L1").
Definition stray : User := mkUser "u3" salesperson true None.

Definition P (q : Z) : Product := mkProduct "P" "Ragi flour" (50 # 1) "c1" q (Some "L1").

Definition line (q : Z) : CartItem := mkCartItem "c1" "P" "Ragi flour" (50 # 1) q.

Definition bare (u : option User) (l : option Location) (ps : list Product) : World :=
  mkWorld u l ps [] [] [] [] [] [] [] None.

(** The seller's shop with [q] units on the shelf and [k] in the cart. *)
Definition shop (q k : Z) : World :=
  mkWorld (Some seller) (Some L1) [P q] [line k] [] [] [] [] [] [] None.

Definition saleAt (id : string) (l : option string) : Sale :=
  mkSale id ("MHF-20240101-000" ++ id) [] 0 0 0 0 cash "u2" l.

Definition twoSales : list Sale := [saleAt "2" (Some "L2"); saleAt "1" (Some "L1")].

(** A session over a store that holds one sale of each location. *)
Definition ledger (u : option User) (l : option Location) : World :=
  mkWorld u l [P 3] [] twoSales [] [] [] [] [] None.

Definition noLocationData : SaleData :=
  mkSaleData [line 3] (150 # 1) 0 0 (150 # 1) cash "u3" None.

Definition sellerData : SaleData :=
  mkSaleData [line 1] (50 # 1) (125 # 100) (125 # 100) (525 # 10) upi "u2" (Some "L1").

(** Three checkouts in a row: the seller at L1, the salesperson without
    a location, the superadmin at L2 on the next day. *)
Definition day : list Call :=
  [ mkCall (Some seller) (Some L1) "s1" "20240101" sellerData;
    mkCall (Some stray) None "s2" "20240101" noLocationData;
    mkCall (Some root) (Some L2) "s3" "20240102" noLocationData ].

Definition I : ReturnItem := mkReturnItem "I" "P" "Ragi flour" 2 (50 # 1).

Definition returnOfI (t : option Q) : ReturnFormData :=
  mkReturnFormData sale_return "S" [I] "damaged" (Some cash) t.


(** The seller's shop once [I] has been returned there. *)
Definition returnedAtL1 : World :=
  exec (addReturn "r1" (returnOfI None)) (bare (Some seller) (Some L1) [P 3]).

End Sample.

(** ** Vocabulary of the cart properties *)

(** The cart has one line per product, one line per id, and no line of
    less than one unit. *)
Definition cart_wf (w : World) : Prop :=
  NoDup (map ci_productId (items w)) /\
  NoDup (map ci_id (items w)) /\
  Forall (fun i => 1 <= ci_quantity i) (items w).

(** Units of product [pid] on the shelf, and units of it held in the cart. *)
Definition on_hand (pid : string) (w : World) : Z :=
  match find_product pid (products w) with
  | Some p => p_quantity p
  | None => 0
  end.

Definition held (pid : string) (l : list CartItem) : Z :=
  fold_right (fun i acc => if (ci_productId i =? pid)%string
                           then ci_quantity i + acc else acc) 0 l.

Definition reserved (pid : string) (w : World) : Z := held pid (items w).

(** ** Vocabulary of the checkout properties *)

Definition linesSubtotal (l : list CartItem) : Q :=
  fold_left (fun sum item => (sum + ci_price item * inject_Z (ci_quantity item))%Q) l 0%Q.

(** The amounts of a sale are those the cart computes from the lines of
    the sale, each by the expression of the source and in its order: the
    subtotal is the sum, line after line, of price x quantity; CGST and
    SGST are each the subtotal times half the GST rate; the total is
    subtotal plus CGST plus SGST. No equation rearranges the arithmetic. *)
Definition sale_consistent (s : Sale) : Prop :=
  sale_subtotal s = linesSubtotal (sale_items s) /\
  sale_cgst s = (sale_subtotal s * (GST_RATE / 2))%Q /\
  sale_sgst s = (sale_subtotal s * (GST_RATE / 2))%Q /\
  sale_total s = (sale_subtotal s + sale_cgst s + sale_sgst s)%Q.

(** A location is selected and its id is not the empty string. *)
Definition location_selected (w : World) : bool :=
  match currentLocation w with
  | Some loc => truthy (Some (loc_id loc))
  | None => false
  end.

(** The [categories] state is what [refreshCategories] last read. *)
Definition categories_in_sync (w : World) : Prop :=
  categories w =
  scopedQuery cat_locationId (currentLocation w) (currentUser w) (categoriesDb w).

(** A user document that may enter: a superadmin, or an active account. *)
Definition may_enter (d : UserDoc) : Prop :=
  ud_role d = superadmin \/ ud_isActive d = Some true.

(** The location asked for at login is open to the document's user: only a
    salesperson who has a location and asks for another one is kept out. *)
Definition location_open (d : UserDoc) (locationId : option string) : Prop :=
  ud_role d = salesperson ->
  forall own l, ud_locationId d = Some own -> own <> "" ->
                locationId = Some l -> l <> "" -> own = l.

(** The [sales] state is what [refreshSales] last read. *)
Definition sales_in_sync (w : World) : Prop :=
  sales w = scopedQuery sale_locationId (currentLocation w) (currentUser w) (salesDb w).

(** The units a return carries. *)
Definition returnedUnits (data : ReturnFormData) : Z :=
  fold_left (fun itemSum item => itemSum + ri_quantity item) (rf_items data) 0.

(** Further sample data, for the inventory, the locations and the users. *)
Module Fixture.

Definition J : ReturnItem := mkReturnItem "J" "Q" "Jaggery" 1 (20 # 1).

(** A return of two items, the second of a product that is not loaded. *)
Definition returnOfIJ : ReturnFormData :=
  mkReturnFormData sale_return "S" [Sample.I; J] "damaged" (Some cash) None.

(** The seller at L1 with three units of P and an empty cart. *)
Definition till : World := Sample.bare (Some Sample.seller) (Some Sample.L1) [Sample.P 3].

Definition docL1 : LocationDoc := mkLocationDoc "L1" None "Main Street".
Definition docL2 : LocationDoc := mkLocationDoc "L2" (Some "L2") "Harbour".

(** A list of locations that is sorted already. *)
Definition sorted (l : list Location) : list Location := l.

Definition books : Books := mkBooks till [] [] [] [].

Definition restockP : StockUpdateFormData := mkStockUpdateFormData "P" "v1" 4 stock_add.
Definition purchaseP : PurchaseFormData := mkPurchaseFormData "P" 4 (30 # 1) "v1".

Definition boss : UserDoc := mkUserDoc "u0" superadmin None None None.
Definition ann : UserDoc := mkUserDoc "u2" salesperson (Some true) (Some "L1") (Some "f1").
Definition bob : UserDoc := mkUserDoc "u4" manager (Some false) (Some "L1") (Some "f1").

Definition signedOut : AuthState := mkAuthState None None None [boss; ann; bob].

(** Emails that need no trimming. *)
Definition trimmed (s : string) : string := s.

Definition provider (email password : string) : AuthOutcome :=
  if (password =? "pw")%string then
    if (email =? "ann@shop")%string then Authenticated "u2"
    else if (email =? "bob@shop")%string then Authenticated "u4"
    else if (email =? "eve@shop")%string then Authenticated "u9"
    else AuthRefused "auth/user-not-found" "no such user"
  else AuthRefused "auth/wrong-password" "wrong password".

(** Every sign-up creates the user u9. *)
Definition signUp (email password : string) : AuthOutcome := Authenticated "u9".

Definition page : UsersPage := mkUsersPage [boss; ann; bob] [] None.

Definition Jaggery (q : Z) : Product :=
  mkProduct "Q" "Jaggery" (20 # 1) "c1" q (Some "L1").

(** The salesperson without a location, nothing selected, with three
    units in the cart. *)
Definition strayShop : World :=
  mkWorld (Some Sample.stray) None [Sample.P 2] [Sample.line 3] [] [] [] [] [] [] None.

Definition carl : UserDoc := mkUserDoc "u1" admin (Some true) (Some "L1") (Some "f1").

(** The admin of L1 is logged in. *)
Definition adminSession : AuthState :=
  mkAuthState (Some "u1") (Some Sample.adminL1) None [boss; carl; ann; bob].

(** The seller's shop with one unit of P, of which one more is in the cart,
    and a product that is two units short. *)
Definition shortShop : World :=
  mkWorld (Some Sample.seller) (Some Sample.L1) [Sample.P 1; Jaggery (-2)]
          [Sample.line 1] [] [] [] [] [] [] None.

End Fixture.

(** * Proofs *)

(** ** Running a computation *)

Ltac run_ctx :=
  unfold outcome, exec, try_catch, bind, ret, get, modify, throw in *;
  cbn [fst snd] in *.

(** ** The product store *)

Lemma replace_nonneg id data ps :
  0 <= p_quantity data ->
  Forall (fun p => 0 <= p_quantity p) ps ->
  Forall (fun p => 0 <= p_quantity p)
         (map (fun p => if (p_id p =? id)%string then data else p) ps).
Proof.
  intros Hd Hps.
  induction Hps as [|p ps Hp _ IH]; cbn [map]; constructor; auto.
  destruct (p_id p =? id)%string; assumption.
Qed.

(** Replacing a document by one of the same identifier moves no
    identifier: every lookup finds the same place. *)
Lemma find_replace id data ps pid :
  p_id data = id ->
  find_product pid (map (fun p => if (p_id p =? id)%string then data else p) ps) =
  match find_product pid ps with
  | Some p => Some (if (p_id p =? id)%string then data else p)
  | None => None
  end.
Proof.
  intros Hid. unfold find_product.
  induction ps as [|p ps IH]; cbn [map find]; [reflexivity|].
  destruct (p_id p =? id)%string eqn:E.
  - assert (Hp : p_id data = p_id p)
      by (apply String.eqb_eq in E; congruence).
    rewrite Hp.
    destruct (p_id p =? pid)%string; [now rewrite E | exact IH].
  - destruct (p_id p =? pid)%string; [now rewrite E | exact IH].
Qed.

Lemma find_product_id pid ps p :
  find_product pid ps = Some p -> p_id p = pid.
Proof.
  unfold find_product. intros H. apply find_some in H.
  now apply String.eqb_eq.
Qed.

Lemma find_product_In pid ps p :
  find_product pid ps = Some p -> In p ps.
Proof. unfold find_product. intros H. now apply find_some in H. Qed.

(** ** The cart never throws *)

Lemma addItem_returns uuid product w : outcome (addItem uuid product) w = Ok tt.
Proof.
  unfold addItem. run_ctx.
  destruct (find_product (p_id product) (products w)) as [cp|]; [|reflexivity].
  destruct (p_quantity cp <=? 0); [reflexivity|].
  now destruct (match currentLocation w with Some _ => _ | None => _ end).
Qed.

Lemma removeItem_returns id w : outcome (removeItem id) w = Ok tt.
Proof.
  unfold removeItem. run_ctx.
  destruct (find _ (items w)) as [item|]; [|reflexivity].
  now destruct (find_product (ci_productId item) (products w)).
Qed.

Lemma updateQuantity_returns id q w : outcome (updateQuantity id q) w = Ok tt.
Proof.
  unfold updateQuantity. destruct (q <? 1); [reflexivity|]. run_ctx.
  destruct (find _ (items w)) as [item|]; [|reflexivity].
  destruct (find_product (ci_productId item) (products w)) as [p|]; [|reflexivity].
  now destruct ((0 <? q - ci_quantity item) && (p_quantity p <? q - ci_quantity item)).
Qed.

(** ** Stock stays non-negative *)

Lemma addItem_stock_nonneg uuid product w :
  stock_nonneg w -> stock_nonneg (exec (addItem uuid product) w).
Proof.
  unfold stock_nonneg, addItem. intros Hw. run_ctx.
  destruct (find_product (p_id product) (products w)) as [cp|]; [|exact Hw].
  destruct (p_quantity cp <=? 0) eqn:Hq; [exact Hw|].
  destruct (match currentLocation w with Some _ => _ | None => _ end); [exact Hw|].
  cbn. apply replace_nonneg; [cbn; lia | exact Hw].
Qed.

Lemma updateQuantity_stock_nonneg id q w :
  stock_nonneg w -> stock_nonneg (exec (updateQuantity id q) w).
Proof.
  unfold stock_nonneg, updateQuantity. intros Hw.
  destruct (q <? 1); [exact Hw|]. run_ctx.
  destruct (find _ (items w)) as [item|]; [|exact Hw].
  destruct (find_product (ci_productId item) (products w)) as [p|] eqn:Hp; [|exact Hw].
  destruct ((0 <? q - ci_quantity item) && (p_quantity p <? q - ci_quantity item)) eqn:Hg;
    [exact Hw|].
  cbn. apply replace_nonneg; [|exact Hw].
  apply find_product_In in Hp.
  pose proof (proj1 (Forall_forall _ _) Hw p Hp) as Hp0. cbn in *.
  apply andb_false_iff in Hg. destruct Hg as [Hg|Hg]; lia.
Qed.

(** ** Stock under [addItem] and [updateQuantity] *)

(** A product found with a quantity that is not negative is still found,
    with a quantity that is not negative, after [addItem] and after
    [updateQuantity], whatever the quantities of the other products. *)
Lemma addItem_keeps_nonneg uuid product w pid p :
  find_product pid (products w) = Some p -> 0 <= p_quantity p ->
  exists p', find_product pid (products (exec (addItem uuid product) w)) = Some p' /\
             0 <= p_quantity p'.
Proof.
  intros Hf Hq. unfold addItem. run_ctx.
  destruct (find_product (p_id product) (products w)) as [cp|]; [|eauto].
  destruct (p_quantity cp <=? 0) eqn:Hg; [eauto|].
  destruct (match currentLocation w with Some _ => _ | None => _ end); [eauto|].
  cbn -[find_product]. rewrite find_replace by reflexivity. rewrite Hf.
  destruct (p_id p =? p_id cp)%string; eexists; (split; [reflexivity|]).
  - cbn. lia.
  - exact Hq.
Qed.

Lemma updateQuantity_keeps_nonneg id q w pid p :
  find_product pid (products w) = Some p -> 0 <= p_quantity p ->
  exists p', find_product pid (products (exec (updateQuantity id q) w)) = Some p' /\
             0 <= p_quantity p'.
Proof.
  intros Hf Hq. unfold updateQuantity.
  destruct (q <? 1); [eauto|]. run_ctx.
  destruct (find _ (items w)) as [item|]; [|eauto].
  destruct (find_product (ci_productId item) (products w)) as [cp|] eqn:Hc; [|eauto].
  destruct ((0 <? q - ci_quantity item) && (p_quantity cp <? q - ci_quantity item)) eqn:Hg;
    [eauto|].
  cbn -[find_product]. rewrite find_replace by reflexivity. rewrite Hf.
  destruct (p_id p =? p_id cp)%string eqn:E; eexists; (split; [reflexivity|]).
  - assert (p = cp).
    { apply String.eqb_eq in E. pose proof (find_product_id _ _ _ Hf) as Hp.
      pose proof (find_product_id _ _ _ Hc) as Hcp.
      assert (pid = ci_productId item) by congruence. subst pid. congruence. }
    subst cp. cbn. apply andb_false_iff in Hg. destruct Hg as [Hg|Hg]; lia.
  - exact Hq.
Qed.

(** C1, as amended. [addItem] and [updateQuantity] never raise an error:
    the call returns normally in every case. When the product's quantity is
    at most 0, [addItem] returns before the decrement and changes nothing;
    when [updateQuantity] would raise the cart quantity by more than the
    product's quantity, it changes nothing either. Hence a product whose
    quantity is not negative before a call has a quantity that is not
    negative after it, whatever the quantities of the other products; and
    if no product quantity is negative before a call, none is after it. *)
Theorem C1_stock_never_negative :
  forall w,
    (forall uuid product,
        outcome (addItem uuid product) w = Ok tt /\
        (forall cp, find_product (p_id product) (products w) = Some cp ->
                    p_quantity cp <= 0 ->
                    exec (addItem uuid product) w = w) /\
        (forall pid p,
            find_product pid (products w) = Some p -> 0 <= p_quantity p ->
            exists p',
              find_product pid (products (exec (addItem uuid product) w)) = Some p' /\
              0 <= p_quantity p') /\
        (stock_nonneg w -> stock_nonneg (exec (addItem uuid product) w))) /\
    (forall id newQuantity,
        outcome (updateQuantity id newQuantity) w = Ok tt /\
        (forall item product,
            find (fun i => (ci_id i =? id)%string) (items w) = Some item ->
            find_product (ci_productId item) (products w) = Some product ->
            0 < newQuantity - ci_quantity item ->
            p_quantity product < newQuantity - ci_quantity item ->
            exec (updateQuantity id newQuantity) w = w) /\
        (forall pid p,
            find_product pid (products w) = Some p -> 0 <= p_quantity p ->
            exists p',
              find_product pid (products (exec (updateQuantity id newQuantity) w)) =
                Some p' /\
              0 <= p_quantity p') /\
        (stock_nonneg w -> stock_nonneg (exec (updateQuantity id newQuantity) w))).
Proof.
  intros w. split.
  - intros uuid product. split; [apply addItem_returns|]. split; [|split].
    + intros cp Hf Hq. unfold addItem. run_ctx. rewrite Hf.
      destruct (p_quantity cp <=? 0) eqn:E; [reflexivity | lia].
    + intros pid p. apply addItem_keeps_nonneg.
    + apply addItem_stock_nonneg.
  - intros id q. split; [apply updateQuantity_returns|]. split; [|split].
    + intros item product Hi Hp Hd Hlt. unfold updateQuantity.
      destruct (q <? 1); [reflexivity|]. run_ctx. rewrite Hi, Hp.
      destruct (0 <? q - ci_quantity item) eqn:E1; [|lia].
      destruct (p_quantity product <? q - ci_quantity item) eqn:E2; [reflexivity | lia].
    + intros pid p. apply updateQuantity_keeps_nonneg.
    + apply updateQuantity_stock_nonneg.
Qed.

(** C1 at concrete inputs: an empty shelf refuses a unit, a shelf of one
    refuses a line of three, a shelf of one stays non-negative, and on a
    shelf where another product is short already, the product sold and the
    line raised stay non-negative. *)
Lemma C1_stock_never_negative_witness :
  exec (addItem "c1" (Sample.P 0)) (Sample.shop 0 1) = Sample.shop 0 1 /\
  exec (updateQuantity "c1" 3) (Sample.shop 1 1) = Sample.shop 1 1 /\
  stock_nonneg (exec (addItem "c1" (Sample.P 1)) (Sample.shop 1 1)) /\
  stock_nonneg (exec (updateQuantity "c1" 2) (Sample.shop 1 1)) /\
  (exists p',
     find_product "P" (products (exec (addItem "c1" (Sample.P 1)) Fixture.shortShop)) =
       Some p' /\ 0 <= p_quantity p') /\
  (exists p',
     find_product "P" (products (exec (updateQuantity "c1" 2) Fixture.shortShop)) =
       Some p' /\ 0 <= p_quantity p').
Proof.
  assert (H1 : stock_nonneg (Sample.shop 1 1))
    by (repeat constructor; cbn; lia).
  assert (H0 : 0 <= p_quantity (Sample.P 1)) by (cbn; lia).
  split; [|split; [|split; [|split; [|split]]]].
  - apply (proj1 (proj2 (proj1 (C1_stock_never_negative (Sample.shop 0 1))
                          "c1" (Sample.P 0))) (Sample.P 0)).
    + reflexivity.
    + cbn. lia.
  - apply (proj1 (proj2 (proj2 (C1_stock_never_negative (Sample.shop 1 1)) "c1" 3))
             (Sample.line 1) (Sample.P 1)).
    + reflexivity.
    + reflexivity.
    + cbn. lia.
    + cbn. lia.
  - exact (proj2 (proj2 (proj2 (proj1 (C1_stock_never_negative (Sample.shop 1 1))
                                  "c1" (Sample.P 1)))) H1).
  - exact (proj2 (proj2 (proj2 (proj2 (C1_stock_never_negative (Sample.shop 1 1))
                                  "c1" 2))) H1).
  - exact (proj1 (proj2 (proj2 (proj1 (C1_stock_never_negative Fixture.shortShop)
                                  "c1" (Sample.P 1))))
             "P" (Sample.P 1) eq_refl H0).
  - exact (proj1 (proj2 (proj2 (proj2 (C1_stock_never_negative Fixture.shortShop)
                                  "c1" 2)))
             "P" (Sample.P 1) eq_refl H0).
Defined.

(** C1 as stated fails where it names an error: on a product whose
    quantity is 0, [addItem] returns normally, with the world unchanged;
    the call is dropped in silence, not rejected with an error. *)
Lemma C1_counterexample :
  find_product "P" (products (Sample.shop 0 1)) = Some (Sample.P 0) /\
  p_quantity (Sample.P 0) = 0 /\
  outcome (addItem "c1" (Sample.P 0)) (Sample.shop 0 1) = Ok tt /\
  exec (addItem "c1" (Sample.P 0)) (Sample.shop 0 1) = Sample.shop 0 1.
Proof. repeat split. Qed.

(** ** Adding an item, then removing it *)

Lemma sellable_not_foreign w p :
  sellable_here w p ->
  match currentLocation w with
  | Some loc => truthy (p_locationId p) && negb (locationId_is (loc_id loc) (p_locationId p))
  | None => false
  end = false.
Proof.
  unfold sellable_here. intros H.
  destruct (currentLocation w) as [loc|]; [|reflexivity].
  destruct (truthy (p_locationId p)) eqn:Ht; [|reflexivity].
  rewrite (H loc eq_refl eq_refl). cbn. now rewrite String.eqb_refl.
Qed.

Lemma find_none_app {A} (f : A -> bool) l x :
  find f l = None -> find f (l ++ [x])%list = if f x then Some x else None.
Proof.
  induction l as [|a l IH]; cbn; [reflexivity|].
  destruct (f a); [discriminate | exact IH].
Qed.

Lemma filter_none_app {A} (f : A -> bool) l x :
  find f l = None -> f x = true -> filter (fun a => negb (f a)) (l ++ [x])%list = l.
Proof.
  intros Hl Hx. induction l as [|a l IH]; cbn in *.
  - now rewrite Hx.
  - destruct (f a); [discriminate|]. cbn. f_equal. now apply IH.
Qed.

(** [addItem] either changes nothing or takes one unit of a product in
    stock and updates the cart. *)
Lemma addItem_cases w uuid product :
  exec (addItem uuid product) w = w \/
  exists cp,
    find_product (p_id product) (products w) = Some cp /\
    0 < p_quantity cp /\
    exec (addItem uuid product) w =
    setItems (fun currentItems =>
                match find (fun item => (ci_productId item =? p_id product)%string)
                           currentItems with
                | Some _ =>
                    map (fun item =>
                           if (ci_productId item =? p_id product)%string
                           then ci_with_quantity item (ci_quantity item + 1)
                           else item) currentItems
                | None =>
                    (currentItems ++
                     [mkCartItem uuid (p_id product) (p_name product) (p_price product) 1])%list
                end)
      (set_products
         (map (fun p => if (p_id p =? p_id cp)%string
                        then with_quantity cp (p_quantity cp - 1) else p)) w).
Proof.
  unfold addItem. run_ctx.
  destruct (find_product (p_id product) (products w)) as [cp|]; [|now left].
  destruct (p_quantity cp <=? 0) eqn:E; [now left|].
  destruct (match currentLocation w with Some _ => _ | None => _ end); [now left|].
  right. exists cp. repeat split. lia.
Qed.

Lemma addItem_fresh_line w uuid product cp :
  find_product (p_id product) (products w) = Some cp ->
  0 < p_quantity cp ->
  sellable_here w cp ->
  find (fun item => (ci_productId item =? p_id product)%string) (items w) = None ->
  exec (addItem uuid product) w =
  setItems (fun l => (l ++ [mkCartItem uuid (p_id product) (p_name product) (p_price product) 1])%list)
    (set_products
       (map (fun p => if (p_id p =? p_id cp)%string
                      then with_quantity cp (p_quantity cp - 1) else p)) w).
Proof.
  intros Hf Hq Hs Hl. unfold addItem. run_ctx. rewrite Hf.
  destruct (p_quantity cp <=? 0) eqn:E; [lia|].
  rewrite (sellable_not_foreign _ _ Hs). cbn.
  unfold setItems, set_products. cbn. now rewrite Hl.
Qed.

(** Removing the line that [addItem] appended for [cp]. *)
Lemma removeItem_fresh_line w uuid product cp :
  find_product (p_id product) (products w) = Some cp ->
  no_line_for w (p_id product) uuid ->
  let w1 :=
    setItems (fun l => (l ++ [mkCartItem uuid (p_id product) (p_name product) (p_price product) 1])%list)
      (set_products
         (map (fun p => if (p_id p =? p_id cp)%string
                        then with_quantity cp (p_quantity cp - 1) else p)) w) in
  items (exec (removeItem uuid) w1) = items w /\
  (forall pid, find_product pid (products (exec (removeItem uuid) w1)) =
               find_product pid (products w)).
Proof.
  intros Hf [Hl Hu] w1.
  pose proof (find_product_id _ _ _ Hf) as Hid.
  assert (Hi1 : items w1 =
                (items w ++
                 [mkCartItem uuid (p_id product) (p_name product) (p_price product) 1])%list)
    by reflexivity.
  assert (Hp1 : products w1 =
                map (fun p => if (p_id p =? p_id cp)%string
                              then with_quantity cp (p_quantity cp - 1) else p)
                    (products w))
    by reflexivity.
  clearbody w1.
  assert (Hf1 : find_product (p_id product) (products w1) =
                Some (with_quantity cp (p_quantity cp - 1))).
  { rewrite Hp1.
    rewrite find_replace by reflexivity. rewrite Hf.
    now rewrite Hid, String.eqb_refl. }
  assert (E2 : exec (removeItem uuid) w1 =
    setItems (filter (fun item => negb (ci_id item =? uuid)%string))
      (set_products (map (fun p => if (p_id p =? p_id cp)%string then cp else p)) w1)).
  { unfold removeItem. run_ctx. rewrite Hi1.
    rewrite (find_none_app _ _ _ Hu).
    cbn [ci_id]. rewrite String.eqb_refl.
    cbn -[find_product]. rewrite Hf1. cbn.
    replace (p_quantity cp - 1 + 1) with (p_quantity cp) by lia.
    now destruct cp. }
  rewrite E2. split.
  - cbn [items setItems set_products]. rewrite Hi1.
    apply filter_none_app; [exact Hu|].
    cbn. apply String.eqb_refl.
  - intros pid. cbn [products setItems set_products].
    rewrite find_replace by reflexivity.
    rewrite Hp1, find_replace by reflexivity.
    destruct (find_product pid (products w)) as [p|] eqn:Hp; [|reflexivity].
    destruct (p_id p =? p_id cp)%string eqn:E.
    + cbn. rewrite String.eqb_refl. f_equal.
      apply String.eqb_eq in E.
      pose proof (find_product_id _ _ _ Hp) as Hpid.
      assert (pid = p_id product) by congruence. subst pid. congruence.
    + now rewrite E.
Qed.

(** C6, as amended. When the cart holds no line for the product yet,
    [addItem] followed by [removeItem] of the line it created, under its
    fresh id, gives the product its former quantity and the cart its
    former lines: the item list and every product lookup are as before the
    addition. In between, a product in stock that passes the location
    check is one unit down and the cart has its new line of one unit. *)
Theorem C6_add_then_remove_restores :
  forall w uuid product,
    no_line_for w (p_id product) uuid ->
    let w1 := exec (addItem uuid product) w in
    let w2 := exec (removeItem uuid) w1 in
    (forall cp,
        find_product (p_id product) (products w) = Some cp ->
        0 < p_quantity cp ->
        sellable_here w cp ->
        find_product (p_id product) (products w1) =
          Some (with_quantity cp (p_quantity cp - 1)) /\
        items w1 =
          (items w ++
           [mkCartItem uuid (p_id product) (p_name product) (p_price product) 1])%list) /\
    items w2 = items w /\
    (forall pid, find_product pid (products w2) = find_product pid (products w)).
Proof.
  intros w uuid product Hno w1 w2. split.
  - intros cp Hf Hq Hs. subst w1.
    rewrite (addItem_fresh_line w uuid product cp Hf Hq Hs (proj1 Hno)).
    cbn [products items setItems set_products]. split; [|reflexivity].
    rewrite find_replace by reflexivity. rewrite Hf.
    now rewrite (find_product_id _ _ _ Hf), String.eqb_refl.
  - subst w2 w1.
    destruct (addItem_cases w uuid product) as [-> | (cp & Hf & Hq & ->)].
    + assert (E : exec (removeItem uuid) w = w)
        by (unfold removeItem; run_ctx; now rewrite (proj2 Hno)).
      rewrite E. now split.
    + match goal with
      | |- context [setItems ?F (set_products ?G w)] =>
          replace (setItems F (set_products G w))
            with (setItems
                    (fun l => (l ++ [mkCartItem uuid (p_id product) (p_name product)
                                                (p_price product) 1])%list)
                    (set_products G w))
            by (unfold setItems; cbn [items set_products]; now rewrite (proj1 Hno))
      end.
      exact (removeItem_fresh_line w uuid product cp Hf Hno).
Qed.

(** C6 at a concrete input: one unit of a product in stock, empty cart. *)
Lemma C6_add_then_remove_restores_witness :
  items (exec (removeItem "c1") (exec (addItem "c1" (Sample.P 5))
           (Sample.bare (Some Sample.seller) (Some Sample.L1) [Sample.P 5]))) = [] /\
  find_product "P"
    (products (exec (removeItem "c1") (exec (addItem "c1" (Sample.P 5))
           (Sample.bare (Some Sample.seller) (Some Sample.L1) [Sample.P 5])))) =
  Some (Sample.P 5).
Proof.
  destruct (C6_add_then_remove_restores
              (Sample.bare (Some Sample.seller) (Some Sample.L1) [Sample.P 5])
              "c1" (Sample.P 5) (conj eq_refl eq_refl))
    as (_ & Hi & Hp).
  split; [exact Hi | exact (Hp "P")].
Defined.

(** C6 as stated fails on a cart that already holds the product: with 3
    units on the shelf and 2 in the cart, adding one more and removing the
    line returns all 3 units of the line (shelf 5, not 3) and leaves the
    cart empty (not with its line of 2). *)
Lemma C6_counterexample :
  find_product "P" (products (Sample.shop 3 2)) = Some (Sample.P 3) /\
  items (Sample.shop 3 2) = [Sample.line 2] /\
  items (exec (addItem "c9" (Sample.P 3)) (Sample.shop 3 2)) = [Sample.line 3] /\
  find_product "P"
    (products (exec (removeItem "c1") (exec (addItem "c9" (Sample.P 3)) (Sample.shop 3 2))))
    = Some (Sample.P 5) /\
  items (exec (removeItem "c1") (exec (addItem "c9" (Sample.P 3)) (Sample.shop 3 2))) = [].
Proof. repeat split. Qed.

(** ** Scoped reads *)

Lemma scopedQuery_selected {Doc} (f : Doc -> option string) loc u db :
  scopedQuery f (Some loc) u db = where_locationId f (loc_id loc) db.
Proof. reflexivity. Qed.

Lemma scopedQuery_restricted {Doc} (f : Doc -> option string) u v db :
  restricted_role (role u) ->
  user_locationId u = Some v ->
  truthy (Some v) = true ->
  scopedQuery f None (Some u) db = where_locationId f v db.
Proof.
  intros Hr Hv Ht. unfold scopedQuery, has_role. cbn [locationId_of].
  rewrite Hv, Ht. destruct Hr as [Hr|[Hr|Hr]]; now rewrite Hr.
Qed.

Lemma scopedQuery_superadmin {Doc} (f : Doc -> option string) u db :
  has_role u superadmin = true ->
  scopedQuery f None u db = db.
Proof.
  unfold scopedQuery, has_role. destruct u as [u|]; [|discriminate].
  now destruct (role u).
Qed.

Lemma scopedQuery_no_location {Doc} (f : Doc -> option string) u db :
  truthy (locationId_of u) = false ->
  scopedQuery f None u db = db.
Proof.
  unfold scopedQuery. intros ->. now rewrite !andb_false_r.
Qed.

Lemma where_locationId_In {Doc} (f : Doc -> option string) v db d :
  In d (where_locationId f v db) <-> In d db /\ f d = Some v.
Proof.
  unfold where_locationId. rewrite filter_In. unfold locationId_is.
  destruct (f d) as [x|]; split; intros [Hin H]; split; auto; try discriminate.
  - apply String.eqb_eq in H. now subst.
  - injection H as ->. apply String.eqb_refl.
Qed.

(** C2, as amended. Whenever a location is selected, the read of sales,
    returns and categories is filtered by [locationId == ] the selected
    location's id, whatever the role. With no location selected, an admin,
    manager or salesperson that has an assigned location reads
    [locationId == user.locationId], and a superadmin reads every
    location. A filtered read keeps the documents whose [locationId] is
    the value asked for, and only those. *)
Theorem C2_scoped_reads :
  forall w,
    (forall Doc (f : Doc -> option string) v db d,
        In d (where_locationId f v db) <-> In d db /\ f d = Some v) /\
    (forall loc, currentLocation w = Some loc ->
        reads_as w (fun _ f => where_locationId f (loc_id loc))) /\
    (forall u v, currentLocation w = None -> currentUser w = Some u ->
        restricted_role (role u) -> user_locationId u = Some v ->
        truthy (Some v) = true ->
        reads_as w (fun _ f => where_locationId f v)) /\
    (forall u, currentLocation w = None -> currentUser w = Some u ->
        role u = superadmin ->
        reads_as w (fun _ _ db => db)).
Proof.
  intros w. split; [intros; apply where_locationId_In|].
  unfold reads_as, refreshSales, refreshReturns, refreshCategories.
  run_ctx. cbn [sales returns categories setSales setReturns setCategories].
  repeat split; intros;
    repeat match goal with
           | H : currentLocation w = _ |- _ => rewrite H
           | H : currentUser w = _ |- _ => rewrite H
           end;
    try reflexivity;
    try (apply scopedQuery_restricted; assumption);
    apply scopedQuery_superadmin; cbn;
    match goal with H : role _ = superadmin |- _ => now rewrite H end.
Qed.

(** C2 at concrete sessions: a superadmin on location L2, a salesperson of
    L1 with nothing selected, a superadmin with nothing selected. *)
Lemma C2_scoped_reads_witness :
  sales (exec refreshSales (Sample.ledger (Some Sample.root) (Some Sample.L2)))
    = [Sample.saleAt "2" (Some "L2")] /\
  sales (exec refreshSales (Sample.ledger (Some Sample.seller) None))
    = [Sample.saleAt "1" (Some "L1")] /\
  sales (exec refreshSales (Sample.ledger (Some Sample.root) None))
    = Sample.twoSales.
Proof.
  split; [|split].
  - exact (proj1 (proj1 (proj2 (C2_scoped_reads
                                  (Sample.ledger (Some Sample.root) (Some Sample.L2))))
                        Sample.L2 eq_refl)).
  - refine (proj1 (proj1 (proj2 (proj2 (C2_scoped_reads
                                          (Sample.ledger (Some Sample.seller) None))))
                         Sample.seller "L1" eq_refl eq_refl _ eq_refl eq_refl)).
    right; right; reflexivity.
  - exact (proj1 (proj2 (proj2 (proj2 (C2_scoped_reads
                                         (Sample.ledger (Some Sample.root) None))))
                        Sample.root eq_refl eq_refl eq_refl)).
Defined.

(** C2 as stated fails for an admin assigned to L1 while location L2 is
    the selected one: the read returns the sales of L2, not those whose
    [locationId] is the admin's. *)
Lemma C2_counterexample :
  role Sample.adminL1 = admin /\
  user_locationId Sample.adminL1 = Some "L1" /\
  sales (exec refreshSales (Sample.ledger (Some Sample.adminL1) (Some Sample.L2)))
    = [Sample.saleAt "2" (Some "L2")] /\
  where_locationId sale_locationId "L1"
    (salesDb (Sample.ledger (Some Sample.adminL1) (Some Sample.L2)))
    = [Sample.saleAt "1" (Some "L1")].
Proof. repeat split. Qed.

(** ** Checkout *)

Lemma nextCount w :
  match counter w with Some c => (c + 1)%N | None => 1%N end = (currentCount w + 1)%N.
Proof. unfold currentCount. now destruct (counter w). Qed.

(** What [addSale] does, in one step. *)
Lemma addSale_eq docId today sd w :
  addSale docId today sd w =
  let n := (currentCount w + 1)%N in
  let w1 := set_counter (Some n) w in
  if negb (truthy (saleLocation w sd)) && negb (has_role (currentUser w) superadmin)
  then (Thrown NoLocationAvailable, w1)
  else
    let s := mkSale docId (formatInvoiceNumber today n) (sd_items sd) (sd_subtotal sd)
                    (sd_cgst sd) (sd_sgst sd) (sd_total sd) (sd_paymentMethod sd)
                    (sd_createdBy sd) (saleLocation w sd) in
    (Ok s,
     setSales (scopedQuery sale_locationId (currentLocation w) (currentUser w)
                           (s :: salesDb w))
              (set_salesDb (cons s) w1)).
Proof.
  unfold addSale, getNextInvoiceNumber, refreshSales. run_ctx.
  rewrite nextCount. cbn. fold (saleLocation w sd).
  now destruct (negb (truthy (saleLocation w sd)) &&
                negb (has_role (currentUser w) superadmin)).
Qed.

Lemma addSale_products docId today sd w :
  products (exec (addSale docId today sd) w) = products w.
Proof.
  unfold exec. rewrite addSale_eq. cbv zeta.
  now destruct (negb (truthy (saleLocation w sd)) &&
                negb (has_role (currentUser w) superadmin)).
Qed.

Lemma handleConfirmCheckout_products docId today pm w :
  products (exec (handleConfirmCheckout docId today pm) w) = products w.
Proof.
  unfold handleConfirmCheckout, clearCart. run_ctx.
  destruct (currentUser w) as [cu|]; [|reflexivity].
  rewrite addSale_eq. cbv zeta.
  now destruct (negb (truthy _) && negb (has_role _ superadmin)).
Qed.

Lemma addSale_counter docId today sd w :
  counter (exec (addSale docId today sd) w) = Some (currentCount w + 1)%N.
Proof.
  unfold exec. rewrite addSale_eq. cbv zeta.
  now destruct (negb (truthy _) && negb (has_role _ superadmin)).
Qed.

Lemma addSale_ok docId today sd w s :
  outcome (addSale docId today sd) w = Ok s ->
  invoiceNumber s = formatInvoiceNumber today (currentCount w + 1) /\
  sale_locationId s = saleLocation w sd /\
  sale_items s = sd_items sd /\
  paymentMethod s = sd_paymentMethod sd /\
  salesDb (exec (addSale docId today sd) w) = s :: salesDb w /\
  sales (exec (addSale docId today sd) w) =
    scopedQuery sale_locationId (currentLocation w) (currentUser w) (s :: salesDb w).
Proof.
  unfold outcome, exec. rewrite addSale_eq. cbv zeta.
  destruct (negb (truthy _) && negb (has_role _ superadmin)); [discriminate|].
  cbn. intros [= <-]. now cbn.
Qed.

Lemma addSale_thrown docId today sd w e :
  outcome (addSale docId today sd) w = Thrown e ->
  e = NoLocationAvailable /\
  exec (addSale docId today sd) w = set_counter (Some (currentCount w + 1)%N) w.
Proof.
  unfold outcome, exec. rewrite addSale_eq. cbv zeta.
  destruct (negb (truthy _) && negb (has_role _ superadmin)); [|discriminate].
  cbn. now intros [= <-].
Qed.

(** C5. Checkout applies no ledger delta: [addSale], [clearCart] and the
    checkout handler that runs one after the other leave the [products]
    untouched, whatever the cart and the payment method. In scenario A, a
    product at 5 with three units added to the cart is at 2; after the
    checkout paid in cash the sale is persisted with the line of 3, the
    cart is empty and the product is still at 2. *)
Theorem C5_checkout_no_ledger_delta :
  (forall w docId today sd, products (exec (addSale docId today sd) w) = products w) /\
  (forall w, products (exec clearCart w) = products w) /\
  (forall w docId today pm,
      products (exec (handleConfirmCheckout docId today pm) w) = products w) /\
  (let w0 := Sample.bare (Some Sample.seller) (Some Sample.L1) [Sample.P 5] in
   let w3 := exec (addItem "c3" (Sample.P 5))
               (exec (addItem "c2" (Sample.P 5)) (exec (addItem "c1" (Sample.P 5)) w0)) in
   let w4 := exec (handleConfirmCheckout "s1" "20240101" cash) w3 in
   products w3 = [Sample.P 2] /\ items w3 = [Sample.line 3] /\
   products w4 = [Sample.P 2] /\ items w4 = [] /\
   map sale_items (salesDb w4) = [[Sample.line 3]] /\
   map paymentMethod (salesDb w4) = [cash]).
Proof.
  split; [|split; [|split]].
  - intros. apply addSale_products.
  - reflexivity.
  - intros. apply handleConfirmCheckout_products.
  - cbv zeta. repeat split.
Qed.

(** C8. With no location on the sale data, none selected and none on the
    user, [addSale] by anyone but a superadmin throws the no-location
    error and persists no sale; by a superadmin it succeeds, and the sale
    is persisted, and read back, with the empty location of the sale data. *)
Theorem C8_addSale_without_location :
  forall w docId today sd,
    truthy (sd_locationId sd) = false ->
    currentLocation w = None ->
    truthy (locationId_of (currentUser w)) = false ->
    (has_role (currentUser w) superadmin = false ->
     outcome (addSale docId today sd) w = Thrown NoLocationAvailable /\
     salesDb (exec (addSale docId today sd) w) = salesDb w /\
     sales (exec (addSale docId today sd) w) = sales w) /\
    (has_role (currentUser w) superadmin = true ->
     exists s,
       outcome (addSale docId today sd) w = Ok s /\
       sale_locationId s = sd_locationId sd /\
       truthy (sale_locationId s) = false /\
       sale_items s = sd_items sd /\
       salesDb (exec (addSale docId today sd) w) = s :: salesDb w /\
       sales (exec (addSale docId today sd) w) = s :: salesDb w).
Proof.
  intros w docId today sd Hsd Hsel Hloc.
  assert (Hl : saleLocation w sd = sd_locationId sd)
    by (unfold saleLocation; now rewrite Hsd, Hsel, Hloc).
  split; intros Hrole.
  - unfold outcome, exec. rewrite addSale_eq. cbv zeta.
    rewrite Hl, Hsd, Hrole. now cbn.
  - destruct (outcome (addSale docId today sd) w) as [s|e] eqn:E.
    + exists s. pose proof (addSale_ok _ _ _ _ _ E) as (_ & Hs & Hi & _ & Hd & Hv).
      rewrite Hl in Hs. rewrite Hsel, scopedQuery_superadmin in Hv by exact Hrole.
      rewrite Hs. now repeat split.
    + exfalso. revert E. unfold outcome. rewrite addSale_eq. cbv zeta.
      rewrite Hrole, andb_false_r. discriminate.
Qed.

(** C8 on the salesperson without a location and on the superadmin with
    nothing selected. *)
Lemma C8_addSale_without_location_witness :
  outcome (addSale "s1" "20240101" Sample.noLocationData)
          (Sample.bare (Some Sample.stray) None []) = Thrown NoLocationAvailable /\
  map sale_locationId
      (salesDb (exec (addSale "s1" "20240101" Sample.noLocationData)
                     (Sample.bare (Some Sample.root) None []))) = [None].
Proof.
  split.
  - exact (proj1 (proj1 (C8_addSale_without_location
                           (Sample.bare (Some Sample.stray) None [])
                           "s1" "20240101" Sample.noLocationData
                           eq_refl eq_refl eq_refl) eq_refl)).
  - destruct (proj2 (C8_addSale_without_location
                       (Sample.bare (Some Sample.root) None [])
                       "s1" "20240101" Sample.noLocationData
                       eq_refl eq_refl eq_refl) eq_refl)
      as (s & _ & Hs & _ & _ & Hd & _).
    rewrite Hd. cbn [map]. now rewrite Hs.
Defined.

(** ** The loops of [addReturn] *)

Lemma duplicate_check rs orderId l w :
  forEach (checkNotReturned rs orderId) l w =
  match find (fun item => isItemReturned rs orderId (ri_id item)) l with
  | Some item => (Thrown (ItemAlreadyReturned (ri_name item)), w)
  | None => (Ok tt, w)
  end.
Proof.
  induction l as [|item l IH]; [reflexivity|].
  cbn [forEach find]. unfold bind, checkNotReturned at 1.
  destruct (isItemReturned rs orderId (ri_id item)); [reflexivity|].
  unfold ret. exact IH.
Qed.

(** Restocking writes products only, and can only fail on a product that
    is not in the snapshot. *)
Lemma restock_loop snapshot t l w :
  exists ps,
    snd (forEach (restock snapshot t) l w) = set_products (fun _ => ps) w /\
    (fst (forEach (restock snapshot t) l w) = Ok tt \/
     exists name, fst (forEach (restock snapshot t) l w) = Thrown (ProductNotFound name)).
Proof.
  revert w. induction l as [|item l IH]; intros w.
  - exists (products w). split; [now destruct w | now left].
  - cbn [forEach]. unfold bind, restock at 1 3 5.
    destruct (find_product (ri_productId item) snapshot) as [p|].
    + unfold updateProduct, modify.
      destruct (IH (set_products
                      (map (fun p0 => if (p_id p0 =? p_id p)%string
                                      then with_quantity p
                                             (p_quantity p +
                                              match t with
                                              | sale_return => ri_quantity item
                                              | purchase_return => - ri_quantity item
                                              end)
                                      else p0)) w)) as (ps & Hs & Ho).
      exists ps. split; [rewrite Hs; reflexivity | exact Ho].
    + exists (products w). split; [now destruct w | right; now exists (ri_name item)].
Qed.

(** What [addReturn] does, in one step. *)
Lemma addReturn_eq docId data w :
  addReturn docId data w =
  match find (fun item => isItemReturned (returns w) (rf_referenceId data) (ri_id item))
             (rf_items data) with
  | Some item => (Thrown (ItemAlreadyReturned (ri_name item)), w)
  | None =>
      if negb (truthy (writeLocation w)) && negb (has_role (currentUser w) superadmin)
      then (Thrown NoLocationAvailable, w)
      else
        match forEach (restock (products w) (rf_type data)) (rf_items data) w with
        | (Ok _, w') =>
            (Ok tt,
             exec refreshSales
               (exec refreshReturns
                  (set_returnsDb (cons (returnRecord docId data w)) w')))
        | (Thrown e, w') => (Thrown e, w')
        end
  end.
Proof.
  unfold addReturn. unfold bind at 1. unfold get at 1. cbv beta iota.
  unfold bind at 1.
  pose proof (duplicate_check (returns w) (rf_referenceId data) (rf_items data) w) as Hd.
  unfold checkNotReturned in Hd. rewrite Hd. clear Hd.
  destruct (find _ (rf_items data)); [reflexivity|].
  destruct (negb (truthy (writeLocation w)) && negb (has_role (currentUser w) superadmin));
    [reflexivity|].
  unfold bind at 1. fold (restock (products w) (rf_type data)).
  destruct (forEach (restock (products w) (rf_type data)) (rf_items data) w)
    as [[[]|e] w']; reflexivity.
Qed.

Lemma isItemReturned_spec rs orderId itemId :
  isItemReturned rs orderId itemId = true <-> returned_in rs orderId itemId.
Proof.
  unfold isItemReturned, returned_in. rewrite existsb_exists. split.
  - intros (r & Hr & H). apply andb_true_iff in H. destruct H as [H1 H2].
    apply String.eqb_eq in H1. apply existsb_exists in H2.
    destruct H2 as (i & Hi & E). apply String.eqb_eq in E.
    exists r. repeat split; auto. now exists i.
  - intros (r & Hr & H1 & i & Hi & E). exists r. split; [exact Hr|].
    apply andb_true_iff. split; [now apply String.eqb_eq|].
    apply existsb_exists. exists i. split; [exact Hi | now apply String.eqb_eq].
Qed.

(** ** Writes without a location *)

Lemma writeLocation_none w :
  currentLocation w = None ->
  truthy (locationId_of (currentUser w)) = false ->
  writeLocation w = None.
Proof. unfold writeLocation. now intros -> ->. Qed.

(** ** Returns *)

(** A record filed under [writeLocation] is within the scope the same
    session reads. *)
Lemma scopedQuery_own_write {Doc} (f : Doc -> option string) w d db :
  f d = writeLocation w ->
  scopedQuery f (currentLocation w) (currentUser w) (d :: db) =
  d :: scopedQuery f (currentLocation w) (currentUser w) db.
Proof.
  unfold writeLocation, scopedQuery, where_locationId. intros Hd.
  destruct (currentLocation w) as [loc|].
  - cbn [filter]. rewrite Hd. cbn. now rewrite String.eqb_refl.
  - destruct (truthy (locationId_of (currentUser w))) eqn:Ht.
    + rewrite !andb_true_r.
      assert (Hin : locationId_is
                      match locationId_of (currentUser w) with Some v => v | None => "" end
                      (f d) = true).
      { rewrite Hd. destruct (locationId_of (currentUser w)); [|discriminate].
        cbn. apply String.eqb_refl. }
      destruct (has_role (currentUser w) salesperson);
        [cbn [filter]; now rewrite Hin|].
      destruct (has_role (currentUser w) manager);
        [cbn [filter]; now rewrite Hin|].
      destruct (has_role (currentUser w) admin);
        [cbn [filter]; now rewrite Hin | reflexivity].
    + now rewrite !andb_false_r.
Qed.

Lemma addReturn_ok docId data w :
  outcome (addReturn docId data) w = Ok tt ->
  find (fun item => isItemReturned (returns w) (rf_referenceId data) (ri_id item))
       (rf_items data) = None /\
  exists ps,
    exec (addReturn docId data) w =
    exec refreshSales
      (exec refreshReturns
         (set_returnsDb (cons (returnRecord docId data w))
                        (set_products (fun _ => ps) w))).
Proof.
  unfold outcome, exec. rewrite addReturn_eq.
  destruct (find _ (rf_items data)); [discriminate|].
  destruct (negb (truthy (writeLocation w)) && negb (has_role (currentUser w) superadmin));
    [discriminate|].
  destruct (restock_loop (products w) (rf_type data) (rf_items data) w) as (ps & Hs & _).
  destruct (forEach (restock (products w) (rf_type data)) (rf_items data) w)
    as [[[]|e] w'] eqn:E; [|discriminate].
  intros _. split; [reflexivity|]. exists ps. cbn [snd] in *. now rewrite Hs.
Qed.





(** ** What a successful return does to the stock *)

Lemma find_product_same_ids pid a b :
  map p_id a = map p_id b ->
  find_product pid a = None -> find_product pid b = None.
Proof.
  unfold find_product. revert b.
  induction a as [|x a IH]; intros [|y b] Hm; try discriminate; [reflexivity|].
  cbn in *. injection Hm as Hxy Hm. rewrite <- Hxy.
  destruct (p_id x =? pid)%string; [discriminate|]. now apply IH.
Qed.

Lemma find_some_app {A} (f : A -> bool) l l' a :
  find f l = Some a -> find f (l ++ l')%list = Some a.
Proof.
  induction l as [|x l IH]; cbn; [discriminate|].
  destruct (f x); [trivial | exact IH].
Qed.

Lemma replace_ids id data ps :
  p_id data = id ->
  map p_id (map (fun p => if (p_id p =? id)%string then data else p) ps) = map p_id ps.
Proof.
  intros Hd. induction ps as [|p ps IH]; cbn; [reflexivity|].
  rewrite IH. f_equal.
  destruct (p_id p =? id)%string eqn:E; [|reflexivity].
  apply String.eqb_eq in E. congruence.
Qed.

(** The restocking loop reads quantities in the snapshot and writes them
    to the store: when it ends, a product named by some item holds its
    snapshot quantity changed by the last item that names it, and every
    other product is as it was in the store. *)
Lemma restock_lookup snapshot t l :
  forall w,
    map p_id (products w) = map p_id snapshot ->
    fst (forEach (restock snapshot t) l w) = Ok tt ->
    forall pid,
      find_product pid (products (snd (forEach (restock snapshot t) l w))) =
      match find (fun i => (ri_productId i =? pid)%string) (rev l) with
      | Some item =>
          option_map
            (fun p => with_quantity p
                        (p_quantity p +
                         match t with
                         | sale_return => ri_quantity item
                         | purchase_return => - ri_quantity item
                         end))
            (find_product pid snapshot)
      | None => find_product pid (products w)
      end.
Proof.
  induction l as [|x l IH]; intros w Hids Hok pid; [reflexivity|].
  cbn [forEach] in *. unfold bind in *. unfold restock at 1 in Hok. unfold restock at 1.
  destruct (find_product (ri_productId x) snapshot) as [p|] eqn:Hp;
    [|discriminate].
  unfold updateProduct, modify in *.
  set (w1 := set_products _ w) in *.
  assert (Hids1 : map p_id (products w1) = map p_id snapshot).
  { subst w1. cbn [products set_products]. now rewrite replace_ids. }
  rewrite (IH w1 Hids1 Hok pid).
  cbn [rev]. destruct (find _ (rev l)) as [item|] eqn:Hl.
  - now rewrite (find_some_app _ _ _ _ Hl).
  - rewrite (find_none_app _ _ _ Hl).
    subst w1. cbn [products set_products].
    rewrite find_replace by reflexivity.
    pose proof (find_product_id _ _ _ Hp) as Hpid.
    destruct (ri_productId x =? pid)%string eqn:E.
    + apply String.eqb_eq in E. subst pid. rewrite Hp. cbn [option_map].
      destruct (find_product (ri_productId x) (products w)) as [p'|] eqn:Hp'.
      * pose proof (find_product_id _ _ _ Hp') as Hid'.
        replace (p_id p' =? p_id p)%string with true
          by (symmetry; apply String.eqb_eq; congruence).
        reflexivity.
      * apply (find_product_same_ids _ _ _ Hids) in Hp'. congruence.
    + destruct (find_product pid (products w)) as [p'|] eqn:Hp'; [|reflexivity].
      replace (p_id p' =? p_id p)%string with false; [reflexivity|].
      symmetry. apply String.eqb_neq. intros Heq.
      apply String.eqb_neq in E. apply E.
      rewrite <- Hpid, <- Heq. now apply find_product_id in Hp'.
Qed.

(** A successful [addReturn] persists one return, with the total of
    [returnTotal], and restocks as [restock_lookup] describes, from the
    products as they were when the call was made. *)
Lemma addReturn_effect docId data w :
  outcome (addReturn docId data) w = Ok tt ->
  returnsDb (exec (addReturn docId data) w) = returnRecord docId data w :: returnsDb w /\
  ret_total (returnRecord docId data w) = returnTotal data /\
  forall pid,
    find_product pid (products (exec (addReturn docId data) w)) =
    match find (fun i => (ri_productId i =? pid)%string) (rev (rf_items data)) with
    | Some item =>
        option_map
          (fun p => with_quantity p
                      (p_quantity p +
                       match rf_type data with
                       | sale_return => ri_quantity item
                       | purchase_return => - ri_quantity item
                       end))
          (find_product pid (products w))
    | None => find_product pid (products w)
    end.
Proof.
  unfold outcome, exec. rewrite addReturn_eq.
  destruct (find _ (rf_items data)); [discriminate|].
  destruct (negb (truthy (writeLocation w)) && negb (has_role (currentUser w) superadmin));
    [discriminate|].
  pose proof (restock_lookup (products w) (rf_type data) (rf_items data) w eq_refl) as Hl.
  destruct (restock_loop (products w) (rf_type data) (rf_items data) w) as (ps & Hs & _).
  destruct (forEach (restock (products w) (rf_type data)) (rf_items data) w)
    as [[[]|e] w'] eqn:E; [|discriminate].
  intros _. cbn [fst snd] in *. rewrite Hs in *.
  split; [reflexivity|]. split; [reflexivity|].
  intros pid. rewrite <- (Hl eq_refl pid). reflexivity.
Qed.

(** C7, where the code departs from it. Returning item [I] (quantity 2,
    price 50) of a sale without a total raises the product from 3 to 5 and
    records a total of 100. The same return submitted with a total of 0
    records 100 as well: a supplied total of 0 is taken as absent. *)
Theorem C7_zero_total_is_recomputed :
  (let w := exec (addReturn "r1" (Sample.returnOfI None))
                 (Sample.bare (Some Sample.seller) (Some Sample.L1) [Sample.P 3]) in
   products w = [Sample.P 5] /\ map ret_total (returnsDb w) = [100 # 1]) /\
  (let w := exec (addReturn "r1" (Sample.returnOfI (Some 0%Q)))
                 (Sample.bare (Some Sample.seller) (Some Sample.L1) [Sample.P 3]) in
   rf_total (Sample.returnOfI (Some 0%Q)) = Some 0%Q /\
   map ret_total (returnsDb w) = [100 # 1]).
Proof. repeat split. Qed.

(** ** Users without a location *)

(** The second loop of [addReturn] goes through when every item names a
    product of the snapshot. *)
Lemma restock_found snapshot t l :
  (forall item, In item l -> find_product (ri_productId item) snapshot <> None) ->
  forall w, fst (forEach (restock snapshot t) l w) = Ok tt.
Proof.
  induction l as [|x l IH]; intros Hl w; [reflexivity|].
  cbn [forEach]. unfold bind.
  destruct (find_product (ri_productId x) snapshot) as [p|] eqn:Hp.
  - assert (Hx : exists w1, restock snapshot t x w = (Ok tt, w1))
      by (unfold restock; rewrite Hp; eexists; reflexivity).
    destruct Hx as [w1 ->]. apply IH. intros item Hi. apply Hl. now right.
  - exfalso. apply (Hl x); [now left | exact Hp].
Qed.

Lemma chooseLocation_unassigned ls w :
  truthy (locationId_of (currentUser w)) = false ->
  currentLocation (exec (chooseLocation ls) w) =
  match ls with
  | [] => None
  | first :: _ => match currentLocation w with
                  | Some l => Some l
                  | None => Some first
                  end
  end.
Proof.
  intros Ht. unfold chooseLocation. unfold exec, bind, get.
  rewrite Ht. destruct ls as [|first ls]; [reflexivity|].
  destruct (currentLocation w) eqn:E; [exact E | reflexivity].
Qed.

Lemma refreshLocations_unassigned sortByName db w :
  truthy (locationId_of (currentUser w)) = false ->
  refreshLocations sortByName db w =
  chooseLocation (sortByName (map locationOf db)) w.
Proof.
  intros Ht. unfold refreshLocations. unfold bind at 1. unfold get at 1.
  cbv beta iota. rewrite Ht. now destruct (has_role (currentUser w) superadmin).
Qed.

(** C3, as amended. A user who is not superadmin and has no assigned
    location follows the selected location. While none is selected, the
    scoped reads are not restricted (sales, returns and categories are read
    whole, not as an empty set) and the writes fail: [addSale] (for sale
    data without a location), [addReturn] and [addCategory] throw the
    no-location error (or, for [addReturn], the already-returned error its
    first loop raises), and no sale, return, category or product quantity
    is written. While a location is selected, the scoped reads return the
    documents of that location, and the writes do not fail for want of a
    location: [addSale] and [addCategory] succeed and file the record under
    the selected location, and so does [addReturn] when no item has been
    returned and every item names a loaded product. [refreshLocations]
    leaves such a user with a location selected as soon as there is a
    location document. *)
Theorem C3_user_without_location :
  forall w,
    has_role (currentUser w) superadmin = false ->
    truthy (locationId_of (currentUser w)) = false ->
    (currentLocation w = None ->
     reads_as w (fun _ _ db => db) /\
     (forall docId today sd,
         truthy (sd_locationId sd) = false ->
         outcome (addSale docId today sd) w = Thrown NoLocationAvailable /\
         salesDb (exec (addSale docId today sd) w) = salesDb w /\
         sales (exec (addSale docId today sd) w) = sales w) /\
     (forall docId data,
         exec (addReturn docId data) w = w /\
         (outcome (addReturn docId data) w = Thrown NoLocationAvailable \/
          exists name,
            outcome (addReturn docId data) w = Thrown (ItemAlreadyReturned name))) /\
     (forall docId name description,
         outcome (addCategory docId name description) w = Thrown NoLocationAvailable /\
         exec (addCategory docId name description) w = w)) /\
    (forall loc,
        currentLocation w = Some loc ->
        reads_as w (fun Doc f db => @where_locationId Doc f (loc_id loc) db) /\
        (loc_id loc <> "" ->
         (forall docId today sd,
             truthy (sd_locationId sd) = false ->
             exists s,
               outcome (addSale docId today sd) w = Ok s /\
               sale_locationId s = Some (loc_id loc) /\
               salesDb (exec (addSale docId today sd) w) = s :: salesDb w /\
               sales (exec (addSale docId today sd) w) =
                 s :: where_locationId sale_locationId (loc_id loc) (salesDb w)) /\
         (forall docId data,
             outcome (addReturn docId data) w <> Thrown NoLocationAvailable /\
             ((forall item,
                  In item (rf_items data) ->
                  isItemReturned (returns w) (rf_referenceId data) (ri_id item) = false /\
                  find_product (ri_productId item) (products w) <> None) ->
              outcome (addReturn docId data) w = Ok tt /\
              exists r,
                returnsDb (exec (addReturn docId data) w) = r :: returnsDb w /\
                ret_locationId r = Some (loc_id loc))) /\
         (forall docId name description,
             outcome (addCategory docId name description) w = Ok tt /\
             exists c,
               categoriesDb (exec (addCategory docId name description) w) =
                 c :: categoriesDb w /\
               cat_locationId c = Some (loc_id loc)))) /\
    (forall sortByName db,
        (forall l, Permutation (sortByName l) l) ->
        db <> [] ->
        exists loc,
          currentLocation (exec (refreshLocations sortByName db) w) = Some loc).
Proof.
  intros w Hrole Hloc. split; [|split].
  - intros Hsel. repeat apply conj.
    + unfold refreshSales. run_ctx. cbn. rewrite Hsel.
      now apply scopedQuery_no_location.
    + unfold refreshReturns. run_ctx. cbn. rewrite Hsel.
      now apply scopedQuery_no_location.
    + unfold refreshCategories. run_ctx. cbn. rewrite Hsel.
      now apply scopedQuery_no_location.
    + intros docId today sd Hsd. unfold outcome, exec. rewrite addSale_eq. cbv zeta.
      unfold saleLocation. rewrite Hsd, Hsel, Hloc, Hsd, Hrole. now cbn.
    + intros docId data. unfold outcome, exec. rewrite addReturn_eq.
      rewrite (writeLocation_none w Hsel Hloc), Hrole.
      destruct (find _ (rf_items data)) as [item|]; cbn.
      * split; [reflexivity | right; now exists (ri_name item)].
      * split; [reflexivity | now left].
    + intros docId name description. unfold addCategory. run_ctx.
      rewrite (writeLocation_none w Hsel Hloc), Hrole. now cbn.
  - intros loc Hsel.
    assert (Hw : writeLocation w = Some (loc_id loc))
      by (unfold writeLocation; now rewrite Hsel).
    split.
    + repeat apply conj.
      * unfold refreshSales. run_ctx. cbn. now rewrite Hsel.
      * unfold refreshReturns. run_ctx. cbn. now rewrite Hsel.
      * unfold refreshCategories. run_ctx. cbn. now rewrite Hsel.
    + intros Hid.
      assert (Ht : truthy (Some (loc_id loc)) = true)
        by (cbn; apply negb_true_iff; now apply String.eqb_neq).
      split; [|split].
      * intros docId today sd Hsd.
        assert (Hs : saleLocation w sd = Some (loc_id loc))
          by (unfold saleLocation; now rewrite Hsd, Hsel).
        destruct (outcome (addSale docId today sd) w) as [s|e] eqn:E.
        -- exists s. pose proof (addSale_ok _ _ _ _ _ E) as (_ & Hl & _ & _ & Hd & Hv).
           rewrite Hs in Hl. split; [reflexivity|]. split; [exact Hl|].
           split; [exact Hd|]. rewrite Hv, Hsel. cbn [scopedQuery].
           unfold where_locationId. cbn [filter]. rewrite Hl. cbn [locationId_is].
           now rewrite String.eqb_refl.
        -- exfalso. revert E. unfold outcome. rewrite addSale_eq. cbv zeta.
           fold (saleLocation w sd). rewrite Hs, Ht. discriminate.
      * intros docId data. split.
        -- unfold outcome. rewrite addReturn_eq, Hw, Ht.
           destruct (find _ (rf_items data)); [discriminate|]. cbn [negb andb].
           destruct (restock_loop (products w) (rf_type data) (rf_items data) w)
             as (ps & _ & [Ho|[n Ho]]);
             destruct (forEach (restock (products w) (rf_type data)) (rf_items data) w)
               as [[[]|e] w']; cbn [fst] in *; congruence.
        -- intros Hitems.
           assert (Hnone : find (fun item => isItemReturned (returns w) (rf_referenceId data)
                                               (ri_id item)) (rf_items data) = None).
           { destruct (find _ (rf_items data)) as [item|] eqn:Hf; [|reflexivity].
             apply find_some in Hf. destruct Hf as [Hin Hr].
             rewrite (proj1 (Hitems item Hin)) in Hr. discriminate. }
           assert (Hfound : fst (forEach (restock (products w) (rf_type data))
                                         (rf_items data) w) = Ok tt).
           { apply restock_found. intros item Hin. exact (proj2 (Hitems item Hin)). }
           assert (Hok : outcome (addReturn docId data) w = Ok tt).
           { unfold outcome. rewrite addReturn_eq, Hnone, Hw, Ht. cbn [negb andb].
             destruct (forEach (restock (products w) (rf_type data)) (rf_items data) w)
               as [[[]|e] w']; [reflexivity | discriminate]. }
           split; [exact Hok|].
           exists (returnRecord docId data w).
           split; [exact (proj1 (addReturn_effect _ _ _ Hok))|].
           cbn [returnRecord ret_locationId]. exact Hw.
      * intros docId name description. unfold addCategory. run_ctx.
        rewrite Hw, Ht. cbn. split; [reflexivity|].
        eexists. split; reflexivity.
  - intros sortByName db Hperm Hdb. unfold exec.
    rewrite (refreshLocations_unassigned _ _ _ Hloc).
    pose proof (chooseLocation_unassigned (sortByName (map locationOf db)) w Hloc) as Hc.
    unfold exec in Hc. rewrite Hc.
    destruct (sortByName (map locationOf db)) as [|first rest] eqn:E.
    + pose proof (Hperm (map locationOf db)) as Hp. rewrite E in Hp.
      apply Permutation_nil in Hp. destruct db; [congruence | discriminate].
    + destruct (currentLocation w) as [l|]; eauto.
Qed.

(** C3 at concrete sessions of a salesperson without a location: with
    nothing selected, and with L1 selected. *)
Lemma C3_user_without_location_witness :
  sales (exec refreshSales (Sample.ledger (Some Sample.stray) None)) = Sample.twoSales /\
  outcome (addSale "s3" "20240101" Sample.noLocationData)
          (Sample.ledger (Some Sample.stray) None) = Thrown NoLocationAvailable /\
  sales (exec refreshSales (Sample.ledger (Some Sample.stray) (Some Sample.L1))) =
    [Sample.saleAt "1" (Some "L1")] /\
  (exists s,
     outcome (addSale "s3" "20240101" Sample.noLocationData)
             (Sample.ledger (Some Sample.stray) (Some Sample.L1)) = Ok s /\
     sale_locationId s = Some "L1") /\
  (exists loc,
     currentLocation
       (exec (refreshLocations Fixture.sorted [Fixture.docL2; Fixture.docL1])
             (Sample.ledger (Some Sample.stray) None)) = Some loc).
Proof.
  pose proof (C3_user_without_location
                (Sample.ledger (Some Sample.stray) None) eq_refl eq_refl)
    as (Hnone & _ & Hrefresh).
  pose proof (C3_user_without_location
                (Sample.ledger (Some Sample.stray) (Some Sample.L1)) eq_refl eq_refl)
    as (_ & Hsel & _).
  destruct (Hnone eq_refl) as (Hread & Hsale & _).
  destruct (Hsel Sample.L1 eq_refl) as (Hread1 & Hwrite).
  assert (Hid : loc_id Sample.L1 <> "") by discriminate.
  destruct (Hwrite Hid) as (Hsale1 & _).
  destruct (Hsale1 "s3" "20240101" Sample.noLocationData eq_refl)
    as (s & Hs & Hl & _).
  split; [exact (proj1 Hread)|].
  split; [exact (proj1 (Hsale "s3" "20240101" Sample.noLocationData eq_refl))|].
  split; [exact (proj1 Hread1)|].
  split; [exists s; split; [exact Hs | exact Hl]|].
  apply (Hrefresh Fixture.sorted [Fixture.docL2; Fixture.docL1]).
  - intros l. apply Permutation_refl.
  - discriminate.
Defined.

(** C3 as stated fails on both counts. A salesperson without a location,
    and with none selected, reads both sales of the store, not an empty
    set. And once the locations have been read, the first of them is
    selected for this salesperson: the reads are those of that location,
    and [addSale] succeeds and files the sale there instead of failing. *)
Lemma C3_counterexample :
  role Sample.stray = salesperson /\
  user_locationId Sample.stray = None /\
  sales (exec refreshSales (Sample.ledger (Some Sample.stray) None)) =
    [Sample.saleAt "2" (Some "L2"); Sample.saleAt "1" (Some "L1")] /\
  currentLocation
    (exec (refreshLocations Fixture.sorted [Fixture.docL2; Fixture.docL1])
          (Sample.ledger (Some Sample.stray) None)) = Some Sample.L2 /\
  sales
    (exec (refreshLocations Fixture.sorted [Fixture.docL2; Fixture.docL1])
          (Sample.ledger (Some Sample.stray) None)) = [Sample.saleAt "2" (Some "L2")] /\
  exists s,
    outcome (addSale "s3" "20240101" Sample.noLocationData)
            (exec (refreshLocations Fixture.sorted [Fixture.docL2; Fixture.docL1])
                  (Sample.ledger (Some Sample.stray) None)) = Ok s /\
    sale_locationId s = Some "L2".
Proof.
  repeat split. eexists. split; reflexivity.
Qed.

(** ** Invoice numbers *)

Lemma has_dash_digits d : has_dash (NilEmpty.string_of_uint d) = false.
Proof. induction d; cbn; auto. Qed.

Lemma has_dash_zeros k s : has_dash (repeat_char "0" k ++ s) = has_dash s.
Proof. induction k as [|k IH]; cbn; auto. Qed.

Lemma has_dash_padStart s : has_dash (padStart 4 "0" s) = has_dash s.
Proof.
  unfold padStart. destruct (String.length s <? 4)%nat; [|reflexivity].
  apply has_dash_zeros.
Qed.

Lemma has_dash_before p s : has_dash (p ++ String "-" s) = true.
Proof.
  induction p as [|a p IH]; cbn; [reflexivity|].
  rewrite IH. apply orb_true_r.
Qed.

Lemma last_field_after_dash p s :
  has_dash s = false -> last_field (p ++ String "-" s) = s.
Proof.
  intros Hs. induction p as [|a p IH]; cbn [append last_field].
  - now rewrite Hs.
  - now rewrite has_dash_before.
Qed.

(** Leading zeros do not change the number read. *)
Lemma read_zeros k s :
  match NilEmpty.uint_of_string (repeat_char "0" k ++ s) with
  | Some d => N.of_uint d
  | None => 0%N
  end =
  match NilEmpty.uint_of_string s with
  | Some d => N.of_uint d
  | None => 0%N
  end.
Proof.
  induction k as [|k IH]; [reflexivity|].
  cbn [repeat_char append NilEmpty.uint_of_string]. rewrite <- IH.
  now destruct (NilEmpty.uint_of_string (repeat_char "0" k ++ s)).
Qed.

(** The count is read back from the invoice number, whatever the date. *)
Lemma count_of_formatInvoiceNumber today n :
  count_of_invoice (formatInvoiceNumber today n) = n.
Proof.
  unfold count_of_invoice, formatInvoiceNumber.
  change ("MHF-" ++ today ++ "-" ++ padStart 4 "0" (String_of_N n))
    with (("MHF-" ++ today) ++ String "-" (padStart 4 "0" (String_of_N n))).
  rewrite last_field_after_dash
    by (rewrite has_dash_padStart; apply has_dash_digits).
  unfold padStart, String_of_N.
  destruct (String.length _ <? 4)%nat; [rewrite read_zeros|];
    rewrite NilEmpty.usu; apply Unsigned.of_to.
Qed.

Lemma formatInvoiceNumber_inj today today' n n' :
  formatInvoiceNumber today n = formatInvoiceNumber today' n' -> n = n'.
Proof.
  intros H. apply (f_equal count_of_invoice) in H.
  now rewrite !count_of_formatInvoiceNumber in H.
Qed.

(** One checkout either leaves the sales as they are or puts one sale in
    front, numbered with the new value of the counter. *)
Lemma step_effect c w :
  currentCount (step c w) = (currentCount w + 1)%N /\
  (salesDb (step c w) = salesDb w \/
   exists s, salesDb (step c w) = s :: salesDb w /\
             sale_count s = (currentCount w + 1)%N).
Proof.
  unfold step.
  set (w0 := set_session (call_user c) (call_location c) w).
  assert (Hc : currentCount w0 = currentCount w) by reflexivity.
  assert (Hd : salesDb w0 = salesDb w) by reflexivity.
  split.
  - unfold currentCount at 1. now rewrite addSale_counter, Hc.
  - destruct (outcome (addSale (call_docId c) (call_today c) (call_data c)) w0)
      as [s|e] eqn:E.
    + right. exists s. apply addSale_ok in E.
      destruct E as (Hi & _ & _ & _ & Hs & _). rewrite Hs, Hd. split; [reflexivity|].
      unfold sale_count. now rewrite Hi, count_of_formatInvoiceNumber, Hc.
    + left. apply addSale_thrown in E. destruct E as [_ ->]. exact Hd.
Qed.

Lemma step_ordered c w : invoices_ordered w -> invoices_ordered (step c w).
Proof.
  intros [Hs Hf]. destruct (step_effect c w) as [Hc [Hd | (s & Hd & Hn)]];
    unfold invoices_ordered; rewrite Hc, Hd.
  - split; [exact Hs|].
    eapply Forall_impl; [|exact Hf]. cbn. intros; lia.
  - split.
    + constructor; [exact Hs|].
      eapply Forall_impl; [|exact Hf]. cbn. intros; lia.
    + constructor; [lia|].
      eapply Forall_impl; [|exact Hf]. cbn. intros; lia.
Qed.

Lemma run_count calls w :
  currentCount (run calls w) = (currentCount w + N.of_nat (List.length calls))%N.
Proof.
  revert w. induction calls as [|c cs IH]; intros w; cbn [run List.length].
  - cbn. lia.
  - rewrite IH. destruct (step_effect c w) as [-> _]. lia.
Qed.

Lemma run_ordered calls w : invoices_ordered w -> invoices_ordered (run calls w).
Proof.
  revert w. induction calls as [|c cs IH]; intros w Hw; cbn [run]; [exact Hw|].
  apply IH. now apply step_ordered.
Qed.

(** A later sale is an earlier one or carries a higher count. *)
Lemma run_sales calls w s :
  In s (salesDb (run calls w)) ->
  In s (salesDb w) \/ (currentCount w < sale_count s)%N.
Proof.
  revert w. induction calls as [|c cs IH]; intros w Hin; cbn [run] in Hin.
  - now left.
  - apply IH in Hin. destruct (step_effect c w) as [Hc [Hd | (s' & Hd & Hn)]];
      rewrite Hc, Hd in Hin.
    + destruct Hin as [Hin|Hin]; [now left | right; lia].
    + destruct Hin as [[<-|Hin]|Hin]; [right; lia | now left | right; lia].
Qed.

Lemma ordered_NoDup l :
  StronglySorted (fun newer older => (sale_count older < sale_count newer)%N) l ->
  NoDup (map invoiceNumber l).
Proof.
  induction 1 as [|s l Hs IH Hf]; cbn; constructor; [|exact IH].
  intros Hin. apply in_map_iff in Hin. destruct Hin as (s' & He & Hin).
  pose proof (proj1 (Forall_forall _ _) Hf s' Hin) as Hlt. cbn in Hlt.
  unfold sale_count in Hlt. rewrite He in Hlt. lia.
Qed.

(** C9. Every [addSale], under any session and whether it succeeds or
    not, sets the one counter document to its former value plus one (1 if
    the document is missing); a sale that is persisted carries the invoice
    number MHF-date-count made of that value, padded to four digits.
    Invoice numbers of different counts differ, whatever their dates. So,
    run one after the other from a store whose sales are ordered by count,
    any checkouts of any users at any locations advance the counter by one
    each, keep the persisted sales in strictly increasing order of count,
    and no two persisted sales share an invoice number. *)
Theorem C9_invoice_numbers_increase :
  (forall w docId today sd,
      counter (exec (addSale docId today sd) w) = Some (currentCount w + 1)%N /\
      forall s, outcome (addSale docId today sd) w = Ok s ->
                invoiceNumber s = formatInvoiceNumber today (currentCount w + 1) /\
                salesDb (exec (addSale docId today sd) w) = s :: salesDb w) /\
  (forall today today' n n',
      formatInvoiceNumber today n = formatInvoiceNumber today' n' -> n = n') /\
  (forall calls w,
      invoices_ordered w ->
      currentCount (run calls w) = (currentCount w + N.of_nat (List.length calls))%N /\
      invoices_ordered (run calls w) /\
      NoDup (map invoiceNumber (salesDb (run calls w)))).
Proof.
  split; [|split].
  - intros w docId today sd. split; [apply addSale_counter|].
    intros s Hs. apply addSale_ok in Hs. tauto.
  - apply formatInvoiceNumber_inj.
  - intros calls w Hw. split; [apply run_count|].
    pose proof (run_ordered calls w Hw) as Ho. split; [exact Ho|].
    apply ordered_NoDup. exact (proj1 Ho).
Qed.

(** C9 on three checkouts from an empty store: the second is rejected,
    the third is numbered 3. *)
Lemma C9_invoice_numbers_increase_witness :
  currentCount (run Sample.day (Sample.bare None None [])) = 3%N /\
  NoDup (map invoiceNumber (salesDb (run Sample.day (Sample.bare None None [])))) /\
  map invoiceNumber (salesDb (run Sample.day (Sample.bare None None [])))
    = ["MHF-20240102-0003"; "MHF-20240101-0001"].
Proof.
  assert (H0 : invoices_ordered (Sample.bare None None []))
    by (split; constructor).
  destruct (proj2 (proj2 C9_invoice_numbers_increase) Sample.day _ H0) as (Hc & _ & Hn).
  split; [exact Hc|]. split; [exact Hn | reflexivity].
Defined.

(** C10. When [addSale] is rejected for want of a location, the counter
    document has already been written: it stands one above its former
    value, and no sale has been persisted. The number is spent: in a store
    whose sales are ordered by count, no sale persisted before or by any
    later checkouts carries the invoice number of the rejected call. *)
Theorem C10_rejected_sale_spends_a_number :
  forall w docId today sd,
    outcome (addSale docId today sd) w = Thrown NoLocationAvailable ->
    counter (exec (addSale docId today sd) w) = Some (currentCount w + 1)%N /\
    salesDb (exec (addSale docId today sd) w) = salesDb w /\
    sales (exec (addSale docId today sd) w) = sales w /\
    (invoices_ordered w ->
     forall calls s,
       In s (salesDb (run calls (exec (addSale docId today sd) w))) ->
       invoiceNumber s <> formatInvoiceNumber today (currentCount w + 1)).
Proof.
  intros w docId today sd H. apply addSale_thrown in H. destruct H as [_ ->].
  repeat split.
  intros [_ Hf] calls s Hin Heq.
  assert (Hn : sale_count s = (currentCount w + 1)%N)
    by (unfold sale_count; now rewrite Heq, count_of_formatInvoiceNumber).
  apply run_sales in Hin. destruct Hin as [Hin|Hlt].
  - pose proof (proj1 (Forall_forall _ _) Hf s Hin) as Hle. cbn in Hle. lia.
  - cbn in Hlt. lia.
Qed.

(** C10 on the salesperson without a location, followed by the three
    checkouts of the sample day. *)
Lemma C10_rejected_sale_spends_a_number_witness :
  counter (exec (addSale "s0" "20240101" Sample.noLocationData)
                (Sample.bare (Some Sample.stray) None [])) = Some 1%N /\
  forall s,
    In s (salesDb (run Sample.day
                     (exec (addSale "s0" "20240101" Sample.noLocationData)
                           (Sample.bare (Some Sample.stray) None [])))) ->
    invoiceNumber s <> "MHF-20240101-0001".
Proof.
  destruct (C10_rejected_sale_spends_a_number
              (Sample.bare (Some Sample.stray) None [])
              "s0" "20240101" Sample.noLocationData eq_refl)
    as (Hc & _ & _ & Hn).
  split; [exact Hc|].
  intros s. apply (Hn (conj (SSorted_nil _) (Forall_nil _)) Sample.day s).
Defined.

(** * Further properties of the cart *)

Lemma find_none_not_In {A} (f : A -> string) (v : string) l :
  find (fun a => (f a =? v)%string) l = None -> ~ In v (map f l).
Proof.
  induction l as [|a l IH]; cbn; [tauto|].
  destruct (f a =? v)%string eqn:E; [discriminate|].
  apply String.eqb_neq in E. intros H [Ha|Hin]; [congruence | now apply IH].
Qed.

Lemma not_In_find_none {A} (f : A -> string) (v : string) l :
  ~ In v (map f l) -> find (fun a => (f a =? v)%string) l = None.
Proof.
  induction l as [|a l IH]; cbn; [reflexivity|]. intros H.
  destruct (f a =? v)%string eqn:E.
  - apply String.eqb_eq in E. tauto.
  - apply IH. tauto.
Qed.

Lemma NoDup_map_filter {A B} (f : A -> B) (g : A -> bool) l :
  NoDup (map f l) -> NoDup (map f (filter g l)).
Proof.
  induction l as [|a l IH]; cbn; [trivial|].
  intros H. inversion H as [|? ? Hn Hd]; subst.
  destruct (g a); [|now apply IH]. cbn. constructor; [|now apply IH].
  intros Hin. apply Hn. apply in_map_iff in Hin. destruct Hin as (x & Hx & Hin).
  apply in_map_iff. exists x. split; [exact Hx|]. apply filter_In in Hin. tauto.
Qed.

(** What [removeItem] and [updateQuantity] do when they act. *)
Lemma removeItem_cases id w :
  exec (removeItem id) w = w \/
  exists item product,
    find (fun i => (ci_id i =? id)%string) (items w) = Some item /\
    find_product (ci_productId item) (products w) = Some product /\
    exec (removeItem id) w =
    setItems (filter (fun i => negb (ci_id i =? id)%string))
      (set_products
         (map (fun p => if (p_id p =? p_id product)%string
                        then with_quantity product (p_quantity product + ci_quantity item)
                        else p)) w).
Proof.
  unfold removeItem. run_ctx.
  destruct (find _ (items w)) as [item|] eqn:Hi; [|now left].
  destruct (find_product (ci_productId item) (products w)) as [product|] eqn:Hp;
    [|now left].
  right. exists item, product. now repeat split.
Qed.

Lemma updateQuantity_cases id q w :
  exec (updateQuantity id q) w = w \/
  exists item product,
    1 <= q /\
    find (fun i => (ci_id i =? id)%string) (items w) = Some item /\
    find_product (ci_productId item) (products w) = Some product /\
    (0 < q - ci_quantity item -> q - ci_quantity item <= p_quantity product) /\
    exec (updateQuantity id q) w =
    setItems (map (fun i => if (ci_id i =? id)%string then ci_with_quantity i q else i))
      (set_products
         (map (fun p => if (p_id p =? p_id product)%string
                        then with_quantity product (p_quantity product - (q - ci_quantity item))
                        else p)) w).
Proof.
  unfold updateQuantity. destruct (q <? 1) eqn:Hq; [now left|]. run_ctx.
  destruct (find _ (items w)) as [item|] eqn:Hi; [|now left].
  destruct (find_product (ci_productId item) (products w)) as [product|] eqn:Hp;
    [|now left].
  destruct ((0 <? q - ci_quantity item) && (p_quantity product <? q - ci_quantity item))
    eqn:Hg; [now left|].
  right. exists item, product. apply Z.ltb_ge in Hq.
  repeat split; try assumption.
  intros Hd. apply andb_false_iff in Hg. destruct Hg as [Hg|Hg]; lia.
Qed.

Lemma map_ids_update {B} (f : CartItem -> B) (g : CartItem -> CartItem) l :
  (forall i, f (g i) = f i) -> map f (map g l) = map f l.
Proof.
  intros H. rewrite map_map. apply map_ext. exact H.
Qed.

(** X1. The cart keeps its shape. If the cart has one line per product,
    one line per id and no line below one unit, it still has after
    [addItem] (with an id that is not in the cart), after [removeItem],
    after [updateQuantity] and after [clearCart], whatever the arguments. *)
Theorem cart_stays_well_formed :
  forall w,
    cart_wf w ->
    (forall uuid product,
        ~ In uuid (map ci_id (items w)) ->
        cart_wf (exec (addItem uuid product) w)) /\
    (forall id, cart_wf (exec (removeItem id) w)) /\
    (forall id q, cart_wf (exec (updateQuantity id q) w)) /\
    cart_wf (exec clearCart w).
Proof.
  intros w (Hp & Hi & Hq). split; [|split; [|split]].
  - intros uuid product Hfresh.
    destruct (addItem_cases w uuid product) as [-> | (cp & _ & _ & ->)];
      [now repeat split|].
    unfold cart_wf. cbn [items setItems set_products].
    destruct (find _ (items w)) eqn:Hf.
    + rewrite !map_ids_update
        by (intros i; now destruct (ci_productId i =? p_id product)%string).
      repeat split; try assumption.
      apply Forall_map. eapply Forall_impl; [|exact Hq]. cbn. intros i Hi1.
      destruct (ci_productId i =? p_id product)%string; cbn; lia.
    + rewrite !map_app. cbn [map ci_id ci_productId].
      repeat split.
      * apply NoDup_app; repeat split; try assumption.
        -- repeat constructor. intros [].
        -- intros x Hx [<-|[]]. now apply find_none_not_In in Hf.
      * apply NoDup_app; repeat split; try assumption.
        -- repeat constructor. intros [].
        -- intros x Hx [<-|[]]. tauto.
      * apply Forall_app. split; [exact Hq|]. repeat constructor. cbn. lia.
  - intros id.
    destruct (removeItem_cases id w) as [-> | (item & product & _ & _ & ->)];
      [now repeat split|].
    unfold cart_wf. cbn [items setItems set_products].
    repeat split; try now apply NoDup_map_filter.
    apply Forall_forall. intros i Hin. apply filter_In in Hin.
    now apply (proj1 (Forall_forall _ _) Hq).
  - intros id q.
    destruct (updateQuantity_cases id q w)
      as [-> | (item & product & Hq1 & _ & _ & _ & ->)]; [now repeat split|].
    unfold cart_wf. cbn [items setItems set_products].
    rewrite !map_ids_update by (intros i; now destruct (ci_id i =? id)%string).
    repeat split; try assumption.
    apply Forall_map. eapply Forall_impl; [|exact Hq]. cbn. intros i Hi1.
    destruct (ci_id i =? id)%string; cbn; lia.
  - repeat split; constructor.
Qed.

(** ** Units are neither made nor lost by editing the cart *)

Lemma held_app pid l l' : held pid (l ++ l')%list = held pid l + held pid l'.
Proof.
  unfold held. induction l as [|i l IH]; cbn; [reflexivity|].
  rewrite IH. destruct (ci_productId i =? pid)%string; lia.
Qed.

Lemma map_off_key {A} (f : A -> string) (g : A -> A) v l :
  ~ In v (map f l) ->
  map (fun a => if (f a =? v)%string then g a else a) l = l.
Proof.
  induction l as [|a l IH]; cbn; [reflexivity|]. intros H.
  destruct (f a =? v)%string eqn:E.
  - apply String.eqb_eq in E. tauto.
  - f_equal. apply IH. tauto.
Qed.

Lemma filter_off_key {A} (f : A -> string) v (l : list A) :
  ~ In v (map f l) ->
  filter (fun a => negb (f a =? v)%string) l = l.
Proof.
  induction l as [|a l IH]; cbn; [reflexivity|]. intros H.
  destruct (f a =? v)%string eqn:E.
  - apply String.eqb_eq in E. tauto.
  - cbn. f_equal. apply IH. tauto.
Qed.

Lemma find_some_In_key {A} (f : A -> string) v l a :
  find (fun x => (f x =? v)%string) l = Some a -> In v (map f l).
Proof.
  intros H. apply find_some in H. destruct H as [Hin E].
  apply String.eqb_eq in E. subst v. now apply in_map.
Qed.

(** One more unit on the line of product [p]. *)
Lemma held_increment p pid l :
  NoDup (map ci_productId l) ->
  In p (map ci_productId l) ->
  held pid (map (fun i => if (ci_productId i =? p)%string
                          then ci_with_quantity i (ci_quantity i + 1) else i) l) =
  held pid l + (if (p =? pid)%string then 1 else 0).
Proof.
  induction l as [|x l IH]; cbn [map]; [intros _ []|].
  intros Hd Hin. inversion Hd as [|? ? Hn Hd']; subst.
  destruct (ci_productId x =? p)%string eqn:E.
  - apply String.eqb_eq in E. subst p.
    rewrite (map_off_key ci_productId _ _ _ Hn).
    unfold held. cbn. destruct (ci_productId x =? pid)%string; lia.
  - destruct Hin as [Hx|Hin]; [apply String.eqb_neq in E; congruence|].
    specialize (IH Hd' Hin). unfold held in *. cbn.
    rewrite IH. destruct (ci_productId x =? pid)%string; lia.
Qed.

(** The line of id [id] taken out, or set to [q] units. *)
Lemma held_without id pid l item :
  NoDup (map ci_id l) ->
  find (fun i => (ci_id i =? id)%string) l = Some item ->
  held pid (filter (fun i => negb (ci_id i =? id)%string) l) =
  held pid l - (if (ci_productId item =? pid)%string then ci_quantity item else 0).
Proof.
  induction l as [|x l IH]; cbn [find filter map]; [discriminate|].
  intros Hd Hf. inversion Hd as [|? ? Hn Hd']; subst.
  destruct (ci_id x =? id)%string eqn:E.
  - injection Hf as <-. apply String.eqb_eq in E. subst id. cbn [negb].
    rewrite (filter_off_key ci_id _ _ Hn).
    unfold held. cbn. destruct (ci_productId x =? pid)%string; lia.
  - cbn [negb]. specialize (IH Hd' Hf). unfold held in *. cbn.
    rewrite IH. destruct (ci_productId x =? pid)%string; lia.
Qed.

Lemma held_with_quantity id q pid l item :
  NoDup (map ci_id l) ->
  find (fun i => (ci_id i =? id)%string) l = Some item ->
  held pid (map (fun i => if (ci_id i =? id)%string then ci_with_quantity i q else i) l) =
  held pid l +
  (if (ci_productId item =? pid)%string then q - ci_quantity item else 0).
Proof.
  induction l as [|x l IH]; cbn [find map]; [discriminate|].
  intros Hd Hf. inversion Hd as [|? ? Hn Hd']; subst.
  destruct (ci_id x =? id)%string eqn:E.
  - injection Hf as <-. apply String.eqb_eq in E. subst id.
    rewrite (map_off_key ci_id _ _ _ Hn).
    unfold held. cbn. destruct (ci_productId x =? pid)%string; lia.
  - specialize (IH Hd' Hf). unfold held in *. cbn.
    rewrite IH. destruct (ci_productId x =? pid)%string; lia.
Qed.

(** The shelf after one product document is rewritten with quantity [q]. *)
Lemma on_hand_update pid product q w :
  find_product (p_id product) (products w) = Some product ->
  on_hand pid
    (set_products (map (fun p => if (p_id p =? p_id product)%string
                                 then with_quantity product q else p)) w) =
  if (p_id product =? pid)%string then q else on_hand pid w.
Proof.
  intros Hf. unfold on_hand. cbn [products set_products].
  rewrite find_replace by reflexivity.
  destruct (p_id product =? pid)%string eqn:E.
  - apply String.eqb_eq in E. subst pid. rewrite Hf.
    now rewrite String.eqb_refl.
  - destruct (find_product pid (products w)) as [p|] eqn:Hp; [|reflexivity].
    apply find_product_id in Hp. subst pid.
    rewrite String.eqb_sym in E. now rewrite E.
Qed.

Lemma on_hand_setItems pid f w : on_hand pid (setItems f w) = on_hand pid w.
Proof. reflexivity. Qed.

Lemma find_product_self pid ps p :
  find_product pid ps = Some p -> find_product (p_id p) ps = Some p.
Proof. intros H. now rewrite (find_product_id _ _ _ H). Qed.

(** X2. Editing a well-formed cart moves units between shelf and cart and
    never makes or loses any: for every product, the quantity found on
    the shelf plus the quantity held in the cart is the same after
    [addItem], [removeItem] and [updateQuantity] as before. *)
Theorem cart_editing_conserves_units :
  forall w pid,
    cart_wf w ->
    (forall uuid product,
        on_hand pid (exec (addItem uuid product) w) +
        reserved pid (exec (addItem uuid product) w) =
        on_hand pid w + reserved pid w) /\
    (forall id,
        on_hand pid (exec (removeItem id) w) + reserved pid (exec (removeItem id) w) =
        on_hand pid w + reserved pid w) /\
    (forall id q,
        on_hand pid (exec (updateQuantity id q) w) +
        reserved pid (exec (updateQuantity id q) w) =
        on_hand pid w + reserved pid w).
Proof.
  intros w pid (Hp & Hi & _). split; [|split].
  - intros uuid product.
    destruct (addItem_cases w uuid product) as [-> | (cp & Hf & _ & ->)];
      [reflexivity|].
    pose proof (find_product_id _ _ _ Hf) as Hid.
    rewrite on_hand_setItems, on_hand_update by (now rewrite Hid).
    unfold reserved. cbn [items setItems set_products]. rewrite Hid.
    assert (Hs : on_hand (p_id product) w = p_quantity cp)
      by (unfold on_hand; now rewrite Hf).
    destruct (find _ (items w)) eqn:Hl.
    + rewrite held_increment; [|exact Hp|now apply find_some_In_key in Hl].
      destruct (p_id product =? pid)%string eqn:E; [|lia].
      apply String.eqb_eq in E. subst pid. lia.
    + rewrite held_app. unfold held at 2. cbn.
      destruct (p_id product =? pid)%string eqn:E; [|lia].
      apply String.eqb_eq in E. subst pid. lia.
  - intros id.
    destruct (removeItem_cases id w) as [-> | (item & product & Hf & Hpr & ->)];
      [reflexivity|].
    pose proof (find_product_id _ _ _ Hpr) as Hid.
    rewrite on_hand_setItems, on_hand_update by (now apply find_product_self in Hpr).
    unfold reserved. cbn [items setItems set_products].
    rewrite (held_without id pid _ item Hi Hf). rewrite Hid.
    assert (Hs : on_hand (ci_productId item) w = p_quantity product)
      by (unfold on_hand; now rewrite Hpr).
    destruct (ci_productId item =? pid)%string eqn:E; [|lia].
    apply String.eqb_eq in E. subst pid. lia.
  - intros id q.
    destruct (updateQuantity_cases id q w)
      as [-> | (item & product & _ & Hf & Hpr & _ & ->)]; [reflexivity|].
    pose proof (find_product_id _ _ _ Hpr) as Hid.
    rewrite on_hand_setItems, on_hand_update by (now apply find_product_self in Hpr).
    unfold reserved. cbn [items setItems set_products].
    rewrite (held_with_quantity id q pid _ item Hi Hf). rewrite Hid.
    assert (Hs : on_hand (ci_productId item) w = p_quantity product)
      by (unfold on_hand; now rewrite Hpr).
    destruct (ci_productId item =? pid)%string eqn:E; [|lia].
    apply String.eqb_eq in E. subst pid. lia.
Qed.

(** ** The plus and minus buttons of a cart line *)

Lemma In_find_by_id l item :
  NoDup (map ci_id l) -> In item l ->
  find (fun i => (ci_id i =? ci_id item)%string) l = Some item.
Proof.
  induction l as [|x l IH]; cbn [find map]; [intros _ []|].
  intros Hd Hin. inversion Hd as [|? ? Hn Hd']; subst.
  destruct Hin as [->|Hin]; [now rewrite String.eqb_refl|].
  destruct (ci_id x =? ci_id item)%string eqn:E; [|now apply IH].
  apply String.eqb_eq in E. exfalso. apply Hn. rewrite E. now apply in_map.
Qed.

Lemma find_after_update id q l item :
  find (fun i => (ci_id i =? id)%string) l = Some item ->
  find (fun i => (ci_id i =? id)%string)
       (map (fun i => if (ci_id i =? id)%string then ci_with_quantity i q else i) l) =
  Some (ci_with_quantity item q).
Proof.
  induction l as [|x l IH]; cbn [find map]; [discriminate|].
  destruct (ci_id x =? id)%string eqn:E.
  - intros [= <-]. cbn [ci_id ci_with_quantity]. now rewrite E.
  - rewrite E. exact IH.
Qed.

Lemma update_back id q l item :
  NoDup (map ci_id l) ->
  find (fun i => (ci_id i =? id)%string) l = Some item ->
  map (fun i => if (ci_id i =? id)%string then ci_with_quantity i (ci_quantity item) else i)
      (map (fun i => if (ci_id i =? id)%string then ci_with_quantity i q else i) l) = l.
Proof.
  induction l as [|x l IH]; cbn [find map]; [reflexivity|].
  intros Hd Hf. inversion Hd as [|? ? Hn Hd']; subst.
  destruct (ci_id x =? id)%string eqn:E.
  - injection Hf as <-. cbn [ci_id ci_with_quantity]. rewrite E.
    apply String.eqb_eq in E. subst id. f_equal; [now destruct x|].
    rewrite !(map_off_key ci_id _ _ _ Hn). reflexivity.
  - rewrite E. f_equal. now apply IH.
Qed.

(** Writing a product back after a change leaves every lookup as it was. *)
Lemma lookup_written_back product q ps pid :
  find_product (p_id product) ps = Some product ->
  find_product pid
    (map (fun p => if (p_id p =? p_id product)%string then product else p)
       (map (fun p => if (p_id p =? p_id product)%string
                      then with_quantity product q else p) ps)) =
  find_product pid ps.
Proof.
  intros Hf. rewrite !find_replace by reflexivity.
  destruct (find_product pid ps) as [p|] eqn:Hp; [|reflexivity].
  destruct (p_id p =? p_id product)%string eqn:E.
  - cbn [p_id with_quantity]. rewrite String.eqb_refl. f_equal.
    apply String.eqb_eq in E. pose proof (find_product_id _ _ _ Hp) as Hpid.
    assert (pid = p_id product) by congruence. subst pid. congruence.
  - now rewrite E.
Qed.

(** X3. On a well-formed cart, the plus button of a line whose product
    has a unit on the shelf takes that unit into the line, and the minus
    button pressed next gives it back: the cart lines and every product
    lookup are as before the two presses. *)
Theorem plus_then_minus_restores :
  forall w item product,
    cart_wf w ->
    In item (items w) ->
    find_product (ci_productId item) (products w) = Some product ->
    1 <= p_quantity product ->
    let w1 := exec (incrementLine item) w in
    let item' := ci_with_quantity item (ci_quantity item + 1) in
    let w2 := exec (decrementLine item') w1 in
    In item' (items w1) /\
    on_hand (ci_productId item) w1 = p_quantity product - 1 /\
    items w2 = items w /\
    (forall pid, find_product pid (products w2) = find_product pid (products w)).
Proof.
  intros w item product (_ & Hi & Hq) Hin Hp Hstock w1 item' w2.
  pose proof (In_find_by_id _ _ Hi Hin) as Hf.
  pose proof (proj1 (Forall_forall _ _) Hq item Hin) as Hq1. cbn in Hq1.
  pose proof (find_product_id _ _ _ Hp) as Hid.
  assert (E1 : w1 =
    setItems (map (fun i => if (ci_id i =? ci_id item)%string
                            then ci_with_quantity i (ci_quantity item + 1) else i))
      (set_products
         (map (fun p => if (p_id p =? p_id product)%string
                        then with_quantity product (p_quantity product - 1) else p)) w)).
  { subst w1. unfold incrementLine, updateQuantity.
    destruct (ci_quantity item + 1 <? 1) eqn:E0; [lia|]. run_ctx.
    rewrite Hf, Hp.
    destruct (0 <? ci_quantity item + 1 - ci_quantity item) eqn:Ea; [|lia].
    destruct (p_quantity product <? ci_quantity item + 1 - ci_quantity item) eqn:Eb; [lia|].
    cbn. replace (ci_quantity item + 1 - ci_quantity item) with 1 by lia. reflexivity. }
  assert (Hf1 : find (fun i => (ci_id i =? ci_id item)%string) (items w1) = Some item')
    by (rewrite E1; cbn [items setItems set_products]; now apply find_after_update).
  assert (Hp1 : find_product (ci_productId item) (products w1) =
                Some (with_quantity product (p_quantity product - 1))).
  { rewrite E1. cbn [products setItems set_products].
    rewrite find_replace by reflexivity. rewrite Hp. now rewrite String.eqb_refl. }
  assert (E2 : w2 =
    setItems (map (fun i => if (ci_id i =? ci_id item)%string
                            then ci_with_quantity i (ci_quantity item) else i))
      (set_products
         (map (fun p => if (p_id p =? p_id product)%string then product else p)) w1)).
  { subst w2. clearbody w1. unfold decrementLine, updateQuantity.
    subst item'. cbn [ci_id ci_quantity ci_with_quantity].
    replace (ci_quantity item + 1 - 1) with (ci_quantity item) by lia.
    destruct (ci_quantity item <? 1) eqn:E0; [lia|]. run_ctx.
    rewrite Hf1. cbn [ci_productId ci_quantity ci_with_quantity]. rewrite Hp1.
    destruct (0 <? ci_quantity item - (ci_quantity item + 1)) eqn:Ea; [lia|].
    cbn.
    replace (p_quantity product - 1 - (ci_quantity item - (ci_quantity item + 1)))
      with (p_quantity product) by lia.
    now destruct product. }
  repeat split.
  - apply find_some in Hf1. tauto.
  - unfold on_hand. now rewrite Hp1.
  - rewrite E2, E1. cbn [items setItems set_products]. now apply update_back.
  - intros pid. rewrite E2, E1. cbn [products setItems set_products].
    apply lookup_written_back. now rewrite Hid.
Qed.

(** * Further properties of the checkout *)

(** What the checkout handler does for a logged-in user. *)
Lemma handleConfirmCheckout_cases docId today pm w cu :
  currentUser w = Some cu ->
  let saleData :=
    mkSaleData (items w) (subtotal w) (cgst w) (sgst w) (total w)
               pm (uid cu) (user_locationId cu) in
  outcome (handleConfirmCheckout docId today pm) w = Ok tt /\
  ((outcome (addSale docId today saleData) w = Thrown NoLocationAvailable /\
    exec (handleConfirmCheckout docId today pm) w =
      set_counter (Some (currentCount w + 1)%N) w) \/
   (exists s,
       outcome (addSale docId today saleData) w = Ok s /\
       exec (handleConfirmCheckout docId today pm) w =
         setItems (fun _ => []) (exec (addSale docId today saleData) w))).
Proof.
  intros Hu saleData. unfold handleConfirmCheckout, clearCart. run_ctx.
  rewrite Hu. fold saleData.
  destruct (addSale docId today saleData w) as [[s|e] w'] eqn:E.
  - split; [reflexivity|]. right. exists s. now cbn.
  - split; [reflexivity|]. left.
    assert (Ho : outcome (addSale docId today saleData) w = Thrown e)
      by (unfold outcome; now rewrite E).
    destruct (addSale_thrown _ _ _ _ _ Ho) as [-> Hx].
    unfold exec in Hx. rewrite E in Hx. cbn in *. now subst w'.
Qed.

(** [addSale] goes through as soon as the sale has a location or the user
    is superadmin. *)
Lemma addSale_accepts docId today sd w :
  truthy (saleLocation w sd) = true \/ has_role (currentUser w) superadmin = true ->
  exists s, outcome (addSale docId today sd) w = Ok s.
Proof.
  intros H. unfold outcome. rewrite addSale_eq. cbv zeta. fold (saleLocation w sd).
  destruct (negb (truthy (saleLocation w sd)) && negb (has_role (currentUser w) superadmin))
    eqn:E.
  - apply andb_true_iff in E. destruct E as [E1 E2].
    apply negb_true_iff in E1, E2. destruct H; congruence.
  - eexists. reflexivity.
Qed.

(** The sale [addSale] makes from the data of the checkout handler. *)
Lemma checkout_sale_fields docId today pm w cu s :
  outcome (addSale docId today
             (mkSaleData (items w) (subtotal w) (cgst w) (sgst w) (total w)
                         pm (uid cu) (user_locationId cu))) w = Ok s ->
  invoiceNumber s = formatInvoiceNumber today (currentCount w + 1) /\
  sale_items s = items w /\
  sale_subtotal s = subtotal w /\ sale_cgst s = cgst w /\
  sale_sgst s = sgst w /\ sale_total s = total w /\
  sale_consistent s /\
  paymentMethod s = pm /\ sale_createdBy s = uid cu.
Proof.
  unfold outcome. rewrite addSale_eq. cbv zeta.
  destruct (negb _ && negb _); [discriminate|].
  cbn. intros [= <-]. cbn. unfold sale_consistent. cbn. repeat split.
Qed.

(** X4. A checkout that is accepted (the user has a location, or a
    location with a non-empty id is selected, or the user is superadmin)
    persists one sale that carries the cart, and empties the cart: the
    items of the sale are the cart lines; its subtotal, CGST, SGST and
    total are the figures of the cart, that is, the sum line after line
    of price x quantity, the subtotal times half the GST rate (twice), and
    subtotal plus CGST plus SGST, each as the source evaluates it; it has
    the payment method, the user and the next invoice number. A store
    whose sales all agree with their lines in this way keeps that through
    any checkout. *)
Theorem checkout_sale_agrees_with_cart :
  forall w docId today pm,
    (forall cu,
        currentUser w = Some cu ->
        truthy (user_locationId cu) = true \/ location_selected w = true \/
        role cu = superadmin ->
        exists s,
          salesDb (exec (handleConfirmCheckout docId today pm) w) = s :: salesDb w /\
          invoiceNumber s = formatInvoiceNumber today (currentCount w + 1) /\
          sale_items s = items w /\
          sale_subtotal s = subtotal w /\ sale_cgst s = cgst w /\
          sale_sgst s = sgst w /\ sale_total s = total w /\
          sale_consistent s /\
          paymentMethod s = pm /\ sale_createdBy s = uid cu /\
          items (exec (handleConfirmCheckout docId today pm) w) = []) /\
    (Forall sale_consistent (salesDb w) ->
     Forall sale_consistent (salesDb (exec (handleConfirmCheckout docId today pm) w))).
Proof.
  intros w docId today pm. split.
  - intros cu Hu Hacc.
    assert (Hgo : exists s,
               outcome (addSale docId today
                          (mkSaleData (items w) (subtotal w) (cgst w) (sgst w) (total w)
                                      pm (uid cu) (user_locationId cu))) w = Ok s).
    { apply addSale_accepts. unfold saleLocation. cbn [sd_locationId].
      destruct (truthy (user_locationId cu)) eqn:Ht; [now left|].
      destruct Hacc as [H | [H | H]]; [discriminate| |].
      - unfold location_selected in H.
        destruct (currentLocation w) as [loc|]; [now left | discriminate].
      - right. rewrite Hu. cbn. now rewrite H. }
    destruct (handleConfirmCheckout_cases docId today pm w cu Hu)
      as (_ & [(Ho & _) | (s & Ho & E)]).
    + exfalso. destruct Hgo as [s Hs]. congruence.
    + exists s. pose proof (addSale_ok _ _ _ _ _ Ho) as (_ & _ & _ & _ & Hd & _).
      pose proof (checkout_sale_fields _ _ _ _ _ _ Ho)
        as (Hi & Hit & Hsub & Hc & Hsg & Htot & Hcons & Hpm & Hby).
      rewrite E. cbn [salesDb items setItems].
      split; [exact Hd|]. split; [exact Hi|]. split; [exact Hit|].
      split; [exact Hsub|]. split; [exact Hc|]. split; [exact Hsg|].
      split; [exact Htot|]. split; [exact Hcons|]. split; [exact Hpm|].
      split; [exact Hby | reflexivity].
  - intros Hall. destruct (currentUser w) as [cu|] eqn:Hu.
    + destruct (handleConfirmCheckout_cases docId today pm w cu Hu)
        as (_ & [(_ & E) | (s' & Ho & E)]).
      * now rewrite E.
      * pose proof (addSale_ok _ _ _ _ _ Ho) as (_ & _ & _ & _ & Hd & _).
        assert (Hd' : salesDb (exec (handleConfirmCheckout docId today pm) w) =
                      s' :: salesDb w) by (rewrite E; exact Hd).
        rewrite Hd'. constructor; [|exact Hall].
        now apply (checkout_sale_fields _ _ _ _ _ _ Ho).
    + unfold handleConfirmCheckout. run_ctx. now rewrite Hu.
Qed.

(** X5. The checkout handler never throws. With nobody logged in it does
    nothing at all. For a logged-in user it is rejected exactly when the
    user is not superadmin, has no location of his own and no location
    with a non-empty id is selected; then the cart lines, the products and
    the sales stay as they were, and only the invoice counter has moved.
    Otherwise one sale is persisted and the cart is emptied. *)
Theorem checkout_rejected_keeps_cart :
  forall w docId today pm,
    outcome (handleConfirmCheckout docId today pm) w = Ok tt /\
    (currentUser w = None -> exec (handleConfirmCheckout docId today pm) w = w) /\
    (forall cu, currentUser w = Some cu ->
       if negb (truthy (user_locationId cu)) && negb (location_selected w)
          && negb (role_eqb (role cu) superadmin)
       then exec (handleConfirmCheckout docId today pm) w =
              set_counter (Some (currentCount w + 1)%N) w
       else items (exec (handleConfirmCheckout docId today pm) w) = [] /\
            exists s, salesDb (exec (handleConfirmCheckout docId today pm) w) =
                        s :: salesDb w).
Proof.
  intros w docId today pm. split; [|split].
  - destruct (currentUser w) as [cu|] eqn:Hu.
    + now destruct (handleConfirmCheckout_cases docId today pm w cu Hu).
    + unfold handleConfirmCheckout. run_ctx. now rewrite Hu.
  - intros Hu. unfold handleConfirmCheckout. run_ctx. now rewrite Hu.
  - intros cu Hu.
    destruct (handleConfirmCheckout_cases docId today pm w cu Hu)
      as (_ & [(Ho & E) | (s & Ho & E)]).
    + assert (Hc : negb (truthy (user_locationId cu)) && negb (location_selected w)
                   && negb (role_eqb (role cu) superadmin) = true).
      { revert Ho. unfold outcome. rewrite addSale_eq. cbv zeta.
        unfold saleLocation, location_selected, has_role. cbn [sd_locationId].
        rewrite Hu. cbn [locationId_of].
        destruct (truthy (user_locationId cu)) eqn:Ht.
        - rewrite Ht. cbn. destruct (role_eqb (role cu) superadmin); discriminate.
        - destruct (currentLocation w) as [loc|].
          + destruct (truthy (Some (loc_id loc))); cbn;
              [discriminate|destruct (role_eqb (role cu) superadmin); [discriminate|reflexivity]].
          + rewrite Ht. cbn.
            destruct (role_eqb (role cu) superadmin); [discriminate|reflexivity]. }
      rewrite Hc. exact E.
    + assert (Hc : negb (truthy (user_locationId cu)) && negb (location_selected w)
                   && negb (role_eqb (role cu) superadmin) = false).
      { revert Ho. unfold outcome. rewrite addSale_eq. cbv zeta.
        unfold saleLocation, location_selected, has_role. cbn [sd_locationId].
        rewrite Hu. cbn [locationId_of].
        destruct (truthy (user_locationId cu)) eqn:Ht; [reflexivity|].
        destruct (currentLocation w) as [loc|].
        - destruct (truthy (Some (loc_id loc))); cbn; [reflexivity|].
          destruct (role_eqb (role cu) superadmin); [reflexivity|discriminate].
        - rewrite Ht. cbn.
          destruct (role_eqb (role cu) superadmin); [reflexivity|discriminate]. }
      rewrite Hc. rewrite E. split; [reflexivity|]. exists s.
      cbn [salesDb setItems]. now apply addSale_ok in Ho.
Qed.

(** * Further properties of the sales *)


(** X7. Nobody but a superadmin writes a record without a location: a
    sale, a return or a category persisted by a successful [addSale],
    [addReturn] or [addCategory] of any other session carries a non-empty
    [locationId]. *)
Theorem writes_are_located :
  forall w,
    has_role (currentUser w) superadmin = false ->
    (forall docId today sd s,
        outcome (addSale docId today sd) w = Ok s ->
        truthy (sale_locationId s) = true) /\
    (forall docId data,
        outcome (addReturn docId data) w = Ok tt ->
        exists r, returnsDb (exec (addReturn docId data) w) = r :: returnsDb w /\
                  truthy (ret_locationId r) = true) /\
    (forall docId name description,
        outcome (addCategory docId name description) w = Ok tt ->
        exists c, categoriesDb (exec (addCategory docId name description) w) =
                    c :: categoriesDb w /\
                  truthy (cat_locationId c) = true).
Proof.
  intros w Hrole. split; [|split].
  - intros docId today sd s Ho.
    pose proof (addSale_ok _ _ _ _ _ Ho) as (_ & Hl & _).
    rewrite Hl. revert Ho. unfold outcome. rewrite addSale_eq. cbv zeta.
    rewrite Hrole, andb_true_r.
    destruct (truthy (saleLocation w sd)); [reflexivity | discriminate].
  - intros docId data Ho.
    exists (returnRecord docId data w).
    split; [now apply addReturn_effect in Ho|].
    revert Ho. unfold outcome. rewrite addReturn_eq.
    destruct (find _ (rf_items data)); [discriminate|].
    rewrite Hrole, andb_true_r. cbn [returnRecord ret_locationId].
    destruct (truthy (writeLocation w)); [reflexivity | discriminate].
  - intros docId name description. unfold addCategory, refreshCategories. run_ctx.
    rewrite Hrole, andb_true_r.
    destruct (truthy (writeLocation w)) eqn:Ht; [|discriminate].
    intros _. cbn. eexists. split; [reflexivity|]. exact Ht.
Qed.

(** * Further properties of the returns *)

(** X8. The derived queries of the returns agree with one another: an
    item is reported returned for an order exactly when it is among the
    returned items of that order; an order is reported returned exactly
    when it has a return; an order with a returned item is a returned
    order; and an order that is not returned has no returned item and a
    returned amount of 0. *)
Theorem return_queries_agree :
  forall rs orderId,
    (forall itemId,
        isItemReturned rs orderId itemId = true <->
        exists item, In item (getReturnedItems rs orderId) /\ ri_id item = itemId) /\
    (isOrderReturned rs orderId = true <-> getOrderReturns rs orderId <> []) /\
    (forall itemId, isItemReturned rs orderId itemId = true ->
                    isOrderReturned rs orderId = true) /\
    (isOrderReturned rs orderId = false ->
     getReturnedItems rs orderId = [] /\ getTotalReturnAmount rs orderId = 0%Q).
Proof.
  intros rs orderId.
  assert (H1 : forall itemId,
             isItemReturned rs orderId itemId = true <->
             exists item, In item (getReturnedItems rs orderId) /\ ri_id item = itemId).
  { intros itemId. rewrite isItemReturned_spec.
    unfold returned_in, getReturnedItems, getOrderReturns. split.
    - intros (r & Hr & Href & i & Hi & Hid). exists i. split; [|exact Hid].
      apply in_flat_map. exists r. split; [|exact Hi].
      apply filter_In. split; [exact Hr | now apply String.eqb_eq].
    - intros (i & Hin & Hid). apply in_flat_map in Hin.
      destruct Hin as (r & Hr & Hi). apply filter_In in Hr. destruct Hr as [Hr E].
      apply String.eqb_eq in E. exists r. repeat split; auto. now exists i. }
  assert (H2 : isOrderReturned rs orderId = true <-> getOrderReturns rs orderId <> []).
  { clear H1. unfold isOrderReturned, getOrderReturns.
    induction rs as [|r rs IH]; cbn; [split; [discriminate | congruence]|].
    destruct (referenceId r =? orderId)%string; cbn; [split; [discriminate | reflexivity]|].
    exact IH. }
  assert (H4 : isOrderReturned rs orderId = false -> getOrderReturns rs orderId = []).
  { intros Hf. destruct (getOrderReturns rs orderId) eqn:E; [reflexivity|].
    assert (isOrderReturned rs orderId = true) by (apply (proj2 H2); congruence).
    congruence. }
  repeat split; try apply H1; try apply H2.
  - intros itemId Hi. apply H2. apply H1 in Hi. destruct Hi as (i & Hin & _).
    unfold getReturnedItems in Hin. intros E. now rewrite E in Hin.
  - unfold getReturnedItems. now rewrite (H4 H).
  - unfold getTotalReturnAmount. now rewrite (H4 H).
Qed.

(** What the session reads after a successful [addReturn]. *)
Lemma addReturn_reads_back docId data w :
  outcome (addReturn docId data) w = Ok tt ->
  returns (exec (addReturn docId data) w) =
    returnRecord docId data w ::
    scopedQuery ret_locationId (currentLocation w) (currentUser w) (returnsDb w) /\
  currentUser (exec (addReturn docId data) w) = currentUser w /\
  currentLocation (exec (addReturn docId data) w) = currentLocation w.
Proof.
  intros Hok. apply addReturn_ok in Hok. destruct Hok as (_ & ps & ->).
  unfold refreshSales, refreshReturns. run_ctx. cbn.
  now rewrite scopedQuery_own_write by reflexivity.
Qed.

(** X9. A return cannot be submitted twice. After a successful
    [addReturn] every submitted item is reported returned for the order
    and the order is reported returned; submitting the same return again
    fails with the already-returned error that names its first item, and
    changes nothing. *)
Theorem return_is_not_accepted_twice :
  forall w docId docId' data,
    outcome (addReturn docId data) w = Ok tt ->
    let w' := exec (addReturn docId data) w in
    (forall item, In item (rf_items data) ->
                  isItemReturned (returns w') (rf_referenceId data) (ri_id item) = true) /\
    isOrderReturned (returns w') (rf_referenceId data) = true /\
    (forall item rest,
        rf_items data = item :: rest ->
        outcome (addReturn docId' data) w' = Thrown (ItemAlreadyReturned (ri_name item)) /\
        exec (addReturn docId' data) w' = w').
Proof.
  intros w docId docId' data Hok w'.
  pose proof (addReturn_reads_back _ _ _ Hok) as (Hr & _ & _). fold w' in Hr.
  assert (H1 : forall item, In item (rf_items data) ->
                 isItemReturned (returns w') (rf_referenceId data) (ri_id item) = true).
  { intros item Hin. rewrite Hr. unfold isItemReturned. cbn [existsb returnRecord referenceId ret_items].
    rewrite String.eqb_refl. cbn [andb].
    apply orb_true_iff. left. apply existsb_exists. exists item.
    split; [exact Hin | apply String.eqb_refl]. }
  split; [exact H1|]. split.
  - rewrite Hr. unfold isOrderReturned. cbn [existsb returnRecord referenceId].
    now rewrite String.eqb_refl.
  - intros item rest Hitems. unfold outcome, exec. rewrite addReturn_eq.
    rewrite Hitems. cbn [find]. rewrite H1 by (rewrite Hitems; now left).
    now split.
Qed.

(** Where the restocking loop stops. *)
Lemma restock_stops snapshot t l :
  forall w name,
    fst (forEach (restock snapshot t) l w) = Thrown (ProductNotFound name) ->
    exists pre bad post,
      l = (pre ++ bad :: post)%list /\
      name = ri_name bad /\
      find_product (ri_productId bad) snapshot = None /\
      (forall i, In i pre -> find_product (ri_productId i) snapshot <> None) /\
      fst (forEach (restock snapshot t) pre w) = Ok tt /\
      snd (forEach (restock snapshot t) l w) = snd (forEach (restock snapshot t) pre w).
Proof.
  induction l as [|x l IH]; intros w name H; [discriminate|].
  cbn [forEach] in H. unfold bind in H.
  destruct (find_product (ri_productId x) snapshot) as [p|] eqn:Hp.
  - assert (Hx : exists w1, restock snapshot t x w = (Ok tt, w1))
      by (unfold restock; rewrite Hp; eexists; reflexivity).
    destruct Hx as [w1 Hx]. rewrite Hx in H.
    destruct (IH w1 name H) as (pre & bad & post & -> & Hn & Hb & Hpre & Hok & Hs).
    exists (x :: pre), bad, post.
    split; [reflexivity|]. split; [exact Hn|]. split; [exact Hb|]. split; [|split].
    + intros i [<-|Hi]; [congruence | now apply Hpre].
    + cbn [forEach]. unfold bind. now rewrite Hx.
    + cbn [forEach app]. unfold bind. now rewrite Hx.
  - assert (Hx : restock snapshot t x w = (Thrown (ProductNotFound (ri_name x)), w))
      by (unfold restock; rewrite Hp; reflexivity).
    rewrite Hx in H. cbn in H. injection H as <-.
    exists [], x, l.
    split; [reflexivity|]. split; [reflexivity|]. split; [exact Hp|]. split; [|split].
    + intros i [].
    + reflexivity.
    + cbn [forEach app]. unfold bind. now rewrite Hx.
Qed.

(** X10. [addReturn] is not all-or-nothing. When it stops on an item
    whose product is not among the products, the error names that item, no
    return is persisted and the returns read stay as they were, but the
    items before it have been restocked: a product they name holds its
    former quantity changed by the last of them, and this is not undone. *)
Theorem addReturn_stops_half_way :
  forall w docId data name,
    outcome (addReturn docId data) w = Thrown (ProductNotFound name) ->
    let w' := exec (addReturn docId data) w in
    returnsDb w' = returnsDb w /\
    returns w' = returns w /\
    exists pre bad post,
      rf_items data = (pre ++ bad :: post)%list /\
      name = ri_name bad /\
      find_product (ri_productId bad) (products w) = None /\
      (forall i, In i pre -> find_product (ri_productId i) (products w) <> None) /\
      forall pid,
        find_product pid (products w') =
        match find (fun i => (ri_productId i =? pid)%string) (rev pre) with
        | Some item =>
            option_map
              (fun p => with_quantity p
                          (p_quantity p +
                           match rf_type data with
                           | sale_return => ri_quantity item
                           | purchase_return => - ri_quantity item
                           end))
              (find_product pid (products w))
        | None => find_product pid (products w)
        end.
Proof.
  intros w docId data name. unfold outcome, exec. rewrite addReturn_eq.
  destruct (find _ (rf_items data)); [discriminate|].
  destruct (negb (truthy (writeLocation w)) && negb (has_role (currentUser w) superadmin));
    [discriminate|].
  destruct (restock_loop (products w) (rf_type data) (rf_items data) w) as (ps & Hs & _).
  destruct (forEach (restock (products w) (rf_type data)) (rf_items data) w)
    as [[[]|e] w1] eqn:E; [discriminate|].
  cbn [fst snd] in *. intros [= ->]. rewrite Hs. cbn [returnsDb returns set_products].
  split; [reflexivity|]. split; [reflexivity|].
  destruct (restock_stops (products w) (rf_type data) (rf_items data) w name)
    as (pre & bad & post & Hl & Hn & Hb & Hpre & Hok & Hsnd);
    [now rewrite E|].
  exists pre, bad, post. repeat split; auto.
  intros pid. rewrite E in Hsnd. cbn [snd] in Hsnd.
  rewrite <- Hs, Hsnd.
  exact (restock_lookup (products w) (rf_type data) pre w eq_refl Hok pid).
Qed.

(** Sums of amounts, up to equality of rationals. *)
Lemma not_returned_no_returns rs orderId :
  isOrderReturned rs orderId = false -> getOrderReturns rs orderId = [].
Proof.
  unfold isOrderReturned, getOrderReturns.
  induction rs as [|r rs IH]; [reflexivity|]. cbn.
  destruct (referenceId r =? orderId)%string; [discriminate | exact IH].
Qed.

(** X11. A successful [addReturn] puts its record, with the total it
    recorded, in front of the returns of its order and leaves the returns
    and the returned amount of every other order as they were (the
    [returns] state being what the session last read). The returned
    amount of its order is then the sum that starts from the recorded
    total and adds the totals of the earlier returns in their order; for
    an order that had no return it is the recorded total. *)
Theorem addReturn_extends_order_returns :
  forall w docId data,
    outcome (addReturn docId data) w = Ok tt ->
    returns_in_sync w ->
    let w' := exec (addReturn docId data) w in
    getOrderReturns (returns w') (rf_referenceId data) =
      returnRecord docId data w :: getOrderReturns (returns w) (rf_referenceId data) /\
    ret_total (returnRecord docId data w) = returnTotal data /\
    getTotalReturnAmount (returns w') (rf_referenceId data) =
      fold_left (fun total r => (total + ret_total r)%Q)
                (getOrderReturns (returns w) (rf_referenceId data))
                (0 + returnTotal data)%Q /\
    (isOrderReturned (returns w) (rf_referenceId data) = false ->
     (getTotalReturnAmount (returns w') (rf_referenceId data) == returnTotal data)%Q) /\
    (forall orderId,
        orderId <> rf_referenceId data ->
        getOrderReturns (returns w') orderId = getOrderReturns (returns w) orderId /\
        getTotalReturnAmount (returns w') orderId =
        getTotalReturnAmount (returns w) orderId).
Proof.
  intros w docId data Hok Hsync w'.
  pose proof (addReturn_reads_back _ _ _ Hok) as (Hr & _ & _). fold w' in Hr.
  rewrite <- Hsync in Hr.
  assert (Hown : getOrderReturns (returns w') (rf_referenceId data) =
                 returnRecord docId data w ::
                 getOrderReturns (returns w) (rf_referenceId data)).
  { rewrite Hr. unfold getOrderReturns. cbn [filter returnRecord referenceId].
    now rewrite String.eqb_refl. }
  assert (Hsum : getTotalReturnAmount (returns w') (rf_referenceId data) =
                 fold_left (fun total r => (total + ret_total r)%Q)
                           (getOrderReturns (returns w) (rf_referenceId data))
                           (0 + returnTotal data)%Q).
  { unfold getTotalReturnAmount. rewrite Hown. reflexivity. }
  split; [exact Hown|]. split; [reflexivity|]. split; [exact Hsum|]. split.
  - intros Hno. rewrite Hsum.
    rewrite (not_returned_no_returns _ _ Hno). cbn [fold_left]. ring.
  - intros orderId Hne.
    assert (E : getOrderReturns (returns w') orderId = getOrderReturns (returns w) orderId).
    { rewrite Hr. unfold getOrderReturns. cbn [filter returnRecord referenceId].
      replace (rf_referenceId data =? orderId)%string with false; [reflexivity|].
      symmetry. apply String.eqb_neq. congruence. }
    split; [exact E|]. unfold getTotalReturnAmount. now rewrite E.
Qed.

(** X12. [addCategory] succeeds exactly when a location can be found for
    the write or the user is superadmin. The category it persists is
    filed under that location, an empty description is stored as no
    description, and the category is among those read back: the session
    reads the category it has just added together with the categories of
    its scope, and nothing else. (The source reads the categories in the
    order of their names; the statement is about which categories are
    read, not about their order.) *)
Theorem addCategory_reads_back :
  forall w docId name description,
    (outcome (addCategory docId name description) w = Ok tt <->
     truthy (writeLocation w) = true \/ has_role (currentUser w) superadmin = true) /\
    (outcome (addCategory docId name description) w = Ok tt ->
     let c := mkCategory docId name
                (if truthy description then description else None) (writeLocation w) in
     categoriesDb (exec (addCategory docId name description) w) = c :: categoriesDb w /\
     In c (categories (exec (addCategory docId name description) w)) /\
     Permutation
       (categories (exec (addCategory docId name description) w))
       (c :: scopedQuery cat_locationId (currentLocation w) (currentUser w)
                         (categoriesDb w)) /\
     cat_description c <> Some "").
Proof.
  intros w docId name description.
  unfold addCategory, refreshCategories. run_ctx.
  destruct (truthy (writeLocation w)) eqn:Ht;
    destruct (has_role (currentUser w) superadmin) eqn:Hr; cbn;
    (split; [split; [intros H; try discriminate; tauto
                    | intros [H|H]; try discriminate; reflexivity]|]);
    intros H; try discriminate;
    (split; [reflexivity|]);
    (split; [rewrite scopedQuery_own_write by reflexivity; now left|]);
    (split; [now rewrite scopedQuery_own_write by reflexivity|]);
    destruct description as [d|]; cbn; try discriminate;
    destruct (d =? "")%string eqn:E; cbn; try discriminate;
    intros [= ->]; discriminate.
Qed.

(** X13. [deleteCategory] asks for no role and no location: it never
    throws, removes from the store every category of the given id and no
    other, and reads the categories again. Deleting a category right
    after adding it, under an id no stored category has, gives back the
    store, and the categories read if they were in sync. *)
Theorem deleteCategory_removes_by_id :
  forall w id,
    outcome (deleteCategory id) w = Ok tt /\
    (forall c, In c (categoriesDb (exec (deleteCategory id) w)) <->
               In c (categoriesDb w) /\ cat_id c <> id) /\
    categories_in_sync (exec (deleteCategory id) w) /\
    (forall name description,
        outcome (addCategory id name description) w = Ok tt ->
        ~ In id (map cat_id (categoriesDb w)) ->
        categoriesDb (exec (deleteCategory id) (exec (addCategory id name description) w)) =
          categoriesDb w /\
        (categories_in_sync w ->
         categories (exec (deleteCategory id) (exec (addCategory id name description) w)) =
           categories w)).
Proof.
  intros w id. split; [reflexivity|]. split; [|split].
  - intros c. unfold deleteCategory, refreshCategories. run_ctx. cbn.
    rewrite filter_In. split; intros [Hin H]; split; auto.
    + intros E. subst id. now rewrite String.eqb_refl in H.
    + apply negb_true_iff. now apply String.eqb_neq.
  - reflexivity.
  - intros name description Hok Hfresh.
    assert (Hdb : categoriesDb
                    (exec (deleteCategory id) (exec (addCategory id name description) w)) =
                  categoriesDb w).
    { revert Hok. unfold deleteCategory, addCategory, refreshCategories. run_ctx.
      destruct (negb _ && negb _); [discriminate|]. intros _. cbn.
      rewrite String.eqb_refl. cbn. now apply filter_off_key. }
    split; [exact Hdb|]. intros Hsync.
    assert (Hs : categories_in_sync
                   (exec (deleteCategory id) (exec (addCategory id name description) w)))
      by reflexivity.
    unfold categories_in_sync in Hs. rewrite Hs, Hdb, Hsync.
    revert Hok. unfold deleteCategory, addCategory, refreshCategories. run_ctx.
    destruct (negb _ && negb _); [discriminate|]. reflexivity.
Qed.

(** * Properties of the current location *)

Lemma selectLocation_eq l w :
  selectLocation l w =
  (Ok tt,
   mkWorld (currentUser w) l (products w) (items w)
     (salesDb w) (scopedQuery sale_locationId l (currentUser w) (salesDb w))
     (returnsDb w) (scopedQuery ret_locationId l (currentUser w) (returnsDb w))
     (categoriesDb w) (scopedQuery cat_locationId l (currentUser w) (categoriesDb w))
     (counter w)).
Proof. reflexivity. Qed.

(** X14. A user who is not superadmin and whose assigned location has a
    document (carrying no [id] field or its own id) gets that location as
    the current one from [refreshLocations], as the only entry of the
    locations list; sales, returns and categories are then read for
    [locationId == user.locationId]; and the location selector of an
    admin, manager or salesperson shows this location without a choice. *)
Theorem refreshLocations_assigns_own_location :
  forall sortByName db w u v d,
    currentUser w = Some u ->
    role u <> superadmin ->
    user_locationId u = Some v ->
    truthy (Some v) = true ->
    find (fun d => locationId_is (ld_docId d) (Some v)) db = Some d ->
    (ld_id d = None \/ ld_id d = Some v) ->
    let w' := exec (refreshLocations sortByName db) w in
    outcome (refreshLocations sortByName db) w = Ok [locationOf d] /\
    currentLocation w' = Some (locationOf d) /\
    loc_id (locationOf d) = v /\
    sales w' = where_locationId sale_locationId v (salesDb w) /\
    returns w' = where_locationId ret_locationId v (returnsDb w) /\
    categories w' = where_locationId cat_locationId v (categoriesDb w) /\
    (restricted_role (role u) ->
     locationSelector [locationOf d] (Some u) = AssignedLocation (locationOf d)).
Proof.
  intros sortByName db w u v d Hu Hrole Hv Ht Hd Hid w'.
  assert (Hl : loc_id (locationOf d) = v).
  { apply find_some in Hd. destruct Hd as [_ Hd]. unfold locationId_is in Hd.
    apply String.eqb_eq in Hd. unfold locationOf. cbn [loc_id].
    destruct Hid as [-> | ->]; [now symmetry | reflexivity]. }
  assert (Hns : has_role (Some u) superadmin = false)
    by (cbn; destruct (role u) eqn:Er; try reflexivity; congruence).
  assert (E : refreshLocations sortByName db w =
              (Ok [locationOf d], snd (selectLocation (Some (locationOf d)) w))).
  { unfold refreshLocations. unfold bind at 1. unfold get at 1. cbv beta iota.
    rewrite Hu, Hns. cbn [locationId_of]. rewrite Hv, Ht, Hd.
    unfold bind. now rewrite selectLocation_eq. }
  subst w'. unfold outcome, exec. rewrite E, selectLocation_eq. cbn [fst snd].
  cbn [currentLocation sales returns categories scopedQuery]. rewrite Hl.
  repeat split.
  intros Hr. unfold locationSelector. cbn [locationId_of]. rewrite Hv, Ht.
  cbn [find]. rewrite Hl. cbn [locationId_is]. rewrite String.eqb_refl.
  unfold has_role. destruct Hr as [Hr|[Hr|Hr]]; now rewrite Hr.
Qed.

(** X15. For a session whose user has no assigned location (a superadmin,
    or nobody), [refreshLocations] leaves no location selected only when
    there is none: with no location document the selection is cleared;
    with some, a selection already made is kept, whether or not it is
    among the documents, and otherwise the first location of the sorted
    list, one of the documents, becomes the current one. *)
Theorem refreshLocations_selects_a_location :
  forall sortByName db w,
    (forall l, Permutation (sortByName l) l) ->
    truthy (locationId_of (currentUser w)) = false ->
    let w' := exec (refreshLocations sortByName db) w in
    (db = [] -> currentLocation w' = None) /\
    (forall l, db <> [] -> currentLocation w = Some l -> currentLocation w' = Some l) /\
    (db <> [] -> currentLocation w = None ->
     exists d, In d db /\ currentLocation w' = Some (locationOf d) /\
               hd_error (sortByName (map locationOf db)) = Some (locationOf d)).
Proof.
  intros sortByName db w Hperm Ht w'. subst w'. unfold exec.
  rewrite (refreshLocations_unassigned _ _ _ Ht).
  pose proof (chooseLocation_unassigned (sortByName (map locationOf db)) w Ht)
    as Hc. unfold exec in Hc. rewrite Hc.
  pose proof (Hperm (map locationOf db)) as Hp.
  split; [|split].
  - intros ->. cbn [map] in *. apply Permutation_sym, Permutation_nil in Hp.
    now rewrite Hp.
  - intros l Hne Hl. rewrite Hl.
    destruct (sortByName (map locationOf db)) eqn:E; [|reflexivity].
    apply Permutation_nil in Hp. destruct db; [congruence | discriminate].
  - intros Hne Hl. rewrite Hl.
    destruct (sortByName (map locationOf db)) as [|first rest] eqn:E.
    + apply Permutation_nil in Hp. destruct db; [congruence | discriminate].
    + assert (Hin : In first (map locationOf db))
        by (apply (Permutation_in _ Hp); now left).
      apply in_map_iff in Hin. destruct Hin as (d & <- & Hd).
      exists d. now repeat split.
Qed.

(** X16. The location selector offers a choice of location to a
    location-bound role (admin, manager, salesperson) only when the user's
    assigned location is not in the list: whenever the list holds it, the
    selector shows some listed location of that id and no dropdown. Every
    other user facing a non-empty list gets the dropdown over the whole
    list. *)
Theorem locationSelector_binds_restricted_roles :
  forall locations u,
    (forall usr v l,
        u = Some usr -> restricted_role (role usr) ->
        user_locationId usr = Some v -> truthy (Some v) = true ->
        In l locations -> loc_id l = v ->
        exists l', locationSelector locations u = AssignedLocation l' /\
                   In l' locations /\ loc_id l' = v) /\
    (locations <> [] ->
     has_role u salesperson || has_role u manager || has_role u admin = false ->
     locationSelector locations u = Dropdown locations) /\
    (locations <> [] ->
     truthy (locationId_of u) = false ->
     locationSelector locations u = Dropdown locations).
Proof.
  intros locations u. split; [|split].
  - intros usr v l -> Hr Hv Ht Hin Hid.
    unfold locationSelector. cbn [locationId_of]. rewrite Hv, Ht.
    destruct locations as [|l0 ls]; [destruct Hin|].
    destruct (find (fun loc => locationId_is (loc_id loc) (Some v)) (l0 :: ls))
      as [l'|] eqn:Hf.
    + exists l'. apply find_some in Hf. destruct Hf as [Hin' E]. cbn in E.
      apply String.eqb_eq in E.
      split; [|split; [exact Hin' | congruence]].
      unfold has_role. destruct Hr as [Hr|[Hr|Hr]]; now rewrite Hr.
    + exfalso. pose proof (find_none _ _ Hf l Hin) as Hn. cbn in Hn.
      rewrite Hid, String.eqb_refl in Hn. discriminate.
  - intros Hne Hr. unfold locationSelector. rewrite Hr.
    destruct locations; [congruence|].
    now destruct (if truthy (locationId_of u) then _ else _).
  - intros Hne Ht. unfold locationSelector. rewrite Ht.
    destruct locations; [congruence | reflexivity].
Qed.

(** * Properties of purchases and stock updates *)

Lemma on_hand_after_update pid product q w :
  find_product (p_id product) (products w) = Some product ->
  on_hand pid (exec (updateProduct (p_id product) (with_quantity product q)) w) =
  if (p_id product =? pid)%string then q else on_hand pid w.
Proof. intros Hf. now apply on_hand_update. Qed.

(** X17. [addStockUpdate] fails, writing nothing, when the product is not
    among the products, when no location can be found for a user who is
    not superadmin, or when the product carries a location other than the
    one the update would be filed under (so a superadmin without a
    selected location cannot adjust a located product). Otherwise it
    succeeds: the shelf quantity of the product becomes its former value
    plus the quantity of the form, whatever its sign and the [type] of the
    form, no other product changes, and the record is persisted, filed
    under the write location, and read back first. *)
Theorem addStockUpdate_effect :
  forall b data,
    let w := world b in
    (find_product (sf_productId data) (products w) = None ->
     addStockUpdate data b = (Failed ProductMissing, b)) /\
    (forall product,
        find_product (sf_productId data) (products w) = Some product ->
        (truthy (writeLocation w) = false ->
         has_role (currentUser w) superadmin = false ->
         addStockUpdate data b = (Failed NoLocationForStock, b)) /\
        (truthy (writeLocation w) = true \/ has_role (currentUser w) superadmin = true ->
         truthy (p_locationId product) = true ->
         p_locationId product <> writeLocation w ->
         addStockUpdate data b = (Failed ProductOfAnotherLocation, b)) /\
        (truthy (writeLocation w) = true \/ has_role (currentUser w) superadmin = true ->
         truthy (p_locationId product) = false \/ p_locationId product = writeLocation w ->
         let b' := snd (addStockUpdate data b) in
         fst (addStockUpdate data b) = Done /\
         (forall pid,
             on_hand pid (world b') =
             if (sf_productId data =? pid)%string
             then p_quantity product + sf_quantity data
             else on_hand pid w) /\
         stockUpdatesDb b' =
           mkStockUpdate data (writeLocation w) (uid_of (currentUser w))
           :: stockUpdatesDb b /\
         hd_error (stockUpdates b') =
           Some (mkStockUpdate data (writeLocation w) (uid_of (currentUser w))) /\
         purchasesDb b' = purchasesDb b)).
Proof.
  intros b data w. split.
  - intros Hf. unfold addStockUpdate. fold w. now rewrite Hf.
  - intros product Hf. pose proof (find_product_id _ _ _ Hf) as Hid.
    assert (Hcond : truthy (writeLocation w) = true \/
                    has_role (currentUser w) superadmin = true ->
                    negb (truthy (writeLocation w)) &&
                    negb (has_role (currentUser w) superadmin) = false).
    { intros [->| ->]; [reflexivity | apply andb_false_r]. }
    split; [|split].
    + intros Ht Hr. unfold addStockUpdate. fold w. now rewrite Hf, Ht, Hr.
    + intros Hc Htp Hne. unfold addStockUpdate. fold w.
      rewrite Hf, (Hcond Hc), Htp. cbn [andb].
      destruct (writeLocation w) as [l|] eqn:Hl; [|reflexivity].
      destruct (locationId_is l (p_locationId product)) eqn:E; [|reflexivity].
      exfalso. apply Hne. unfold locationId_is in E.
      destruct (p_locationId product) as [pl|]; [|discriminate].
      apply String.eqb_eq in E. now subst.
    + intros Hc Hloc b'.
      assert (Hok : truthy (p_locationId product) &&
                    negb (match writeLocation w with
                          | Some l => locationId_is l (p_locationId product)
                          | None => false
                          end) = false).
      { destruct Hloc as [-> | Heq]; [reflexivity|].
        destruct (truthy (p_locationId product)) eqn:Htp; [|reflexivity].
        rewrite <- Heq. destruct (p_locationId product) as [pl|]; [|discriminate].
        cbn. now rewrite String.eqb_refl. }
      assert (E : addStockUpdate data b =
                  (Done,
                   mkBooks
                     (exec (updateProduct (p_id product)
                              (with_quantity product (p_quantity product + sf_quantity data))) w)
                     (purchasesDb b) (purchases b)
                     (mkStockUpdate data (writeLocation w) (uid_of (currentUser w))
                      :: stockUpdatesDb b)
                     (scopedQuery su_locationId (currentLocation w) (currentUser w)
                        (mkStockUpdate data (writeLocation w) (uid_of (currentUser w))
                         :: stockUpdatesDb b)))).
      { unfold addStockUpdate. fold w. now rewrite Hf, (Hcond Hc), Hok. }
      subst b'. rewrite E. cbn [fst snd world stockUpdatesDb stockUpdates purchasesDb].
      repeat split.
      * intros pid. rewrite on_hand_after_update by (now rewrite Hid).
        now rewrite Hid.
      * now rewrite scopedQuery_own_write by reflexivity.
Qed.

(** X18. [addPurchase] fails, writing nothing, only when the product is
    not among the products or when no location can be found for a user who
    is not superadmin. It does not ask where the product belongs: in every
    other case it succeeds, raises the shelf quantity of the product by
    the quantity of the form and of no other product, and persists a
    purchase that records the product's name and the write location, read
    back first. *)
Theorem addPurchase_effect :
  forall b data,
    let w := world b in
    (find_product (pf_productId data) (products w) = None ->
     addPurchase data b = (Failed ProductMissing, b)) /\
    (forall product,
        find_product (pf_productId data) (products w) = Some product ->
        (truthy (writeLocation w) = false ->
         has_role (currentUser w) superadmin = false ->
         addPurchase data b = (Failed NoLocationForStock, b)) /\
        (truthy (writeLocation w) = true \/ has_role (currentUser w) superadmin = true ->
         let b' := snd (addPurchase data b) in
         fst (addPurchase data b) = Done /\
         (forall pid,
             on_hand pid (world b') =
             if (pf_productId data =? pid)%string
             then p_quantity product + pf_quantity data
             else on_hand pid w) /\
         purchasesDb b' =
           mkPurchase data (p_name product) (writeLocation w) (uid_of (currentUser w))
           :: purchasesDb b /\
         hd_error (purchases b') =
           Some (mkPurchase data (p_name product) (writeLocation w)
                            (uid_of (currentUser w))) /\
         stockUpdatesDb b' = stockUpdatesDb b)).
Proof.
  intros b data w. split.
  - intros Hf. unfold addPurchase. fold w. now rewrite Hf.
  - intros product Hf. pose proof (find_product_id _ _ _ Hf) as Hid. split.
    + intros Ht Hr. unfold addPurchase. fold w. now rewrite Hf, Ht, Hr.
    + intros Hc b'.
      assert (Hcond : negb (truthy (writeLocation w)) &&
                      negb (has_role (currentUser w) superadmin) = false)
        by (destruct Hc as [->| ->]; [reflexivity | apply andb_false_r]).
      subst b'. unfold addPurchase. fold w. rewrite Hf, Hcond.
      cbn [fst snd world stockUpdatesDb purchases purchasesDb].
      repeat split.
      * intros pid. rewrite on_hand_after_update by (now rewrite Hid).
        now rewrite Hid.
      * now rewrite scopedQuery_own_write by reflexivity.
Qed.

(** ** Signing in *)

Lemma inactiveAccount_false (d : UserDoc) :
  inactiveAccount (userOf d) = false <-> may_enter d.
Proof.
  unfold inactiveAccount, may_enter, userOf; cbn.
  destruct (ud_role d), (ud_isActive d) as [[]|]; cbn; split; intros H;
    try reflexivity; try discriminate; try (now left); try (now right);
    destruct H as [H|H]; discriminate.
Qed.

Lemma otherLocation_false (d : UserDoc) (locationId : option string) :
  role_eqb (ud_role d) salesperson && otherLocation (userOf d) locationId = false
  <-> location_open d locationId.
Proof.
  unfold otherLocation, location_open, userOf, truthy, locationId_is; cbn. split.
  - intros H Hr own l Ho Hne Hl Hlne. subst locationId. rewrite Hr, Ho in H. cbn in H.
    apply String.eqb_neq in Hne, Hlne. rewrite Hne, Hlne in H. cbn in H.
    apply negb_false_iff in H. now apply String.eqb_eq in H.
  - intros H. destruct (role_eqb (ud_role d) salesperson) eqn:Er; [|reflexivity].
    assert (Hr : ud_role d = salesperson) by (destruct (ud_role d); try discriminate; reflexivity).
    specialize (H Hr). cbn.
    destruct (ud_locationId d) as [own|]; [|reflexivity].
    destruct (String.eqb_spec own ""); [reflexivity|]. cbn.
    destruct locationId as [l|]; [|reflexivity].
    destruct (String.eqb_spec l ""); [reflexivity|]. cbn.
    rewrite (H own l eq_refl n eq_refl n0). now rewrite String.eqb_refl.
Qed.

Section LoginFacts.
Variable trim : string -> string.
Variable signIn : string -> string -> AuthOutcome.

(** X19. [login] resolves exactly when the trimmed email and the password
    are not empty, the identity provider accepts them, the user has a
    document, the location asked for is open to the user and the account may
    enter; it then makes that user the current user, signed in, with no
    error. *)
Theorem login_resolves_iff (email password : string) (locationId : option string)
        (a : AuthState) :
  (fst (login trim signIn email password locationId a) = Resolves tt <->
   trim email <> "" /\ password <> "" /\
   exists user d,
     signIn (trim email) password = Authenticated user /\
     userDoc user (auth_users a) = Some d /\
     location_open d locationId /\ may_enter d) /\
  (forall user d,
     fst (login trim signIn email password locationId a) = Resolves tt ->
     signIn (trim email) password = Authenticated user ->
     userDoc user (auth_users a) = Some d ->
     snd (login trim signIn email password locationId a) =
     mkAuthState (Some user) (Some (userOf d)) None (auth_users a)).
Proof.
  unfold login, getUserWithRole, rejects. cbn [auth_users signedIn clearError].
  destruct (String.eqb_spec (trim email) "") as [He|He].
  { split; [split; [discriminate | intros [H _]; contradiction] | discriminate]. }
  destruct (String.eqb_spec password "") as [Hp|Hp].
  { split; [split; [discriminate | intros (_ & H & _); contradiction] | discriminate]. }
  destruct (signIn (trim email) password) as [user|code msg].
  2:{ split; [split; [discriminate | intros (_ & _ & u & d & H & _); discriminate]
             | discriminate]. }
  destruct (userDoc user (auth_users a)) as [d|] eqn:Ed; cbn [option_map].
  2:{ split; [split; [discriminate|] | discriminate].
      intros (_ & _ & u & d & H & H' & _). injection H as <-. congruence. }
  change (role (userOf d)) with (ud_role d).
  destruct (role_eqb (ud_role d) salesperson && otherLocation (userOf d) locationId) eqn:Eo.
  { split; [split; [discriminate|] | discriminate].
    intros (_ & _ & u & d' & H & H' & Ho & _). injection H as <-.
    assert (d' = d) by congruence. subst d'.
    apply otherLocation_false in Ho. congruence. }
  destruct (inactiveAccount (userOf d)) eqn:Ei.
  { split; [split; [discriminate|] | discriminate].
    intros (_ & _ & u & d' & H & H' & _ & Hm). injection H as <-.
    assert (d' = d) by congruence. subst d'.
    apply inactiveAccount_false in Hm. congruence. }
  split; [split|].
  - intros _. split; [exact He|]. split; [exact Hp|]. exists user, d.
    split; [reflexivity|]. split; [exact Ed|]. split.
    + now apply otherLocation_false.
    + now apply inactiveAccount_false.
  - reflexivity.
  - intros u d' _ H H'. injection H as <-. rewrite Ed in H'. injection H' as <-.
    reflexivity.
Qed.

(** X20. When the identity provider has accepted the credentials and [login]
    still rejects, the thrown message is kept as the error and neither the
    current user nor the user documents change; the provider's session is
    signed out only for an account that may not enter and whose location
    was open, and otherwise stays signed in as the user. *)
Theorem login_rejected_session (email password : string) (locationId : option string)
        (a : AuthState) (user message : string) :
  trim email <> "" -> password <> "" ->
  signIn (trim email) password = Authenticated user ->
  fst (login trim signIn email password locationId a) = Rejects message ->
  let a' := snd (login trim signIn email password locationId a) in
  auth_error a' = Some message /\
  auth_currentUser a' = auth_currentUser a /\
  auth_users a' = auth_users a /\
  (auth_session a' = None \/ auth_session a' = Some user) /\
  (auth_session a' = None <->
   exists d, userDoc user (auth_users a) = Some d /\
             location_open d locationId /\ ~ may_enter d).
Proof.
  intros He Hp Hs. unfold login, getUserWithRole, rejects.
  cbn [auth_users signedIn clearError].
  apply String.eqb_neq in He, Hp. rewrite He, Hp, Hs.
  destruct (userDoc user (auth_users a)) as [d|] eqn:Ed; cbn [option_map].
  2:{ cbn. intros [= <-]. repeat split; try (now right); try discriminate.
      intros (d & H & _). discriminate. }
  change (role (userOf d)) with (ud_role d).
  destruct (role_eqb (ud_role d) salesperson && otherLocation (userOf d) locationId) eqn:Eo.
  { cbn. intros [= <-]. repeat split; try (now right); try discriminate.
    intros (d' & [= <-] & Ho & _). apply otherLocation_false in Ho. congruence. }
  destruct (inactiveAccount (userOf d)) eqn:Ei; [|discriminate].
  cbn. intros [= <-]. repeat split; try (now left).
  intros _. exists d. split; [reflexivity|]. split.
  - now apply otherLocation_false.
  - intros Hm. apply inactiveAccount_false in Hm. congruence.
Qed.

(** X21. The location test of [login] does not keep a salesperson out: for
    an active salesperson assigned to a location, a login that asks for
    another location is rejected with the access message, yet the provider
    stays signed in and the listener of the auth state, run on the state
    [login] leaves, makes that salesperson the current user. *)
Theorem rejected_location_is_signed_in (email password own l user : string)
        (d : UserDoc) (a : AuthState) :
  trim email <> "" -> password <> "" ->
  signIn (trim email) password = Authenticated user ->
  userDoc user (auth_users a) = Some d ->
  ud_role d = salesperson -> ud_isActive d = Some true ->
  ud_locationId d = Some own -> own <> "" -> l <> "" -> own <> l ->
  fst (login trim signIn email password (Some l) a) =
    Rejects "You do not have access to this location" /\
  auth_currentUser (snd (login trim signIn email password (Some l) a)) =
    auth_currentUser a /\
  auth_currentUser
    (authStateChanged (snd (login trim signIn email password (Some l) a))) =
    Some (userOf d) /\
  user_locationId (userOf d) = Some own.
Proof.
  intros He Hp Hs Hd Hr Ha Ho Hne Hlne Hdiff.
  assert (Eo : role_eqb (role (userOf d)) salesperson
               && otherLocation (userOf d) (Some l) = true).
  { unfold otherLocation, userOf, truthy, locationId_is; cbn. rewrite Hr, Ho. cbn.
    apply String.eqb_neq in Hne, Hlne, Hdiff. now rewrite Hne, Hlne, Hdiff. }
  assert (E : login trim signIn email password (Some l) a =
              rejects "You do not have access to this location"
                      (signedIn (Some user) (clearError a))).
  { unfold login, getUserWithRole. cbn [auth_users signedIn clearError].
    apply String.eqb_neq in He, Hp. rewrite He, Hp, Hs, Hd. cbn [option_map].
    now rewrite Eo. }
  rewrite E. unfold rejects, signedIn, clearError. cbn [fst snd auth_currentUser].
  split; [reflexivity|]. split; [reflexivity|]. split; [|exact Ho].
  unfold authStateChanged, getUserWithRole. cbn [auth_session auth_users].
  rewrite Hd. cbn [option_map].
  assert (Ei : inactiveAccount (userOf d) = false)
    by (apply inactiveAccount_false; now right).
  now rewrite Ei.
Qed.
End LoginFacts.

(** X22. After the listener of the auth state has run, there is a current
    user exactly when the provider's session has a user document that may
    enter, and it is that user; an account that may not enter is signed out
    with the inactive message; and running the listener again changes
    nothing. *)
Theorem authStateChanged_admits (a : AuthState) :
  (forall u, auth_currentUser (authStateChanged a) = Some u <->
     exists user d, auth_session a = Some user /\
                    userDoc user (auth_users a) = Some d /\
                    may_enter d /\ u = userOf d) /\
  (forall user d, auth_session a = Some user ->
     userDoc user (auth_users a) = Some d -> ~ may_enter d ->
     authStateChanged a = mkAuthState None None (Some inactiveMessage) (auth_users a)) /\
  authStateChanged (authStateChanged a) = authStateChanged a.
Proof.
  split; [|split].
  - intros u. unfold authStateChanged, getUserWithRole.
    destruct (auth_session a) as [user|] eqn:Es.
    2:{ cbn. split; [discriminate | intros (user & d & H & _); discriminate]. }
    destruct (userDoc user (auth_users a)) as [d|] eqn:Ed; cbn [option_map].
    2:{ cbn. split; [discriminate|].
        intros (u' & d & [= <-] & H & _). congruence. }
    destruct (inactiveAccount (userOf d)) eqn:Ei; cbn.
    + split; [discriminate|].
      intros (u' & d' & [= <-] & H & Hm & _). assert (d' = d) by congruence. subst.
      apply inactiveAccount_false in Hm. congruence.
    + split.
      * intros [= <-]. exists user, d. split; [reflexivity|]. split; [exact Ed|].
        split; [now apply inactiveAccount_false | reflexivity].
      * intros (u' & d' & [= <-] & H & _ & ->). congruence.
  - intros user d Es Ed Hm. unfold authStateChanged, getUserWithRole.
    rewrite Es, Ed. cbn [option_map].
    destruct (inactiveAccount (userOf d)) eqn:Ei; [reflexivity|].
    apply inactiveAccount_false in Ei. contradiction.
  - unfold authStateChanged, getUserWithRole.
    destruct (auth_session a) as [user|] eqn:Es; [|reflexivity].
    destruct (userDoc user (auth_users a)) as [d|] eqn:Ed; cbn [option_map].
    2:{ cbn [auth_session auth_users]. now rewrite Ed. }
    destruct (inactiveAccount (userOf d)) eqn:Ei; [reflexivity|].
    cbn [auth_session auth_users]. rewrite Ed. cbn [option_map]. now rewrite Ei.
Qed.

(** ** Registering *)

Lemma existsb_userDoc (user : string) (users : list UserDoc) :
  existsb (fun x => (ud_uid x =? user)%string) users = true <->
  exists d, userDoc user users = Some d.
Proof.
  unfold userDoc. induction users as [|x xs IH]; cbn.
  - split; [discriminate | intros [d H]; discriminate].
  - destruct (ud_uid x =? user)%string; cbn; [|exact IH].
    split; [intros _; now exists x | reflexivity].
Qed.

Lemma userDoc_uid (user : string) (users : list UserDoc) (d : UserDoc) :
  userDoc user users = Some d -> ud_uid d = user.
Proof.
  unfold userDoc. intros H. apply find_some in H. now apply String.eqb_eq.
Qed.

Lemma userDoc_map (user target : string) (f : UserDoc -> UserDoc) (users : list UserDoc) :
  (forall x, ud_uid x = target -> ud_uid (f x) = target) ->
  userDoc user (map (fun x => if (ud_uid x =? target)%string then f x else x) users) =
  match userDoc user users with
  | Some d => Some (if (user =? target)%string then f d else d)
  | None => None
  end.
Proof.
  intros Hf. unfold userDoc. induction users as [|x xs IH]; [reflexivity|]. cbn.
  destruct (String.eqb_spec (ud_uid x) target) as [Ht|Ht].
  - rewrite (Hf x Ht). destruct (String.eqb_spec target user) as [Hu|Hu].
    + subst user. rewrite Ht, !String.eqb_refl. reflexivity.
    + rewrite Ht. apply String.eqb_neq in Hu. rewrite Hu. exact IH.
  - destruct (String.eqb_spec (ud_uid x) user) as [Hu|Hu]; [|exact IH].
    subst user. apply String.eqb_neq in Ht. now rewrite Ht.
Qed.

Lemma userDoc_app (user : string) (users : list UserDoc) (d : UserDoc) :
  userDoc user (users ++ [d])%list =
  match userDoc user users with
  | Some x => Some x
  | None => if (ud_uid d =? user)%string then Some d else None
  end.
Proof.
  unfold userDoc. induction users as [|x xs IH]; cbn.
  - reflexivity.
  - destruct (ud_uid x =? user)%string; [reflexivity | exact IH].
Qed.

Lemma userDoc_setUserDoc (d : UserDoc) (users : list UserDoc) (user : string) :
  userDoc user (setUserDoc d users) =
  if (user =? ud_uid d)%string then Some d else userDoc user users.
Proof.
  unfold setUserDoc.
  destruct (existsb (fun x => (ud_uid x =? ud_uid d)%string) users) eqn:Ex.
  - rewrite (userDoc_map user (ud_uid d) (fun _ => d)) by reflexivity.
    destruct (String.eqb_spec user (ud_uid d)) as [Hu|Hu].
    + subst user. apply existsb_userDoc in Ex. destruct Ex as [x Hx]. now rewrite Hx.
    + now destruct (userDoc user users).
  - rewrite userDoc_app. rewrite (String.eqb_sym user).
    destruct (String.eqb_spec (ud_uid d) user) as [Hu|Hu].
    + subst user. destruct (userDoc (ud_uid d) users) eqn:Hx; [|reflexivity].
      assert (existsb (fun x => (ud_uid x =? ud_uid d)%string) users = true)
        by (apply existsb_userDoc; eauto).
      congruence.
    + now destruct (userDoc user users).
Qed.

(** The condition under which [login] resolves, as an equation. *)
Lemma login_accepts (trim : string -> string) (signIn : string -> string -> AuthOutcome)
      (email password user : string) (locationId : option string) (d : UserDoc)
      (a : AuthState) :
  trim email <> "" -> password <> "" ->
  signIn (trim email) password = Authenticated user ->
  userDoc user (auth_users a) = Some d ->
  location_open d locationId -> may_enter d ->
  login trim signIn email password locationId a =
  (Resolves tt, mkAuthState (Some user) (Some (userOf d)) None (auth_users a)).
Proof.
  intros He Hp Hs Hd Ho Hm. unfold login, getUserWithRole.
  cbn [auth_users signedIn clearError].
  apply String.eqb_neq in He, Hp. rewrite He, Hp, Hs, Hd. cbn [option_map].
  apply otherLocation_false in Ho. apply inactiveAccount_false in Hm.
  change (role (userOf d)) with (ud_role d). now rewrite Ho, Hm.
Qed.

Section RegisterFacts.
Variable createUser : string -> string -> AuthOutcome.
Variable latestFranchise : option string.

(** The document [register] writes for a new user. *)
Lemma register_cases (email password : string) (r : UserRole)
      (franchiseId locationId : option string) (a : AuthState) :
  (exists message,
     register createUser latestFranchise email password r franchiseId locationId a =
     rejects message (clearError a) /\
     ((r <> superadmin /\ truthy franchiseId = false /\ latestFranchise = None) \/
      (r = salesperson /\ truthy locationId = false) \/
      exists code m, createUser email password = AuthRefused code m)) \/
  (exists user d,
     createUser email password = Authenticated user /\
     (r = salesperson -> truthy locationId = true) /\
     d = (if role_eqb r superadmin
          then mkUserDoc user r (Some true) None None
          else mkUserDoc user r (Some true)
                         (if truthy locationId then locationId else None)
                         (if truthy franchiseId then franchiseId else latestFranchise)) /\
     (r <> superadmin -> ud_franchiseId d <> None) /\
     register createUser latestFranchise email password r franchiseId locationId a =
     (Resolves user,
      mkAuthState (Some user)
                  (if role_eqb r superadmin then Some (userOf d) else auth_currentUser a)
                  None (setUserDoc d (auth_users a)))).
Proof.
  unfold register.
  assert (Hsa : role_eqb r superadmin = true <-> r = superadmin)
    by (destruct r; cbn; split; congruence).
  assert (Hsp : role_eqb r salesperson = true <-> r = salesperson)
    by (destruct r; cbn; split; congruence).
  destruct (role_eqb r superadmin) eqn:Er; cbn [negb andb].
  - assert (r = superadmin) by now apply Hsa. subst r. cbn [role_eqb andb].
    destruct (createUser email password) as [user|code m] eqn:Ec.
    + right. exists user, (mkUserDoc user superadmin (Some true) None None).
      split; [reflexivity|]. split; [discriminate|]. split; [reflexivity|].
      split; [congruence|].
      unfold getUserWithRole. rewrite userDoc_setUserDoc. cbn [ud_uid].
      now rewrite String.eqb_refl.
    + left. eexists. split; [reflexivity|]. right. right. eauto.
  - assert (Hn : r <> superadmin) by (intros H; apply Hsa in H; discriminate).
    destruct (truthy franchiseId) eqn:Ef; cbn [negb].
    + destruct (role_eqb r salesperson && negb (truthy locationId)) eqn:El.
      * left. eexists. split; [reflexivity|]. right. left.
        apply andb_true_iff in El. destruct El as [E1 E2].
        split; [now apply Hsp | now apply negb_true_iff].
      * destruct (createUser email password) as [user|code m] eqn:Ec.
        -- right. eexists user, _. split; [reflexivity|]. split.
           { intros ->. cbn in El. now apply negb_false_iff. }
           split; [reflexivity|]. split; [|reflexivity].
           cbn. destruct franchiseId; [discriminate | discriminate].
        -- left. eexists. split; [reflexivity|]. right. right. eauto.
    + destruct latestFranchise as [f|] eqn:Elf.
      * destruct (role_eqb r salesperson && negb (truthy locationId)) eqn:El.
        -- left. eexists. split; [reflexivity|]. right. left.
           apply andb_true_iff in El. destruct El as [E1 E2].
           split; [now apply Hsp | now apply negb_true_iff].
        -- destruct (createUser email password) as [user|code m] eqn:Ec.
           ++ right. eexists user, _. split; [reflexivity|]. split.
              { intros ->. cbn in El. now apply negb_false_iff. }
              split; [reflexivity|]. split; [|reflexivity]. cbn. discriminate.
           ++ left. eexists. split; [reflexivity|]. right. right. eauto.
      * left. eexists. split; [reflexivity|]. left. auto.
Qed.
End RegisterFacts.

Section RegisterTheorems.
Variable createUser : string -> string -> AuthOutcome.
Variable latestFranchise : option string.

(** X23. When [register] resolves, the identity provider has created the
    user and signed that user in, and the new user's document holds the
    given role and is active; a superadmin's document has neither
    franchise nor location; for every other role the document has a
    franchise (the given one, or else the latest one) and the location
    given if it is not empty, which a salesperson always has; no other
    user's document changes. The sign-up fires the listener of the auth
    state, so whoever was the current user is replaced: the listener, run
    once the document is written, makes the new user the current user
    whatever the role, and run before the document is there, for a user
    who had none, it leaves no current user. *)
Theorem register_stores (email password : string) (r : UserRole)
        (franchiseId locationId : option string) (a a' : AuthState) (user : string) :
  register createUser latestFranchise email password r franchiseId locationId a =
    (Resolves user, a') ->
  createUser email password = Authenticated user /\
  auth_session a' = Some user /\
  (exists d,
     userDoc user (auth_users a') = Some d /\
     ud_role d = r /\ ud_isActive d = Some true /\
     (r = superadmin ->
      ud_locationId d = None /\ ud_franchiseId d = None /\
      auth_currentUser a' = Some (userOf d)) /\
     (r <> superadmin ->
      ud_franchiseId d = (if truthy franchiseId then franchiseId else latestFranchise) /\
      ud_franchiseId d <> None /\
      ud_locationId d = (if truthy locationId then locationId else None)) /\
     (r = salesperson -> ud_locationId d = locationId /\ truthy locationId = true) /\
     auth_currentUser (authStateChanged a') = Some (userOf d) /\
     auth_session (authStateChanged a') = Some user) /\
  (userDoc user (auth_users a) = None ->
   auth_currentUser (authStateChanged (signedIn (Some user) (clearError a))) = None) /\
  (forall other, other <> user ->
     userDoc other (auth_users a') = userDoc other (auth_users a)).
Proof.
  intros H.
  destruct (register_cases createUser latestFranchise email password r
              franchiseId locationId a)
    as [(m & E & _) | (u & d & Hc & Hl & Hd & Hf & E)];
    rewrite E in H; [discriminate|].
  injection H as <- <-. cbn [auth_session auth_users auth_currentUser].
  split; [exact Hc|]. split; [reflexivity|].
  assert (Hu : ud_uid d = u) by (subst d; now destruct (role_eqb r superadmin)).
  assert (Ha : ud_isActive d = Some true)
    by (subst d; now destruct (role_eqb r superadmin)).
  assert (Hin : inactiveAccount (userOf d) = false)
    by (apply inactiveAccount_false; now right).
  split; [|split].
  - exists d. rewrite userDoc_setUserDoc, Hu, String.eqb_refl.
    split; [reflexivity|].
    split; [subst d; now destruct (role_eqb r superadmin)|].
    split; [exact Ha|].
    split; [|split; [|split; [|split]]].
    + intros ->. subst d. cbn. auto.
    + intros Hn. destruct (role_eqb r superadmin) eqn:Er.
      { destruct r; try discriminate. contradiction. }
      specialize (Hf Hn). subst d. cbn in *. auto.
    + intros ->. specialize (Hl eq_refl). subst d. cbn. now rewrite Hl.
    + unfold authStateChanged, getUserWithRole. cbn [auth_session auth_users].
      rewrite userDoc_setUserDoc, Hu, String.eqb_refl. cbn [option_map].
      now rewrite Hin.
    + unfold authStateChanged, getUserWithRole. cbn [auth_session auth_users].
      rewrite userDoc_setUserDoc, Hu, String.eqb_refl. cbn [option_map].
      now rewrite Hin.
  - intros Hnone. unfold authStateChanged, getUserWithRole, signedIn, clearError.
    cbn [auth_session auth_users]. now rewrite Hnone.
  - intros other Ho. rewrite userDoc_setUserDoc, Hu.
    apply String.eqb_neq in Ho. now rewrite Ho.
Qed.

(** X24. [register] rejects exactly when a role other than superadmin comes
    with no franchise and there is none to default to, or a salesperson
    comes with no location, or the identity provider refuses the account;
    it then keeps the thrown message as the error and changes neither the
    user documents, nor the current user, nor the provider's session. In
    the first two cases this holds whatever the identity provider would
    have answered. *)
Theorem register_rejected (email password : string) (r : UserRole)
        (franchiseId locationId : option string) (a : AuthState) :
  ((exists message,
      fst (register createUser latestFranchise email password r franchiseId locationId a)
      = Rejects message) <->
   (r <> superadmin /\ truthy franchiseId = false /\ latestFranchise = None) \/
   (r = salesperson /\ truthy locationId = false) \/
   (exists code m, createUser email password = AuthRefused code m)) /\
  (forall message a',
     register createUser latestFranchise email password r franchiseId locationId a =
       (Rejects message, a') ->
     auth_error a' = Some message /\
     auth_users a' = auth_users a /\
     auth_currentUser a' = auth_currentUser a /\
     auth_session a' = auth_session a).
Proof.
  destruct (register_cases createUser latestFranchise email password r
              franchiseId locationId a)
    as [(m & E & Hc) | (u & d & Hc & Hl & Hd & Hf & E)]; rewrite E.
  - split.
    + split; [intros _; exact Hc | intros _; now exists m].
    + unfold rejects, clearError. intros message a' [= <- <-]. cbn. auto.
  - split; [|discriminate]. split.
    + intros [m H]. discriminate.
    + intros [(Hn & Hfr & Hlf) | [(Hr & Hlo) | (code & m & Hr)]].
      * exfalso. specialize (Hf Hn). subst d.
        destruct (role_eqb r superadmin) eqn:Er.
        { destruct r; try discriminate. contradiction. }
        cbn in Hf. rewrite Hfr in Hf. contradiction.
      * specialize (Hl Hr). congruence.
      * congruence.
Qed.

(** X25. A user whom [register] has just created can sign in: with
    credentials the identity provider accepts for that user, and asking for
    no location or for the location given at registration, [login] on the
    state [register] leaves resolves and makes the user the current user,
    with the registered role and active. *)
Theorem register_then_login (trim : string -> string)
        (signIn : string -> string -> AuthOutcome)
        (email password email' password' : string) (r : UserRole)
        (franchiseId locationId asked : option string) (a a1 : AuthState)
        (user : string) :
  register createUser latestFranchise email password r franchiseId locationId a =
    (Resolves user, a1) ->
  trim email' <> "" -> password' <> "" ->
  signIn (trim email') password' = Authenticated user ->
  asked = None \/ asked = locationId ->
  exists u,
    login trim signIn email' password' asked a1 =
      (Resolves tt, mkAuthState (Some user) (Some u) None (auth_users a1)) /\
    uid u = user /\ role u = r /\ isActive u = true.
Proof.
  intros H He Hp Hs Hasked.
  destruct (register_cases createUser latestFranchise email password r
              franchiseId locationId a)
    as [(m & E & _) | (u & d & Hc & Hl & Hd & Hf & E)];
    rewrite E in H; [discriminate|].
  injection H as <- <-.
  assert (Hu : ud_uid d = u) by (subst d; now destruct (role_eqb r superadmin)).
  assert (Hr : ud_role d = r) by (subst d; now destruct (role_eqb r superadmin)).
  assert (Ha : ud_isActive d = Some true)
    by (subst d; now destruct (role_eqb r superadmin)).
  assert (Hloc : r = salesperson -> ud_locationId d = locationId).
  { intros Hsp. specialize (Hl Hsp). rewrite Hd, Hsp. cbn. now rewrite Hl. }
  exists (userOf d). split; [|split; [|split]].
  - apply login_accepts; try assumption.
    + cbn [auth_users]. now rewrite userDoc_setUserDoc, Hu, String.eqb_refl.
    + intros Hsp own l Hown Hne Hl' Hlne. rewrite Hr in Hsp.
      rewrite (Hloc Hsp) in Hown.
      destruct Hasked as [->| ->]; [discriminate | congruence].
    + now right.
  - exact Hu.
  - exact Hr.
  - unfold userOf; cbn. now rewrite Ha.
Qed.
End RegisterTheorems.

(** ** Users of an admin's location *)

Section AdminUsersFacts.
Variable franchise : option string.
Variable me : option User.
Variable notFound : string.

Lemma fetchUsers_db (p : UsersPage) : up_db (fetchUsers franchise me p) = up_db p.
Proof.
  unfold fetchUsers. destruct franchise; [|reflexivity].
  destruct (truthy (locationId_of me)); [|reflexivity].
  now destruct (locationId_of me).
Qed.

Lemma updateUser_db (user fallback : string) (f : UserDoc -> UserDoc) (p : UsersPage) :
  up_db (updateUser franchise me notFound user f fallback p) =
  map (fun x => if (ud_uid x =? user)%string then f x else x) (up_db p).
Proof.
  unfold updateUser.
  destruct (existsb (fun x => (ud_uid x =? user)%string) (up_db p)) eqn:Ex.
  - now rewrite fetchUsers_db.
  - cbn [up_db]. symmetry. rewrite <- (map_id (up_db p)) at 2.
    apply map_ext_in. intros x Hx.
    destruct (ud_uid x =? user)%string eqn:E; [|reflexivity].
    assert (existsb (fun x => (ud_uid x =? user)%string) (up_db p) = true)
      by (apply existsb_exists; eauto).
    congruence.
Qed.

(** X26. [updateUserRole] of an admin never makes an admin or a superadmin:
    a document with one of these roles after the call was in the
    collection, unchanged, before it; the call leaves every document's id,
    status, location and franchise as they were, changes at most the role
    of the named user, and with the new role admin or superadmin writes
    nothing and shows the permission error. *)
Theorem updateUserRole_grants_no_admin (user : string) (newRole : UserRole)
        (p : UsersPage) :
  (forall d, In d (up_db (updateUserRole franchise me notFound user newRole p)) ->
     ud_role d = admin \/ ud_role d = superadmin -> In d (up_db p)) /\
  (forall other,
     userDoc other (up_db (updateUserRole franchise me notFound user newRole p)) =
     match userDoc other (up_db p) with
     | Some d =>
         Some (if (other =? user)%string &&
                  negb (role_eqb newRole superadmin || role_eqb newRole admin)
               then mkUserDoc (ud_uid d) newRole (ud_isActive d) (ud_locationId d)
                              (ud_franchiseId d)
               else d)
     | None => None
     end) /\
  (newRole = admin \/ newRole = superadmin ->
   updateUserRole franchise me notFound user newRole p =
   mkUsersPage (up_db p) (up_users p)
     (Some "You do not have permission to create admin or superadmin users")).
Proof.
  unfold updateUserRole.
  destruct (role_eqb newRole superadmin || role_eqb newRole admin) eqn:Eg.
  - cbn [up_db negb]. split; [auto|]. split; [|reflexivity].
    intros other. rewrite andb_false_r. now destruct (userDoc other (up_db p)).
  - rewrite updateUser_db. split; [|split].
    + intros d Hd Hr. apply in_map_iff in Hd. destruct Hd as (x & Hx & Hin).
      destruct (ud_uid x =? user)%string; [|now subst].
      subst d. cbn in Hr. exfalso.
      destruct Hr as [-> | ->]; cbn in Eg; discriminate.
    + intros other. rewrite userDoc_map by (intros x Hx; exact Hx).
      cbn [negb]. now rewrite andb_true_r.
    + intros [-> | ->]; cbn in Eg; discriminate.
Qed.

(** X27. [toggleUserStatus] on a user who has a document writes the
    opposite of the status it is given and nothing else; after it was
    given [true] for a user who is not a superadmin, no [login] as that
    user resolves and the listener of the auth state signs that user out,
    whereas a superadmin still may enter. *)
Theorem toggleUserStatus_locks_out (user : string) (currentlyActive : bool)
        (p : UsersPage) (d : UserDoc) :
  userDoc user (up_db p) = Some d ->
  let p' := toggleUserStatus franchise me notFound user currentlyActive p in
  let d' := mkUserDoc (ud_uid d) (ud_role d) (Some (negb currentlyActive))
                      (ud_locationId d) (ud_franchiseId d) in
  userDoc user (up_db p') = Some d' /\
  (forall other, other <> user -> userDoc other (up_db p') = userDoc other (up_db p)) /\
  (may_enter d' <-> ud_role d = superadmin \/ currentlyActive = false) /\
  (currentlyActive = true -> ud_role d <> superadmin ->
   forall trim signIn email password locationId a,
     auth_users a = up_db p' ->
     signIn (trim email) password = Authenticated user ->
     fst (login trim signIn email password locationId a) <> Resolves tt /\
     (auth_session a = Some user ->
      authStateChanged a =
      mkAuthState None None (Some inactiveMessage) (auth_users a))).
Proof.
  intros Hd p' d'. subst p'. unfold toggleUserStatus.
  assert (Hdb : forall other,
    userDoc other (up_db (updateUser franchise me notFound user
      (fun d => mkUserDoc (ud_uid d) (ud_role d) (Some (negb currentlyActive))
                          (ud_locationId d) (ud_franchiseId d))
      "Failed to update user status" p)) =
    match userDoc other (up_db p) with
    | Some x => Some (if (other =? user)%string
                      then mkUserDoc (ud_uid x) (ud_role x) (Some (negb currentlyActive))
                                     (ud_locationId x) (ud_franchiseId x)
                      else x)
    | None => None
    end).
  { intros other. rewrite updateUser_db.
    now rewrite userDoc_map by (intros x Hx; exact Hx). }
  assert (Hnew : userDoc user (up_db (updateUser franchise me notFound user
      (fun d => mkUserDoc (ud_uid d) (ud_role d) (Some (negb currentlyActive))
                          (ud_locationId d) (ud_franchiseId d))
      "Failed to update user status" p)) = Some d').
  { rewrite Hdb, Hd, String.eqb_refl. reflexivity. }
  assert (Hme : may_enter d' <-> ud_role d = superadmin \/ currentlyActive = false).
  { unfold may_enter, d'; cbn. destruct currentlyActive; cbn; split;
      intros [H|H]; auto; discriminate. }
  split; [exact Hnew|]. split; [|split; [exact Hme|]].
  - intros other Ho. rewrite Hdb. apply String.eqb_neq in Ho. rewrite Ho.
    now destruct (userDoc other (up_db p)).
  - intros Hact Hrole trim signIn email password locationId a Ha Hs.
    assert (Hno : ~ may_enter d').
    { intros H. apply Hme in H. destruct H; [contradiction | congruence]. }
    rewrite <- Ha in Hnew. split.
    + unfold login, getUserWithRole. cbn [auth_users signedIn clearError].
      destruct (trim email =? "")%string; [discriminate|].
      destruct (password =? "")%string; [discriminate|].
      rewrite Hs, Hnew. cbn [option_map].
      destruct (role_eqb (role (userOf d')) salesperson &&
                otherLocation (userOf d') locationId); [discriminate|].
      destruct (inactiveAccount (userOf d')) eqn:Ei; [discriminate|].
      apply inactiveAccount_false in Ei. contradiction.
    + intros Hsess. unfold authStateChanged, getUserWithRole.
      rewrite Hsess, Hnew. cbn [option_map].
      destruct (inactiveAccount (userOf d')) eqn:Ei; [reflexivity|].
      apply inactiveAccount_false in Ei. contradiction.
Qed.
End AdminUsersFacts.

(** ** The manager's dashboard *)

Lemma units_from {A} (f : A -> Z) l a :
  fold_left (fun t x => t + f x) l a = a + fold_left (fun t x => t + f x) l 0.
Proof.
  revert a. induction l as [|x l IH]; intros a; cbn.
  - lia.
  - rewrite (IH (a + f x)), (IH (f x)). lia.
Qed.

(** X28. What a successful [addReturn] does to the manager's dashboard, in
    a session whose [sales] and [returns] are what was last read: a
    purchase return, and any return when returns are not processed, leaves
    net sales, net transactions and net items sold as they were; a sales
    return leaves the sales total as it was, lowers net transactions by
    one and net items sold by the units it carries, and makes net sales
    the sales total less the sum that starts from the recorded total and
    adds the totals of the earlier sales returns in their order; when it
    is the first sales return read, net sales are the sales total less
    the recorded total. *)
Theorem dashboard_after_return :
  forall canProcessReturns w docId data,
    outcome (addReturn docId data) w = Ok tt ->
    returns_in_sync w -> sales_in_sync w ->
    let w' := exec (addReturn docId data) w in
    (rf_type data = purchase_return \/ canProcessReturns = false ->
     netSales canProcessReturns w' = netSales canProcessReturns w /\
     netTransactions canProcessReturns w' = netTransactions canProcessReturns w /\
     netItemsSold canProcessReturns w' = netItemsSold canProcessReturns w) /\
    (rf_type data = sale_return -> canProcessReturns = true ->
     totalSales w' = totalSales w /\
     netSales canProcessReturns w' =
       (totalSales w -
        fold_left (fun sum r => sum + ret_total r)
                  (filter isSaleReturn (returns w)) (0 + returnTotal data))%Q /\
     (filter isSaleReturn (returns w) = [] ->
      (netSales canProcessReturns w' == totalSales w - returnTotal data)%Q) /\
     netTransactions canProcessReturns w' = netTransactions canProcessReturns w - 1 /\
     netItemsSold canProcessReturns w' =
     netItemsSold canProcessReturns w - returnedUnits data).
Proof.
  intros c w docId data Hok Hsync Hsales w'.
  pose proof (addReturn_reads_back _ _ _ Hok) as (Hr & _ & _). fold w' in Hr.
  rewrite <- Hsync in Hr.
  assert (Hs : sales w' = sales w).
  { subst w'. apply addReturn_ok in Hok. destruct Hok as (_ & ps & ->).
    unfold refreshSales, refreshReturns. run_ctx. cbn. now rewrite Hsales. }
  unfold netSales, netTransactions, netItemsSold, totalSales, totalTransactions,
    totalItemsSold, totalReturns, totalSalesReturns, totalItemsReturned.
  assert (Hi : isSaleReturn (returnRecord docId data w) =
               match rf_type data with sale_return => true | purchase_return => false end)
    by reflexivity.
  rewrite Hs, Hr. cbn [filter]. rewrite Hi. split.
  - intros [Ht | Hc].
    + rewrite Ht. cbn iota. repeat split; reflexivity.
    + rewrite Hc. repeat split; reflexivity.
  - intros Ht ->. rewrite Ht. cbn [fold_left List.length].
    change (ret_total (returnRecord docId data w)) with (returnTotal data).
    change (ret_items (returnRecord docId data w)) with (rf_items data).
    fold (returnedUnits data). split; [reflexivity|]. split; [reflexivity|].
    split; [|split].
    + intros ->. cbn [fold_left]. ring.
    + lia.
    + rewrite (units_from _ (filter isSaleReturn (returns w)) (0 + returnedUnits data)).
      lia.
Qed.

(** ** The properties at sample inputs *)

Lemma shop_wf (q k : Z) : 1 <= k -> cart_wf (Sample.shop q k).
Proof.
  intros Hk. unfold cart_wf; cbn. repeat split.
  - constructor; [intros [] | constructor].
  - constructor; [intros [] | constructor].
  - constructor; [exact Hk | constructor].
Qed.

Lemma cart_stays_well_formed_witness :
  cart_wf (Sample.shop 3 2) /\
  cart_wf (exec (updateQuantity "c1" 4) (Sample.shop 3 2)).
Proof.
  split.
  - apply shop_wf. lia.
  - apply (cart_stays_well_formed (Sample.shop 3 2)). apply shop_wf. lia.
Defined.

Lemma cart_editing_conserves_units_witness :
  cart_wf (Sample.shop 3 2) /\
  on_hand "P" (exec (updateQuantity "c1" 4) (Sample.shop 3 2)) +
  reserved "P" (exec (updateQuantity "c1" 4) (Sample.shop 3 2)) = 3 + 2.
Proof.
  split.
  - apply shop_wf. lia.
  - apply (cart_editing_conserves_units (Sample.shop 3 2) "P"). apply shop_wf. lia.
Defined.

Lemma plus_then_minus_restores_witness :
  cart_wf (Sample.shop 3 2) /\
  items (exec (decrementLine (Sample.line 3))
              (exec (incrementLine (Sample.line 2)) (Sample.shop 3 2))) = [Sample.line 2].
Proof.
  split.
  - apply shop_wf. lia.
  - apply (plus_then_minus_restores (Sample.shop 3 2) (Sample.line 2) (Sample.P 3)).
    + apply shop_wf. lia.
    + now left.
    + reflexivity.
    + cbn. lia.
Defined.

Lemma checkout_sale_agrees_with_cart_witness :
  exists s,
    salesDb (exec (handleConfirmCheckout "s1" "20240101" cash) (Sample.shop 2 3)) = [s] /\
    sale_items s = [Sample.line 3] /\
    sale_total s = total (Sample.shop 2 3) /\
    sale_consistent s /\
    items (exec (handleConfirmCheckout "s1" "20240101" cash) (Sample.shop 2 3)) = [].
Proof.
  destruct (proj1 (checkout_sale_agrees_with_cart (Sample.shop 2 3) "s1" "20240101" cash)
              Sample.seller eq_refl (or_introl eq_refl))
    as (s & Hd & _ & Hi & _ & _ & _ & Ht & Hc & _ & _ & He).
  exists s. split; [exact Hd|]. split; [exact Hi|]. split; [exact Ht|].
  split; [exact Hc | exact He].
Defined.

Lemma checkout_rejected_keeps_cart_witness :
  exec (handleConfirmCheckout "s1" "20240101" cash) Fixture.strayShop =
    set_counter (Some 1%N) Fixture.strayShop /\
  items (exec (handleConfirmCheckout "s1" "20240101" cash) (Sample.shop 2 3)) = [] /\
  (exists s,
     salesDb (exec (handleConfirmCheckout "s1" "20240101" cash) (Sample.shop 2 3)) =
       s :: salesDb (Sample.shop 2 3)) /\
  exec (handleConfirmCheckout "s1" "20240101" cash) (Sample.bare None None []) =
    Sample.bare None None [].
Proof.
  split; [|split; [|split]].
  - exact (proj2 (proj2 (checkout_rejected_keeps_cart Fixture.strayShop
                           "s1" "20240101" cash)) Sample.stray eq_refl).
  - exact (proj1 (proj2 (proj2 (checkout_rejected_keeps_cart (Sample.shop 2 3)
                                  "s1" "20240101" cash)) Sample.seller eq_refl)).
  - exact (proj2 (proj2 (proj2 (checkout_rejected_keeps_cart (Sample.shop 2 3)
                                  "s1" "20240101" cash)) Sample.seller eq_refl)).
  - apply (proj1 (proj2 (checkout_rejected_keeps_cart (Sample.bare None None [])
                           "s1" "20240101" cash))).
    reflexivity.
Defined.


Lemma writes_are_located_witness :
  has_role (currentUser Fixture.till) superadmin = false /\
  exists r,
    returnsDb (exec (addReturn "r1" (Sample.returnOfI None)) Fixture.till) =
      r :: returnsDb Fixture.till /\
    truthy (ret_locationId r) = true.
Proof.
  split; [reflexivity|].
  apply (proj1 (proj2 (writes_are_located Fixture.till eq_refl))). reflexivity.
Defined.

Lemma return_queries_agree_witness :
  isOrderReturned (returns Sample.returnedAtL1) "S" = true.
Proof.
  apply (proj1 (proj2 (proj2 (return_queries_agree (returns Sample.returnedAtL1) "S"))) "I").
  reflexivity.
Defined.

Lemma return_is_not_accepted_twice_witness :
  outcome (addReturn "r1" (Sample.returnOfI None)) Fixture.till = Ok tt /\
  outcome (addReturn "r2" (Sample.returnOfI None))
          (exec (addReturn "r1" (Sample.returnOfI None)) Fixture.till) =
  Thrown (ItemAlreadyReturned "Ragi flour").
Proof.
  split; [reflexivity|].
  apply (proj2 (proj2 (return_is_not_accepted_twice Fixture.till "r1" "r2"
                         (Sample.returnOfI None) eq_refl)) Sample.I []).
  reflexivity.
Defined.

Lemma addReturn_stops_half_way_witness :
  outcome (addReturn "r1" Fixture.returnOfIJ) Fixture.till =
    Thrown (ProductNotFound "Jaggery") /\
  returnsDb (exec (addReturn "r1" Fixture.returnOfIJ) Fixture.till) =
    returnsDb Fixture.till.
Proof.
  split; [reflexivity|].
  apply (addReturn_stops_half_way Fixture.till "r1" Fixture.returnOfIJ "Jaggery").
  reflexivity.
Defined.

Lemma addReturn_extends_order_returns_witness :
  outcome (addReturn "r1" (Sample.returnOfI None)) Fixture.till = Ok tt /\
  returns_in_sync Fixture.till /\
  (getTotalReturnAmount
     (returns (exec (addReturn "r1" (Sample.returnOfI None)) Fixture.till)) "S" ==
   returnTotal (Sample.returnOfI None))%Q.
Proof.
  split; [reflexivity|]. split; [reflexivity|].
  apply (proj1 (proj2 (proj2 (proj2
           (addReturn_extends_order_returns Fixture.till "r1" (Sample.returnOfI None)
              eq_refl eq_refl))))).
  reflexivity.
Defined.

Lemma addCategory_reads_back_witness :
  outcome (addCategory "c9" "Millets" (Some "")) Fixture.till = Ok tt /\
  In (mkCategory "c9" "Millets" None (Some "L1"))
     (categories (exec (addCategory "c9" "Millets" (Some "")) Fixture.till)).
Proof.
  assert (H : outcome (addCategory "c9" "Millets" (Some "")) Fixture.till = Ok tt).
  { apply (proj1 (addCategory_reads_back Fixture.till "c9" "Millets" (Some ""))).
    left. reflexivity. }
  split; [exact H|].
  exact (proj1 (proj2 (proj2 (addCategory_reads_back Fixture.till "c9" "Millets"
                                (Some "")) H))).
Defined.

Lemma deleteCategory_removes_by_id_witness :
  categoriesDb (exec (deleteCategory "c9")
                     (exec (addCategory "c9" "Millets" None) Fixture.till)) =
  categoriesDb Fixture.till.
Proof.
  refine (proj1 (proj2 (proj2 (proj2 (deleteCategory_removes_by_id Fixture.till "c9")))
                   "Millets" None _ _)).
  - reflexivity.
  - intros [].
Defined.

Lemma refreshLocations_assigns_own_location_witness :
  currentLocation
    (exec (refreshLocations Fixture.sorted [Fixture.docL2; Fixture.docL1])
          (Sample.bare (Some Sample.seller) None [])) = Some Sample.L1.
Proof.
  apply (refreshLocations_assigns_own_location Fixture.sorted
           [Fixture.docL2; Fixture.docL1] (Sample.bare (Some Sample.seller) None [])
           Sample.seller "L1" Fixture.docL1).
  - reflexivity.
  - discriminate.
  - reflexivity.
  - reflexivity.
  - reflexivity.
  - left. reflexivity.
Defined.

Lemma refreshLocations_selects_a_location_witness :
  exists d,
    In d [Fixture.docL2; Fixture.docL1] /\
    currentLocation
      (exec (refreshLocations Fixture.sorted [Fixture.docL2; Fixture.docL1])
            (Sample.bare (Some Sample.root) None [])) = Some (locationOf d) /\
    hd_error (Fixture.sorted (map locationOf [Fixture.docL2; Fixture.docL1])) =
      Some (locationOf d).
Proof.
  apply (refreshLocations_selects_a_location Fixture.sorted
           [Fixture.docL2; Fixture.docL1] (Sample.bare (Some Sample.root) None [])).
  - intros l. apply Permutation_refl.
  - reflexivity.
  - discriminate.
  - reflexivity.
Defined.

Lemma locationSelector_binds_restricted_roles_witness :
  exists l',
    locationSelector [Sample.L2; Sample.L1] (Some Sample.seller) = AssignedLocation l' /\
    In l' [Sample.L2; Sample.L1] /\ loc_id l' = "L1".
Proof.
  apply (proj1 (locationSelector_binds_restricted_roles [Sample.L2; Sample.L1]
                  (Some Sample.seller)) Sample.seller "L1" Sample.L1).
  - reflexivity.
  - right. right. reflexivity.
  - reflexivity.
  - reflexivity.
  - right. left. reflexivity.
  - reflexivity.
Defined.

Lemma addStockUpdate_effect_witness :
  fst (addStockUpdate Fixture.restockP Fixture.books) = Done.
Proof.
  apply (proj2 (proj2 (proj2 (addStockUpdate_effect Fixture.books Fixture.restockP)
                         (Sample.P 3) eq_refl))).
  - left. reflexivity.
  - right. reflexivity.
Defined.

Lemma addPurchase_effect_witness :
  fst (addPurchase Fixture.purchaseP Fixture.books) = Done.
Proof.
  apply (proj2 (proj2 (addPurchase_effect Fixture.books Fixture.purchaseP)
                  (Sample.P 3) eq_refl)).
  left. reflexivity.
Defined.

Lemma login_resolves_iff_witness :
  fst (login Fixture.trimmed Fixture.provider "ann@shop" "pw" (Some "L1")
             Fixture.signedOut) = Resolves tt.
Proof.
  apply (proj1 (login_resolves_iff Fixture.trimmed Fixture.provider "ann@shop" "pw"
                  (Some "L1") Fixture.signedOut)).
  split; [discriminate|]. split; [discriminate|].
  exists "u2", Fixture.ann. split; [reflexivity|]. split; [reflexivity|]. split.
  - intros _ own l [= <-] _ [= <-] _. reflexivity.
  - right. reflexivity.
Defined.

Lemma login_rejected_session_witness :
  fst (login Fixture.trimmed Fixture.provider "bob@shop" "pw" None Fixture.signedOut) =
    Rejects inactiveMessage /\
  auth_error (snd (login Fixture.trimmed Fixture.provider "bob@shop" "pw" None
                         Fixture.signedOut)) = Some inactiveMessage.
Proof.
  split; [reflexivity|].
  apply (login_rejected_session Fixture.trimmed Fixture.provider "bob@shop" "pw" None
           Fixture.signedOut "u4" inactiveMessage).
  - discriminate.
  - discriminate.
  - reflexivity.
  - reflexivity.
Defined.

Lemma rejected_location_is_signed_in_witness :
  fst (login Fixture.trimmed Fixture.provider "ann@shop" "pw" (Some "L2")
             Fixture.signedOut) =
    Rejects "You do not have access to this location" /\
  auth_currentUser
    (authStateChanged
       (snd (login Fixture.trimmed Fixture.provider "ann@shop" "pw" (Some "L2")
                   Fixture.signedOut))) = Some (userOf Fixture.ann).
Proof.
  destruct (rejected_location_is_signed_in Fixture.trimmed Fixture.provider
              "ann@shop" "pw" "L1" "L2" "u2" Fixture.ann Fixture.signedOut)
    as (H1 & _ & H3 & _).
  - discriminate.
  - discriminate.
  - reflexivity.
  - reflexivity.
  - reflexivity.
  - reflexivity.
  - reflexivity.
  - discriminate.
  - discriminate.
  - discriminate.
  - split; [exact H1 | exact H3].
Defined.

Lemma authStateChanged_admits_witness :
  authStateChanged (signedIn (Some "u4") Fixture.signedOut) =
  mkAuthState None None (Some inactiveMessage) (auth_users Fixture.signedOut).
Proof.
  apply (proj1 (proj2 (authStateChanged_admits (signedIn (Some "u4") Fixture.signedOut)))
           "u4" Fixture.bob).
  - reflexivity.
  - reflexivity.
  - intros [H|H]; discriminate.
Defined.

Lemma register_stores_witness :
  exists d,
    userDoc "u9"
      (auth_users (snd (register Fixture.signUp (Some "f1") "eve@shop" "pw" salesperson
                                 None (Some "L2") Fixture.adminSession))) = Some d /\
    ud_role d = salesperson /\ ud_locationId d = Some "L2" /\
    ud_franchiseId d = Some "f1" /\
    auth_currentUser Fixture.adminSession = Some Sample.adminL1 /\
    auth_currentUser
      (authStateChanged
         (snd (register Fixture.signUp (Some "f1") "eve@shop" "pw" salesperson
                        None (Some "L2") Fixture.adminSession))) = Some (userOf d) /\
    auth_currentUser
      (authStateChanged (signedIn (Some "u9") (clearError Fixture.adminSession))) = None.
Proof.
  destruct (register_stores Fixture.signUp (Some "f1") "eve@shop" "pw" salesperson
              None (Some "L2") Fixture.adminSession
              (snd (register Fixture.signUp (Some "f1") "eve@shop" "pw" salesperson
                             None (Some "L2") Fixture.adminSession))
              "u9" eq_refl)
    as (_ & _ & (d & Hd & Hr & _ & _ & Hn & Hs & Hcur & _) & Hbefore & _).
  exists d. split; [exact Hd|]. split; [exact Hr|]. split; [exact (proj1 (Hs eq_refl))|].
  split.
  - assert (Hne : salesperson <> superadmin) by discriminate.
    exact (proj1 (Hn Hne)).
  - split; [reflexivity|]. split; [exact Hcur|]. apply Hbefore. reflexivity.
Defined.

Lemma register_rejected_witness :
  auth_users (snd (register Fixture.signUp None "eve@shop" "pw" salesperson
                            (Some "f1") None Fixture.signedOut)) =
  auth_users Fixture.signedOut.
Proof.
  apply (proj2 (register_rejected Fixture.signUp None "eve@shop" "pw" salesperson
                  (Some "f1") None Fixture.signedOut)
           "Location is required for salesperson role. Please select a location."
           (snd (register Fixture.signUp None "eve@shop" "pw" salesperson
                          (Some "f1") None Fixture.signedOut))).
  reflexivity.
Defined.

Lemma register_then_login_witness :
  exists u,
    fst (login Fixture.trimmed Fixture.provider "eve@shop" "pw" (Some "L2")
           (snd (register Fixture.signUp (Some "f1") "eve@shop" "pw" salesperson
                          None (Some "L2") Fixture.signedOut))) = Resolves tt /\
    uid u = "u9" /\ role u = salesperson /\ isActive u = true.
Proof.
  destruct (register_then_login Fixture.signUp (Some "f1") Fixture.trimmed
              Fixture.provider "eve@shop" "pw" "eve@shop" "pw" salesperson
              None (Some "L2") (Some "L2") Fixture.signedOut
              (snd (register Fixture.signUp (Some "f1") "eve@shop" "pw" salesperson
                             None (Some "L2") Fixture.signedOut))
              "u9" eq_refl)
    as (u & E & H).
  - discriminate.
  - discriminate.
  - reflexivity.
  - right. reflexivity.
  - exists u. split; [now rewrite E | exact H].
Defined.

Lemma updateUserRole_grants_no_admin_witness :
  updateUserRole (Some "f1") (Some Sample.adminL1) "not found" "u2" admin Fixture.page =
  mkUsersPage (up_db Fixture.page) (up_users Fixture.page)
    (Some "You do not have permission to create admin or superadmin users").
Proof.
  apply (proj2 (proj2 (updateUserRole_grants_no_admin (Some "f1") (Some Sample.adminL1)
                         "not found" "u2" admin Fixture.page))).
  left. reflexivity.
Defined.

Lemma toggleUserStatus_locks_out_witness :
  userDoc "u2" (up_db Fixture.page) = Some Fixture.ann /\
  fst (login Fixture.trimmed Fixture.provider "ann@shop" "pw" None
         (mkAuthState None None None
            (up_db (toggleUserStatus (Some "f1") (Some Sample.adminL1) "not found"
                                     "u2" true Fixture.page)))) <> Resolves tt.
Proof.
  split; [reflexivity|].
  apply (proj2 (proj2 (proj2 (toggleUserStatus_locks_out (Some "f1")
                                (Some Sample.adminL1) "not found" "u2" true
                                Fixture.page Fixture.ann eq_refl)))
           eq_refl).
  - discriminate.
  - reflexivity.
  - reflexivity.
Defined.

Lemma dashboard_after_return_witness :
  outcome (addReturn "r1" (Sample.returnOfI None)) Fixture.till = Ok tt /\
  returns_in_sync Fixture.till /\ sales_in_sync Fixture.till /\
  (netSales true (exec (addReturn "r1" (Sample.returnOfI None)) Fixture.till) ==
   totalSales Fixture.till - returnTotal (Sample.returnOfI None))%Q /\
  netItemsSold true (exec (addReturn "r1" (Sample.returnOfI None)) Fixture.till) =
  netItemsSold true Fixture.till - 2.
Proof.
  split; [reflexivity|]. split; [reflexivity|]. split; [reflexivity|].
  destruct (proj2 (dashboard_after_return true Fixture.till "r1" (Sample.returnOfI None)
                     eq_refl eq_refl eq_refl) eq_refl eq_refl)
    as (_ & _ & Hfirst & _ & Hitems).
  split; [apply Hfirst; reflexivity | exact Hitems].
Defined.
